(** * MediPro backend: cart, order, category, review and listing services

    A shallow embedding of the service layer of the MediPro e-commerce
    backend ([app/services/*.py]) together with the SQLAlchemy models it
    works on ([app/models/*.py]).

    - A table is the list of its rows, in storage order.
    - A select is a [filter] over the table; [scalar_one_or_none] and
      [scalar_one] keep SQLAlchemy's behaviour on zero, one and several rows.
    - An [AsyncSession] is a pair of database images: [persisted], what is
      committed, and [pending], what the session sees (loaded objects and
      their unflushed or uncommitted changes).  [commit] copies the second
      onto the first.  What is pending when a service raises is never
      committed: the request ends there and its session is discarded.
    - Constraints of the schema that a service relies on without checking
      them (primary keys, the unique (user, product) pair of [cart_items],
      the foreign key from a cart line to its product) appear as hypotheses
      of the statements, next to the fresh [uuid4] of a new row.
    - Python [int] is [Z].  Monetary amounts ([Numeric(10, 2)] columns,
      [Decimal], and the [float] arithmetic the services do on them) live in
      one carrier [num] whose operations are kept abstract in the class
      [Amount]: every statement below holds for whatever arithmetic the
      runtime offers.  The instance on [Q] is used to evaluate examples. *)

From Stdlib Require Import ZArith List String Ascii Bool Lia.
From Stdlib Require Import QArith DecimalString Sorted Permutation.
Import ListNotations.
Local Open Scope Z_scope.

Set Implicit Arguments.
Set Maximal Implicit Insertion.

(** ** Identifiers and amounts *)

(** [uuid.UUID]: an opaque identifier with decidable equality. *)
Definition UUID := Z.

Class Amount (num : Type) : Type := {
  num_of_int : Z -> num;
  num_add : num -> num -> num;
  num_mul : num -> num -> num;
  num_leb : num -> num -> bool;
  num_eqb : num -> num -> bool
}.

#[export] Instance Amount_Q : Amount Q := {
  num_of_int := inject_Z;
  num_add := Qplus;
  num_mul := Qmult;
  num_leb := Qle_bool;
  num_eqb := Qeq_bool
}.


(** Python's [sum(xs)] over integers. *)
Definition sum_int (xs : list Z) : Z := fold_left Z.add xs 0.

(** [x == y] on optional identifiers (a nullable foreign key against a key). *)
Definition opt_uuid_is (o : option UUID) (k : UUID) : bool :=
  match o with Some v => v =? k | None => false end.

(** ** Models ([app/models]) *)

Module User.
Record t := mk {
  id : UUID; email : string; full_name : option string;
  is_active : bool; is_verified : bool; is_admin : bool; created_at : Z }.
End User.

Module Category.
Record t := mk {
  id : UUID; name : string; slug : string; description : option string;
  parent_id : option UUID; display_order : Z;
  is_active : bool; is_featured : bool }.

Definition set_parent_id (v : option UUID) (c : t) : t :=
  mk (id c) (name c) (slug c) (description c) v (display_order c)
     (is_active c) (is_featured c).
End Category.

Module Product.
Record t (num : Type) := mk {
  id : UUID; name : string; description : string; sku : option string;
  price : num; category_id : option UUID; category : string;
  subcategory : option string; stock_quantity : Z;
  is_active : bool; is_featured : bool; created_at : Z }.

Definition set_stock_quantity {num} (v : Z) (p : t num) : t num :=
  mk (id p) (name p) (description p) (sku p) (price p) (category_id p)
     (category p) (subcategory p) v (is_active p) (is_featured p)
     (created_at p).
End Product.

Module CartItem.
Record t := mk {
  id : UUID; user_id : UUID; product_id : UUID; quantity : Z }.

Definition set_quantity (v : Z) (c : t) : t :=
  mk (id c) (user_id c) (product_id c) v.
End CartItem.

Inductive OrderStatus :=
| PENDING | CONFIRMED | PROCESSING | SHIPPED | DELIVERED | CANCELLED | REFUNDED.

Inductive PaymentStatus :=
| PAY_PENDING | PAY_PAID | PAY_FAILED | PAY_REFUNDED.

Definition OrderStatus_eqb (a b : OrderStatus) : bool :=
  match a, b with
  | PENDING, PENDING | CONFIRMED, CONFIRMED | PROCESSING, PROCESSING
  | SHIPPED, SHIPPED | DELIVERED, DELIVERED | CANCELLED, CANCELLED
  | REFUNDED, REFUNDED => true
  | _, _ => false
  end.

Module Order.
Record t (num : Type) := mk {
  id : UUID; user_id : UUID; order_number : Z * Z;
  total_amount : num; subtotal : num; shipping_cost : num;
  tax_amount : num; discount_amount : num;
  status : OrderStatus; payment_status : PaymentStatus;
  customer_name : string; customer_email : string; customer_phone : string;
  payment_method : option string; customer_notes : option string;
  created_at : Z }.

Definition set_status {num} (v : OrderStatus) (o : t num) : t num :=
  mk (id o) (user_id o) (order_number o) (total_amount o) (subtotal o)
     (shipping_cost o) (tax_amount o) (discount_amount o) v
     (payment_status o) (customer_name o) (customer_email o)
     (customer_phone o) (payment_method o) (customer_notes o)
     (created_at o).
End Order.

Module OrderItem.
Record t (num : Type) := mk {
  id : UUID; order_id : UUID; product_id : option UUID;
  product_name : string; product_sku : option string; quantity : Z;
  price_at_purchase : num; subtotal : num }.

Definition set_product_id {num} (v : option UUID) (i : t num) : t num :=
  mk (id i) (order_id i) v (product_name i) (product_sku i) (quantity i)
     (price_at_purchase i) (subtotal i).
End OrderItem.

Module Review.
Record t := mk {
  id : UUID; user_id : UUID; product_id : UUID; rating : Z;
  title : option string; comment : option string;
  is_verified_purchase : bool; is_approved : bool; created_at : Z }.
End Review.

(** ** The database and the session *)

Record Db (num : Type) := mkDb {
  users : list User.t;
  categories : list Category.t;
  products : list (Product.t num);
  cart_items : list CartItem.t;
  orders : list (Order.t num);
  order_items : list (OrderItem.t num);
  reviews : list Review.t
}.

Definition set_categories {num} (v : list Category.t) (d : Db num) : Db num :=
  mkDb (users d) v (products d) (cart_items d) (orders d) (order_items d)
       (reviews d).
Definition set_products {num} (v : list (Product.t num)) (d : Db num) : Db num :=
  mkDb (users d) (categories d) v (cart_items d) (orders d) (order_items d)
       (reviews d).
Definition set_cart_items {num} (v : list CartItem.t) (d : Db num) : Db num :=
  mkDb (users d) (categories d) (products d) v (orders d) (order_items d)
       (reviews d).
Definition set_orders {num} (v : list (Order.t num)) (d : Db num) : Db num :=
  mkDb (users d) (categories d) (products d) (cart_items d) v (order_items d)
       (reviews d).
Definition set_order_items {num} (v : list (OrderItem.t num)) (d : Db num)
  : Db num :=
  mkDb (users d) (categories d) (products d) (cart_items d) (orders d) v
       (reviews d).
Definition set_reviews {num} (v : list Review.t) (d : Db num) : Db num :=
  mkDb (users d) (categories d) (products d) (cart_items d) (orders d)
       (order_items d) v.

(** [commits] counts the calls of [db.commit()]; [next_uuid] stands for the
    source of [uuid.uuid4()] primary keys; [now] for [datetime.utcnow()] and
    the server's [func.now()]. *)
Record Session (num : Type) := mkSession {
  persisted : Db num;
  pending : Db num;
  commits : nat;
  next_uuid : UUID;
  now : Z
}.

(** A session as a request receives it: nothing pending, nothing committed
    by it yet. *)
Definition open_session {num} (d : Db num) (fresh : UUID) (t : Z) : Session num :=
  mkSession d d 0%nat fresh t.

(** ** Exceptions and the session monad *)

Inductive exn :=
| ValueError (msg : string)
| MultipleResultsFound
| NoResultFound
| AttributeError
| ZeroDivisionError
| RecursionError
| KeyError
| DBAPIError
| InvalidRequestError
| IntegrityError.

Inductive outcome (A : Type) :=
| Ok (a : A)
| Raise (e : exn).
Arguments Ok {A} a.
Arguments Raise {A} e.

Definition M (num A : Type) : Type := Session num -> outcome A * Session num.

Definition ret {num A} (a : A) : M num A := fun s => (Ok a, s).

Definition bind {num A B} (m : M num A) (k : A -> M num B) : M num B :=
  fun s => match m s with
           | (Ok a, s') => k a s'
           | (Raise e, s') => (Raise e, s')
           end.

Definition raise {num A} (e : exn) : M num A := fun s => (Raise e, s).

Notation "x <- c1 ;; c2" := (bind c1 (fun x => c2))
  (at level 100, c1 at next level, right associativity).
Notation "c1 ;; c2" := (bind c1 (fun _ => c2))
  (at level 100, right associativity).

(** [await db.execute(select(...))]: rows as the session sees them. *)
Definition execute {num A} (q : Db num -> A) : M num A :=
  fun s => (Ok (q (pending s)), s).

(** A change made through the session (attribute assignment on a loaded
    object, [db.add], [db.delete], a bulk statement): pending until commit. *)
Definition mutate {num} (f : Db num -> Db num) : M num unit :=
  fun s => (Ok tt, mkSession (persisted s) (f (pending s)) (commits s)
                             (next_uuid s) (now s)).

(** [await db.commit()]. *)
Definition commit {num} : M num unit :=
  fun s => (Ok tt, mkSession (pending s) (pending s) (S (commits s))
                             (next_uuid s) (now s)).

(** Primary-key default [uuid.uuid4]. *)
Definition uuid4 {num} : M num UUID :=
  fun s => (Ok (next_uuid s),
            mkSession (persisted s) (pending s) (commits s)
                      (next_uuid s + 1) (now s)).

Definition utcnow {num} : M num Z := fun s => (Ok (now s), s).

(** [Result.scalar_one_or_none()]. *)
Definition scalar_one_or_none {num A} (rows : list A) : M num (option A) :=
  match rows with
  | [] => ret None
  | [r] => ret (Some r)
  | _ :: _ :: _ => raise MultipleResultsFound
  end.

(** [Result.scalar_one()]. *)
Definition scalar_one {num A} (rows : list A) : M num A :=
  match rows with
  | [] => raise NoResultFound
  | [r] => ret r
  | _ :: _ :: _ => raise MultipleResultsFound
  end.

(** ** Generic table operations *)

(** [UPDATE ... WHERE sel]: rows that match are rewritten in place. *)
Definition update_where {A} (sel : A -> bool) (f : A -> A) (rows : list A)
  : list A :=
  map (fun r => if sel r then f r else r) rows.

(** [DELETE ... WHERE sel]. *)
Definition delete_where {A} (sel : A -> bool) (rows : list A) : list A :=
  filter (fun r => negb (sel r)) rows.

(** [.offset(o).limit(n)] on bounds that are not negative (see [fetch_page]). *)
Definition offset_limit {A} (o n : Z) (rows : list A) : list A :=
  firstn (Z.to_nat n) (skipn (Z.to_nat o) rows).

(** ** Relationships ([relationship(...)] attributes of the models) *)

Section Relationships.
Context {num : Type}.

(** [CartItem.product]: many-to-one through [product_id]. *)
Definition CartItem_product (d : Db num) (ci : CartItem.t)
  : option (Product.t num) :=
  find (fun p => Product.id p =? CartItem.product_id ci) (products d).

(** [Order.items]: one-to-many through [OrderItem.order_id]. *)
Definition Order_items (d : Db num) (o : Order.t num)
  : list (OrderItem.t num) :=
  filter (fun i => OrderItem.order_id i =? Order.id o) (order_items d).

(** [Category.products]: one-to-many through [Product.category_id]. *)
Definition Category_products (d : Db num) (c : Category.t)
  : list (Product.t num) :=
  filter (fun p => opt_uuid_is (Product.category_id p) (Category.id c))
         (products d).

(** [Category.subcategories], the backref of [Category.parent]: one-to-many
    through [parent_id].  The relationship declares no [order_by]: the rows
    come in storage order. *)
Definition Category_subcategories (d : Db num) (c : Category.t)
  : list Category.t :=
  filter (fun k => opt_uuid_is (Category.parent_id k) (Category.id c))
         (categories d).

(** [Category.product_count]. *)
Definition Category_product_count (d : Db num) (c : Category.t) : Z :=
  Z.of_nat (List.length (Category_products d c)).

(** [Category.has_subcategories]. *)
Definition Category_has_subcategories (d : Db num) (c : Category.t) : bool :=
  (0 <? Z.of_nat (List.length (Category_subcategories d c))).
End Relationships.

(** ** Cart service ([app/services/cart_service.py], [app/schemas/cart.py]) *)

(** A cart row together with its loaded [product] relationship. *)
Definition LoadedCartItem (num : Type) : Type :=
  (CartItem.t * option (Product.t num))%type.

Module CartResponse.
Record t (num : Type) := mk {
  items : list (LoadedCartItem num);
  total_items : Z;
  subtotal : num }.
End CartResponse.

Section CartService.
Context {num : Type} `{Amount num}.



(** [select(CartItem).where(CartItem.user_id == user_id)
      .options(selectinload(CartItem.product))]. *)
Definition select_cart (user_id : UUID) (d : Db num)
  : list (LoadedCartItem num) :=
  map (fun ci => (ci, CartItem_product d ci))
      (filter (fun ci => CartItem.user_id ci =? user_id) (cart_items d)).


(** [await db.refresh(cart_item)]: the row is read again by primary key. *)
Definition refresh_cart_item (ci : CartItem.t) : M num CartItem.t :=
  row <- execute (fun d =>
           find (fun c => CartItem.id c =? CartItem.id ci) (cart_items d));;
  match row with
  | Some c => ret c
  | None => raise InvalidRequestError
  end.

Definition add_to_cart (user_id product_id : UUID) (quantity : Z)
  : M num (LoadedCartItem num) :=
  product_result <- execute (fun d =>
      filter (fun p => Product.id p =? product_id) (products d));;
  product <- scalar_one_or_none product_result;;
  match product with
  | None => raise (ValueError "Product not found")
  | Some product =>
    if negb (Product.is_active product)
    then raise (ValueError "Product is not available")
    else if Product.stock_quantity product <? quantity
    then raise (ValueError "Insufficient stock")
    else
      result <- execute (fun d =>
          filter (fun c => (CartItem.user_id c =? user_id)
                           && (CartItem.product_id c =? product_id))
                 (cart_items d));;
      cart_item <- scalar_one_or_none result;;
      cart_item <-
        match cart_item with
        | Some cart_item =>
            (* cart_item.quantity += quantity *)
            let cart_item' :=
              CartItem.set_quantity (CartItem.quantity cart_item + quantity)
                                    cart_item in
            mutate (fun d => set_cart_items
                      (update_where
                         (fun c => CartItem.id c =? CartItem.id cart_item)
                         (CartItem.set_quantity
                            (CartItem.quantity cart_item + quantity))
                         (cart_items d)) d);;
            if CartItem.quantity cart_item' >? Product.stock_quantity product
            then raise (ValueError "Insufficient stock")
            else ret cart_item'
        | None =>
            new_id <- uuid4;;
            let cart_item := CartItem.mk new_id user_id product_id quantity in
            mutate (fun d => set_cart_items (cart_items d ++ [cart_item]) d);;
            ret cart_item
        end;;
      commit;;
      cart_item <- refresh_cart_item cart_item;;
      product <- execute (fun d => CartItem_product d cart_item);;
      ret (cart_item, product)
  end.

Definition update_cart_item (item_id user_id : UUID) (quantity : Z)
  : M num (option CartItem.t) :=
  result <- execute (fun d =>
      filter (fun c => (CartItem.id c =? item_id)
                       && (CartItem.user_id c =? user_id))
             (cart_items d));;
  cart_item <- scalar_one_or_none result;;
  match cart_item with
  | None => ret None
  | Some cart_item =>
    product <- execute (fun d => CartItem_product d cart_item);;
    match product with
    | None => raise AttributeError
    | Some product =>
      if Product.stock_quantity product <? quantity
      then raise (ValueError "Insufficient stock")
      else
        mutate (fun d => set_cart_items
                  (update_where
                     (fun c => CartItem.id c =? CartItem.id cart_item)
                     (CartItem.set_quantity quantity)
                     (cart_items d)) d);;
        commit;;
        cart_item <- refresh_cart_item
                       (CartItem.set_quantity quantity cart_item);;
        ret (Some cart_item)
    end
  end.

Definition remove_from_cart (item_id user_id : UUID) : M num bool :=
  result <- execute (fun d =>
      filter (fun c => (CartItem.id c =? item_id)
                       && (CartItem.user_id c =? user_id))
             (cart_items d));;
  cart_item <- scalar_one_or_none result;;
  match cart_item with
  | None => ret false
  | Some cart_item =>
      mutate (fun d => set_cart_items
                (delete_where
                   (fun c => CartItem.id c =? CartItem.id cart_item)
                   (cart_items d)) d);;
      commit;;
      ret true
  end.

Definition clear_cart (user_id : UUID) : M num unit :=
  rows <- execute (fun d =>
      filter (fun c => CartItem.user_id c =? user_id) (cart_items d));;
  mutate (fun d => set_cart_items
            (delete_where
               (fun c => existsb (fun x => CartItem.id x =? CartItem.id c)
                                 rows)
               (cart_items d)) d);;
  commit.
End CartService.

(** ** Order service ([app/services/order_service.py]) *)

(** [str(uuid)] inside the f-strings of the error messages. *)
Definition str_uuid (u : UUID) : string := NilZero.string_of_int (Z.to_int u).

Module OrderCreate.
Record t := mk {
  customer_name : string; customer_email : string; customer_phone : string;
  payment_method : option string; customer_notes : option string }.
End OrderCreate.

(** The dictionaries collected in [order_items] by the first loop. *)
Module ItemData.
Record t (num : Type) := mk {
  product_id : UUID; product_name : string; product_sku : option string;
  quantity : Z; price_at_purchase : num; subtotal : num }.
End ItemData.

(** An order together with its loaded [items] relationship. *)
Definition LoadedOrder (num : Type) : Type :=
  (Order.t num * list (OrderItem.t num))%type.

Section OrderService.
Context {num : Type} `{Amount num}.

(** The first loop of [create_order]: validation of every cart line against
    the live product, and the running [subtotal]. *)
Fixpoint collect_order_items (cart_items : list (LoadedCartItem num))
         (subtotal : num) (order_items : list (ItemData.t num))
  : outcome (num * list (ItemData.t num)) :=
  match cart_items with
  | [] => Ok (subtotal, order_items)
  | cart_item :: rest =>
    match snd cart_item with
    | None =>
        Raise (ValueError ("Product '"
                 ++ str_uuid (CartItem.product_id (fst cart_item))
                 ++ "' is not available"))
    | Some product =>
      if negb (Product.is_active product)
      then Raise (ValueError ("Product '"
                    ++ str_uuid (CartItem.product_id (fst cart_item))
                    ++ "' is not available"))
      else if Product.stock_quantity product <? CartItem.quantity (fst cart_item)
      then Raise (ValueError ("Insufficient stock for '"
                    ++ Product.name product ++ "'"))
      else
        let item_subtotal :=
          num_mul (Product.price product)
                  (num_of_int (CartItem.quantity (fst cart_item))) in
        collect_order_items rest (num_add subtotal item_subtotal)
          (order_items ++
             [ItemData.mk (Product.id product) (Product.name product)
                (Product.sku product) (CartItem.quantity (fst cart_item))
                (Product.price product) item_subtotal])
    end
  end.

(** The second loop of [create_order]: one [OrderItem] per collected line and
    the stock decrement on the product selected again by id. *)
Fixpoint add_order_items (order_id : UUID) (item_list : list (ItemData.t num))
  : M num unit :=
  match item_list with
  | [] => ret tt
  | item_data :: rest =>
      new_id <- uuid4;;
      mutate (fun d => set_order_items
                (order_items d ++
                   [OrderItem.mk new_id order_id
                      (Some (ItemData.product_id item_data))
                      (ItemData.product_name item_data)
                      (ItemData.product_sku item_data)
                      (ItemData.quantity item_data)
                      (ItemData.price_at_purchase item_data)
                      (ItemData.subtotal item_data)]) d);;
      product_result <- execute (fun d =>
          filter (fun p => Product.id p =? ItemData.product_id item_data)
                 (products d));;
      product <- scalar_one product_result;;
      (* product.stock_quantity -= item_data["quantity"] *)
      mutate (fun d => set_products
                (update_where
                   (fun p => Product.id p =? Product.id product)
                   (Product.set_stock_quantity
                      (Product.stock_quantity product
                       - ItemData.quantity item_data))
                   (products d)) d);;
      add_order_items order_id rest
  end.

(** [select(Order).options(selectinload(Order.items)).where(Order.id == id)]. *)
Definition select_order_by_id (order_id : UUID) (d : Db num)
  : list (LoadedOrder num) :=
  map (fun o => (o, Order_items d o))
      (filter (fun o => Order.id o =? order_id) (orders d)).

(** [str(user_id)[:4].upper()]: the first four hexadecimal digits of the
    128-bit identifier. *)
Definition uuid_prefix (u : UUID) : Z := u / 2 ^ 112.

(** [db.add(order)] followed by [await db.flush()]: the INSERT is refused
    when the primary key or the unique [order_number] is already taken. *)
Definition insert_order (order : Order.t num) : M num unit :=
  taken <- execute (fun d =>
      existsb (fun o => (Order.id o =? Order.id order)
                        || ((fst (Order.order_number o)
                             =? fst (Order.order_number order))
                            && (snd (Order.order_number o)
                                =? snd (Order.order_number order))))
              (orders d));;
  if taken then raise IntegrityError
  else mutate (fun d => set_orders (orders d ++ [order]) d).

(** [await db.refresh(order)]: the row is read again by primary key. *)
Definition refresh_order (o : Order.t num) : M num (Order.t num) :=
  row <- execute (fun d =>
           find (fun x => Order.id x =? Order.id o) (orders d));;
  match row with
  | Some x => ret x
  | None => raise InvalidRequestError
  end.

Definition create_order (user_id : UUID) (order_data : OrderCreate.t)
  : M num (LoadedOrder num) :=
  cart_rows <- execute (select_cart user_id);;
  match cart_rows with
  | [] => raise (ValueError "Cart is empty")
  | _ :: _ =>
    match collect_order_items cart_rows (num_of_int 0) [] with
    | Raise e => raise e
    | Ok (subtotal, item_list) =>
      let shipping_cost :=
        if num_leb (num_of_int 5000) subtotal
        then num_of_int 0 else num_of_int 250 in
      let total_amount := num_add subtotal shipping_cost in
      stamp <- utcnow;;
      (* f"MP-{stamp}-{prefix}": the timestamp and the id fragment *)
      let order_number := (stamp, uuid_prefix user_id) in
      order_id <- uuid4;;
      let order :=
        Order.mk order_id user_id order_number total_amount subtotal
          shipping_cost (num_of_int 0) (num_of_int 0) PENDING PAY_PENDING
          (OrderCreate.customer_name order_data)
          (OrderCreate.customer_email order_data)
          (OrderCreate.customer_phone order_data)
          (OrderCreate.payment_method order_data)
          (OrderCreate.customer_notes order_data) stamp in
      insert_order order;;
      add_order_items order_id item_list;;
      mutate (fun d => set_cart_items
                (delete_where (fun c => CartItem.user_id c =? user_id)
                              (cart_items d)) d);;
      commit;;
      refresh_order order;;
      result <- execute (select_order_by_id order_id);;
      scalar_one result
    end
  end.

Definition get_order (order_id user_id : UUID)
  : M num (option (LoadedOrder num)) :=
  result <- execute (fun d =>
      map (fun o => (o, Order_items d o))
          (filter (fun o => (Order.id o =? order_id)
                            && (Order.user_id o =? user_id)) (orders d)));;
  scalar_one_or_none result.

(** The loop of [cancel_order] over [order.items]. *)
Fixpoint restore_stock (item_list : list (OrderItem.t num)) : M num unit :=
  match item_list with
  | [] => ret tt
  | item :: rest =>
      match OrderItem.product_id item with
      | Some product_id =>
          product_result <- execute (fun d =>
              filter (fun p => Product.id p =? product_id) (products d));;
          product <- scalar_one_or_none product_result;;
          match product with
          | Some product =>
              (* product.stock_quantity += item.quantity *)
              mutate (fun d => set_products
                        (update_where
                           (fun p => Product.id p =? Product.id product)
                           (Product.set_stock_quantity
                              (Product.stock_quantity product
                               + OrderItem.quantity item))
                           (products d)) d)
          | None => ret tt
          end
      | None => ret tt
      end;;
      restore_stock rest
  end.

Definition cancel_order (order_id user_id : UUID)
  : M num (option (LoadedOrder num)) :=
  result <- execute (fun d =>
      map (fun o => (o, Order_items d o))
          (filter (fun o => (Order.id o =? order_id)
                            && (Order.user_id o =? user_id)) (orders d)));;
  order <- scalar_one_or_none result;;
  match order with
  | None => ret None
  | Some (order, item_list) =>
    if negb (existsb (OrderStatus_eqb (Order.status order))
                     [PENDING; CONFIRMED])
    then raise (ValueError "Order cannot be cancelled at this stage")
    else
      mutate (fun d => set_orders
                (update_where (fun o => Order.id o =? Order.id order)
                              (Order.set_status CANCELLED) (orders d)) d);;
      restore_stock item_list;;
      commit;;
      order <- refresh_order order;;
      item_list <- execute (fun d => Order_items d order);;
      ret (Some (order, item_list))
  end.
End OrderService.

(** ** Listings: filter, count, sort, page *)

Module ListResponse.
Record t (A : Type) := mk {
  items : list A; total : Z; page : Z; page_size : Z; total_pages : Z }.
End ListResponse.

(** [ORDER BY] as a stable insertion sort on the [le] of the sort key. *)
Fixpoint insert_by {A} (le : A -> A -> bool) (x : A) (l : list A) : list A :=
  match l with
  | [] => [x]
  | y :: t => if le x y then x :: y :: t else y :: insert_by le x t
  end.

Definition order_by {A} (le : A -> A -> bool) (rows : list A) : list A :=
  fold_right (insert_by le) [] rows.

(** [col.ilike("%term%")]: a case-insensitive substring test (ASCII letters;
    the characters of [term] are taken literally). *)
Definition lower_ascii (c : ascii) : ascii :=
  let n := nat_of_ascii c in
  if ((65 <=? n) && (n <=? 90))%nat then ascii_of_nat (n + 32) else c.

Fixpoint lower (s : string) : string :=
  match s with
  | EmptyString => EmptyString
  | String c t => String (lower_ascii c) (lower t)
  end.

Fixpoint contains (needle hay : string) : bool :=
  String.prefix needle hay
  || match hay with
     | EmptyString => false
     | String _ t => contains needle t
     end.

Definition ilike (col term : string) : bool := contains (lower term) (lower col).

Definition ilike_opt (col : option string) (term : string) : bool :=
  match col with Some c => ilike c term | None => false end.

(** Truthiness of an optional string ([if search:]). *)
Definition truthy_str (o : option string) : option string :=
  match o with
  | Some EmptyString => None
  | other => other
  end.

(** [ORDER BY display_order ASC, name ASC]. *)
Definition category_le (a b : Category.t) : bool :=
  (Category.display_order a <? Category.display_order b)
  || ((Category.display_order a =? Category.display_order b)
      && String.leb (Category.name a) (Category.name b)).

Definition bool_eqb_opt (flt : option bool) (v : bool) : bool :=
  match flt with Some b => Bool.eqb v b | None => true end.

Module ProductFilter.
Record t (num : Type) := mk {
  category : option string; subcategory : option string;
  min_price : option num; max_price : option num;
  is_featured : option bool; is_active : option bool;
  in_stock_only : bool; search : option string;
  sort_by : string; sort_order : string;
  page : Z; page_size : Z }.
End ProductFilter.

Section Listings.
Context {num : Type} `{Amount num}.

(** [math.ceil(total / page_size)]: the ceiling of the exact quotient. *)
Definition math_ceil_div (total page_size : Z) : M num Z :=
  if page_size =? 0 then raise ZeroDivisionError
  else ret (- ((- total) / page_size)).

(** [query.offset(offset).limit(page_size)] and its execution. *)
Definition fetch_page {A} (offset page_size : Z) (rows : list A)
  : M num (list A) :=
  if (offset <? 0) || (page_size <? 0) then raise DBAPIError
  else ret (offset_limit offset page_size rows).


(** *** [ProductService.get_products] *)




(** *** [CategoryService.get_categories] *)



(** *** [OrderService.get_user_orders], [OrderService.get_all_orders] *)






(** *** [ReviewService.get_product_reviews], [ReviewService.get_user_reviews]
    (the [average_rating] field of the response is left out) *)




(** *** [AdminService.get_users] *)

Definition user_where (is_active is_admin : option bool)
           (search : option string) (u : User.t) : bool :=
  bool_eqb_opt is_active (User.is_active u)
  && bool_eqb_opt is_admin (User.is_admin u)
  && match truthy_str search with
     | Some term => ilike (User.email u) term
                    || ilike_opt (User.full_name u) term
     | None => true end.

Definition user_created_desc (a b : User.t) : bool :=
  User.created_at b <=? User.created_at a.

Definition get_users (page page_size : Z) (is_active is_admin : option bool)
           (search : option string)
  : M num (ListResponse.t User.t) :=
  let query := fun d : Db num =>
    filter (user_where is_active is_admin search) (users d) in
  total <- execute (fun d => Z.of_nat (List.length (query d)));;
  let offset := (page - 1) * page_size in
  rows <- execute (fun d => order_by user_created_desc (query d));;
  user_rows <- fetch_page offset page_size rows;;
  total_pages <-
    (if 0 <? total then math_ceil_div total page_size else ret 1);;
  ret (ListResponse.mk user_rows total page page_size total_pages).
End Listings.

(** ** Category service ([app/services/category_service.py]) *)

(** [CategoryTree] of [app/schemas/category.py]. *)
#[warnings="-register-all"] Inductive CategoryTree :=
| TreeNode (id : UUID) (name slug : string) (product_count : Z)
           (subcategories : list CategoryTree).

Definition tree_id (t : CategoryTree) : UUID :=
  match t with TreeNode i _ _ _ _ => i end.

Definition tree_subcategories (t : CategoryTree) : list CategoryTree :=
  match t with TreeNode _ _ _ _ subs => subs end.

(** All results or the first failure of a list of recursive calls. *)
Fixpoint sequence_outcome {A} (l : list (outcome A)) : outcome (list A) :=
  match l with
  | [] => Ok []
  | Raise e :: _ => Raise e
  | Ok a :: t => match sequence_outcome t with
                 | Ok r => Ok (a :: r)
                 | Raise e => Raise e
                 end
  end.

Section CategoryService.
Context {num : Type} `{Amount num}.

(** [category_map[key]] for [{cat.id: cat for cat in all_categories}]: a
    later entry with the same key replaces an earlier one. *)
Definition category_map_get (all_categories : list Category.t) (key : UUID)
  : option Category.t :=
  find (fun c => Category.id c =? key) (rev all_categories).

(** [_build_category_tree_node]; [depth] bounds the recursion as the
    interpreter's recursion limit does. *)
Fixpoint _build_category_tree_node (depth : nat) (d : Db num)
         (category : Category.t) (category_map : list Category.t)
  : outcome CategoryTree :=
  match depth with
  | O => Raise RecursionError
  | S depth' =>
    let subcategories :=
      sequence_outcome
        (map (fun subcat =>
                match category_map_get category_map (Category.id subcat) with
                | Some c => _build_category_tree_node depth' d c category_map
                | None => Raise KeyError
                end)
             (filter (fun subcat =>
                        match category_map_get category_map
                                               (Category.id subcat) with
                        | Some _ => Category.is_active subcat
                        | None => false
                        end)
                     (Category_subcategories d category))) in
    match subcategories with
    | Ok subcategories =>
        Ok (TreeNode (Category.id category) (Category.name category)
              (Category.slug category) (Category_product_count d category)
              subcategories)
    | Raise e => Raise e
    end
  end.

Definition get_category_tree (depth : nat) : M num (list CategoryTree) :=
  all_categories <- execute (fun d : Db num =>
      order_by category_le
               (filter (fun c => Category.is_active c) (categories d)));;
  d <- execute (fun d => d);;
  match sequence_outcome
          (map (fun category =>
                  _build_category_tree_node depth d category all_categories)
               (filter (fun category =>
                          match Category.parent_id category with
                          | None => true
                          | Some _ => false
                          end) all_categories)) with
  | Ok tree => ret tree
  | Raise e => raise e
  end.

Definition get_main_categories : M num (list Category.t) :=
  execute (fun d : Db num =>
    order_by category_le
      (filter (fun c => match Category.parent_id c with
                        | None => Category.is_active c
                        | Some _ => false
                        end) (categories d))).

Definition get_category (category_id : UUID) : M num (option Category.t) :=
  result <- execute (fun d : Db num =>
      filter (fun c => Category.id c =? category_id) (categories d));;
  scalar_one_or_none result.

(** [session.delete(product)] as the unit of work carries it out for the
    relationships of [Product]: [cart_items] and [reviews] are declared
    [cascade="all, delete-orphan"] and go with the product; [order_items]
    has the default cascade, so its rows are kept and de-associated. *)
Definition session_delete_product (p : Product.t num) (d : Db num) : Db num :=
  set_products
    (delete_where (fun x => Product.id x =? Product.id p) (products d))
    (set_cart_items
       (delete_where (fun c => CartItem.product_id c =? Product.id p)
                     (cart_items d))
       (set_reviews
          (delete_where (fun r => Review.product_id r =? Product.id p)
                        (reviews d))
          (set_order_items
             (update_where
                (fun i => opt_uuid_is (OrderItem.product_id i) (Product.id p))
                (OrderItem.set_product_id None) (order_items d)) d))).

(** [session.delete(category)] for the relationships of [Category]:
    [products] is declared [cascade="all, delete-orphan"], so every product
    of the category is deleted with it; [subcategories] (the backref of
    [parent]) has the default cascade, so the children are kept and their
    [parent_id] is set to NULL before the row is removed. *)
Definition session_delete_category (c : Category.t) (d : Db num) : Db num :=
  let d1 := fold_left (fun acc p => session_delete_product p acc)
                      (Category_products d c) d in
  set_categories
    (delete_where (fun x => Category.id x =? Category.id c)
       (update_where
          (fun x => opt_uuid_is (Category.parent_id x) (Category.id c))
          (Category.set_parent_id None) (categories d1))) d1.

Definition delete_category (category_id : UUID) (force : bool) : M num bool :=
  category <- get_category category_id;;
  match category with
  | None => ret false
  | Some category =>
    product_count <- execute (fun d => Category_product_count d category);;
    has_subcategories <- execute (fun d =>
                           Category_has_subcategories d category);;
    if negb force && (0 <? product_count)
    then raise (ValueError
           ("Category has " ++ NilZero.string_of_int (Z.to_int product_count)
            ++ " products. Set force=True to delete anyway (products will be uncategorized)."))
    else if negb force && has_subcategories
    then raise (ValueError
           "Category has subcategories. Set force=True to delete anyway (subcategories will become main categories).")
    else
      mutate (session_delete_category category);;
      commit;;
      ret true
  end.
End CategoryService.

(** ** Review service ([app/services/review_service.py]) *)

Module ReviewCreate.
Record t := mk {
  product_id : UUID; rating : Z;
  title : option string; comment : option string }.
End ReviewCreate.

Section ReviewService.
Context {num : Type} `{Amount num}.

(** [select(OrderItem).join(Order).where(Order.user_id == user_id,
      OrderItem.product_id == product_id)]: one row per pair of an order
    line and its order. *)
Definition purchased_items (user_id product_id : UUID) (d : Db num)
  : list (OrderItem.t num) :=
  flat_map
    (fun i =>
       map (fun _ => i)
           (filter (fun o => (Order.id o =? OrderItem.order_id i)
                             && (Order.user_id o =? user_id)) (orders d)))
    (filter (fun i => opt_uuid_is (OrderItem.product_id i) product_id)
            (order_items d)).

Definition create_review (user_id : UUID) (review_data : ReviewCreate.t)
  : M num Review.t :=
  existing <- execute (fun d : Db num =>
      filter (fun r => (Review.user_id r =? user_id)
                       && (Review.product_id r
                           =? ReviewCreate.product_id review_data))
             (reviews d));;
  existing <- scalar_one_or_none existing;;
  match existing with
  | Some _ => raise (ValueError "You have already reviewed this product")
  | None =>
    order_result <- execute (purchased_items user_id
                               (ReviewCreate.product_id review_data));;
    purchased <- scalar_one_or_none order_result;;
    let is_verified_purchase :=
      match purchased with Some _ => true | None => false end in
    new_id <- uuid4;;
    stamp <- utcnow;;
    let review :=
      Review.mk new_id user_id (ReviewCreate.product_id review_data)
        (ReviewCreate.rating review_data) (ReviewCreate.title review_data)
        (ReviewCreate.comment review_data) is_verified_purchase true stamp in
    mutate (fun d => set_reviews (reviews d ++ [review]) d);;
    commit;;
    ret review
  end.
End ReviewService.

(** ** Further operations of the services *)

Definition PaymentStatus_eqb (a b : PaymentStatus) : bool :=
  match a, b with
  | PAY_PENDING, PAY_PENDING | PAY_PAID, PAY_PAID | PAY_FAILED, PAY_FAILED
  | PAY_REFUNDED, PAY_REFUNDED => true
  | _, _ => false
  end.

Definition Order_set_payment_status {num} (v : PaymentStatus) (o : Order.t num)
  : Order.t num :=
  Order.mk (Order.id o) (Order.user_id o) (Order.order_number o)
    (Order.total_amount o) (Order.subtotal o) (Order.shipping_cost o)
    (Order.tax_amount o) (Order.discount_amount o) (Order.status o) v
    (Order.customer_name o) (Order.customer_email o) (Order.customer_phone o)
    (Order.payment_method o) (Order.customer_notes o) (Order.created_at o).

Definition Category_set_display_order (v : Z) (c : Category.t) : Category.t :=
  Category.mk (Category.id c) (Category.name c) (Category.slug c)
    (Category.description c) (Category.parent_id c) v (Category.is_active c)
    (Category.is_featured c).

Definition User_set_is_active (v : bool) (u : User.t) : User.t :=
  User.mk (User.id u) (User.email u) (User.full_name u) v (User.is_verified u)
          (User.is_admin u) (User.created_at u).

Definition User_set_is_admin (v : bool) (u : User.t) : User.t :=
  User.mk (User.id u) (User.email u) (User.full_name u) (User.is_active u)
          (User.is_verified u) v (User.created_at u).

Section MoreOrderService.
Context {num : Type} `{Amount num}.

Definition get_order_admin (order_id : UUID)
  : M num (option (LoadedOrder num)) :=
  result <- execute (fun d =>
      map (fun o => (o, Order_items d o))
          (filter (fun o => Order.id o =? order_id) (orders d)));;
  scalar_one_or_none result.

(** [update_order_status]; the [delivered_at] column it stamps on delivery
    is not among the columns the record [Order.t] keeps. *)
Definition update_order_status (order_id : UUID) (new_status : OrderStatus)
  : M num (option (LoadedOrder num)) :=
  result <- execute (fun d =>
      map (fun o => (o, Order_items d o))
          (filter (fun o => Order.id o =? order_id) (orders d)));;
  order <- scalar_one_or_none result;;
  match order with
  | None => ret None
  | Some (order, _) =>
    mutate (fun d => set_orders
              (update_where (fun o => Order.id o =? Order.id order)
                            (Order.set_status new_status) (orders d)) d);;
    (if OrderStatus_eqb new_status DELIVERED
     then mutate (fun d => set_orders
                    (update_where (fun o => Order.id o =? Order.id order)
                                  (Order_set_payment_status PAY_PAID)
                                  (orders d)) d)
     else if OrderStatus_eqb new_status CANCELLED
     then if PaymentStatus_eqb (Order.payment_status order) PAY_PAID
          then mutate (fun d => set_orders
                         (update_where (fun o => Order.id o =? Order.id order)
                                       (Order_set_payment_status PAY_REFUNDED)
                                       (orders d)) d)
          else ret tt
     else ret tt);;
    commit;;
    order <- refresh_order order;;
    item_list <- execute (fun d => Order_items d order);;
    ret (Some (order, item_list))
  end.
End MoreOrderService.

(** *** Categories: creation, update, reordering, slugs *)

Module CategoryCreate.
Record t := mk {
  name : string; slug : string; description : option string;
  parent_id : option UUID; display_order : Z;
  is_active : bool; is_featured : bool }.
End CategoryCreate.

(** [CategoryUpdate] as [model_dump(exclude_unset=True)] reads it: [None] is
    a field the request left out.  The two nullable columns the record keeps
    as options ([description], [parent_id]) can also be sent as null
    ([Some None]); a null sent for one of the other fields is outside this
    model. *)
Module CategoryUpdate.
Record t := mk {
  name : option string; slug : option string;
  description : option (option string);
  parent_id : option (option UUID); display_order : option Z;
  is_active : option bool; is_featured : option bool }.
End CategoryUpdate.

(** One entry of the list [reorder_categories] receives: a JSON object whose
    keys ["id"] and ["display_order"] may be missing. *)
Module OrderEntry.
Record t := mk { id : option UUID; display_order : option Z }.
End OrderEntry.

Definition or_else {A} (o : option A) (a : A) : A :=
  match o with Some v => v | None => a end.

(** [for field, value in update_dict.items(): setattr(category, field, value)]. *)
Definition apply_category_update (u : CategoryUpdate.t) (c : Category.t)
  : Category.t :=
  Category.mk (Category.id c)
    (or_else (CategoryUpdate.name u) (Category.name c))
    (or_else (CategoryUpdate.slug u) (Category.slug c))
    (or_else (CategoryUpdate.description u) (Category.description c))
    (or_else (CategoryUpdate.parent_id u) (Category.parent_id c))
    (or_else (CategoryUpdate.display_order u) (Category.display_order c))
    (or_else (CategoryUpdate.is_active u) (Category.is_active c))
    (or_else (CategoryUpdate.is_featured u) (Category.is_featured c)).

(** *** [generate_slug], on ASCII names *)

Definition is_slug_char (c : ascii) : bool :=
  let n := nat_of_ascii c in
  (((97 <=? n) && (n <=? 122)) || ((48 <=? n) && (n <=? 57)))%nat.

Definition dash : ascii := "-"%char.

(** [re.sub(r'[^a-z0-9]+', '-', s)]: every maximal run of other characters
    becomes one dash; [in_run] tells that the run has begun. *)
Fixpoint sub_runs (in_run : bool) (s : list ascii) : list ascii :=
  match s with
  | [] => []
  | c :: t =>
      if is_slug_char c then c :: sub_runs false t
      else if in_run then sub_runs true t
      else dash :: sub_runs true t
  end.

(** [s.lstrip('-')] and [s.strip('-')]. *)
Fixpoint lstrip_dash (s : list ascii) : list ascii :=
  match s with
  | [] => []
  | c :: t => if Ascii.eqb c dash then lstrip_dash t else c :: t
  end.

Definition strip_dash (s : list ascii) : list ascii :=
  rev (lstrip_dash (rev (lstrip_dash s))).

Definition generate_slug (name : string) : string :=
  string_of_list_ascii
    (strip_dash
       (sub_runs false (map lower_ascii (list_ascii_of_string name)))).

Section MoreCategoryService.
Context {num : Type} `{Amount num}.

Definition check_slug_availability (slug : string) (category_id : option UUID)
  : M num bool :=
  result <- execute (fun d : Db num =>
      filter (fun c => String.eqb (Category.slug c) slug
                       && match category_id with
                          | Some cid => negb (Category.id c =? cid)
                          | None => true
                          end) (categories d));;
  existing <- scalar_one_or_none result;;
  ret (match existing with None => true | Some _ => false end).

Definition get_category_by_slug (slug : string) : M num (option Category.t) :=
  result <- execute (fun d : Db num =>
      filter (fun c => String.eqb (Category.slug c) slug) (categories d));;
  scalar_one_or_none result.

(** The flush of a new or changed category row [c]: the statement is refused
    when another row holds its primary key, its unique [name] or its unique
    [slug]. *)
Definition category_clash (c : Category.t) (others : list Category.t) : bool :=
  existsb (fun o => (Category.id o =? Category.id c)
                    || String.eqb (Category.name o) (Category.name c)
                    || String.eqb (Category.slug o) (Category.slug c)) others.

(** [await db.refresh(category)]: the row is read again by primary key. *)
Definition refresh_category (c : Category.t) : M num Category.t :=
  row <- execute (fun d : Db num =>
           find (fun x => Category.id x =? Category.id c) (categories d));;
  match row with
  | Some x => ret x
  | None => raise InvalidRequestError
  end.

Definition create_category (category_data : CategoryCreate.t)
  : M num Category.t :=
  is_available <-
    check_slug_availability (CategoryCreate.slug category_data) None;;
  if negb is_available
  then raise (ValueError ("Slug '" ++ CategoryCreate.slug category_data
                          ++ "' is already in use"))
  else
    (match CategoryCreate.parent_id category_data with
     | Some parent_id =>
         parent_result <- execute (fun d : Db num =>
             filter (fun c => Category.id c =? parent_id) (categories d));;
         parent <- scalar_one_or_none parent_result;;
         match parent with
         | None => raise (ValueError "Parent category not found")
         | Some _ => ret tt
         end
     | None => ret tt
     end);;
    new_id <- uuid4;;
    let category :=
      Category.mk new_id (CategoryCreate.name category_data)
        (CategoryCreate.slug category_data)
        (CategoryCreate.description category_data)
        (CategoryCreate.parent_id category_data)
        (CategoryCreate.display_order category_data)
        (CategoryCreate.is_active category_data)
        (CategoryCreate.is_featured category_data) in
    refused <- execute (fun d : Db num => category_clash category (categories d));;
    if refused then raise IntegrityError
    else
      mutate (fun d => set_categories (categories d ++ [category]) d);;
      commit;;
      refresh_category category.

Definition update_category (category_id : UUID) (category_data : CategoryUpdate.t)
  : M num (option Category.t) :=
  category <- get_category category_id;;
  match category with
  | None => ret None
  | Some category =>
    (match truthy_str (CategoryUpdate.slug category_data) with
     | Some slug =>
         if negb (String.eqb slug (Category.slug category))
         then
           is_available <- check_slug_availability slug (Some category_id);;
           if negb is_available
           then raise (ValueError ("Slug '" ++ slug ++ "' is already in use"))
           else ret tt
         else ret tt
     | None => ret tt
     end);;
    (match CategoryUpdate.parent_id category_data with
     | Some (Some parent_id) =>
         if parent_id =? category_id
         then raise (ValueError "Category cannot be its own parent")
         else
           parent_result <- execute (fun d : Db num =>
               filter (fun c => Category.id c =? parent_id) (categories d));;
           parent <- scalar_one_or_none parent_result;;
           match parent with
           | None => raise (ValueError "Parent category not found")
           | Some _ => ret tt
           end
     | _ => ret tt
     end);;
    let updated := apply_category_update category_data category in
    refused <- execute (fun d : Db num =>
        category_clash updated
          (filter (fun c => negb (Category.id c =? Category.id category))
                  (categories d)));;
    if refused then raise IntegrityError
    else
      mutate (fun d => set_categories
                (update_where (fun c => Category.id c =? Category.id category)
                              (apply_category_update category_data)
                              (categories d)) d);;
      commit;;
      category <- refresh_category category;;
      ret (Some category)
  end.

(** The loop of [reorder_categories]. *)
Fixpoint reorder_loop (category_orders : list OrderEntry.t) : M num unit :=
  match category_orders with
  | [] => ret tt
  | item :: rest =>
      match OrderEntry.id item with
      | None => raise KeyError
      | Some item_id =>
          result <- execute (fun d : Db num =>
              filter (fun c => Category.id c =? item_id) (categories d));;
          category <- scalar_one_or_none result;;
          match category with
          | Some category =>
              match OrderEntry.display_order item with
              | None => raise KeyError
              | Some display_order =>
                  mutate (fun d => set_categories
                            (update_where
                               (fun c => Category.id c =? Category.id category)
                               (Category_set_display_order display_order)
                               (categories d)) d)
              end
          | None => ret tt
          end
      end;;
      reorder_loop rest
  end.

End MoreCategoryService.

(** *** Products, reviews, users *)

Module ReviewUpdate.
Record t := mk {
  rating : option Z; title : option string; comment : option string }.
End ReviewUpdate.

(** The three assignments of [update_review], each under its
    [is not None] test. *)
Definition apply_review_update (u : ReviewUpdate.t) (r : Review.t) : Review.t :=
  Review.mk (Review.id r) (Review.user_id r) (Review.product_id r)
    (or_else (ReviewUpdate.rating u) (Review.rating r))
    (match ReviewUpdate.title u with
     | Some v => Some v | None => Review.title r end)
    (match ReviewUpdate.comment u with
     | Some v => Some v | None => Review.comment r end)
    (Review.is_verified_purchase r) (Review.is_approved r)
    (Review.created_at r).

Section MoreServices.
Context {num : Type} `{Amount num}.

(** [ProductService.get_product]. *)
Definition get_product (product_id : UUID) : M num (option (Product.t num)) :=
  result <- execute (fun d =>
      filter (fun p => Product.id p =? product_id) (products d));;
  scalar_one_or_none result.

(** [ProductService.delete_product]. *)
Definition delete_product (product_id : UUID) : M num bool :=
  product <- get_product product_id;;
  match product with
  | None => ret false
  | Some product =>
      mutate (session_delete_product product);;
      commit;;
      ret true
  end.

(** [await db.refresh(review)]. *)
Definition refresh_review (r : Review.t) : M num Review.t :=
  row <- execute (fun d : Db num =>
           find (fun x => Review.id x =? Review.id r) (reviews d));;
  match row with
  | Some x => ret x
  | None => raise InvalidRequestError
  end.

(** [ReviewService.update_review]. *)
Definition update_review (review_id user_id : UUID) (update_data : ReviewUpdate.t)
  : M num (option Review.t) :=
  result <- execute (fun d : Db num =>
      filter (fun r => (Review.id r =? review_id)
                       && (Review.user_id r =? user_id)) (reviews d));;
  review <- scalar_one_or_none result;;
  match review with
  | None => ret None
  | Some review =>
      mutate (fun d => set_reviews
                (update_where (fun r => Review.id r =? Review.id review)
                              (apply_review_update update_data)
                              (reviews d)) d);;
      commit;;
      review <- refresh_review review;;
      ret (Some review)
  end.

(** [ReviewService.delete_review]. *)
Definition delete_review (review_id user_id : UUID) : M num bool :=
  result <- execute (fun d : Db num =>
      filter (fun r => (Review.id r =? review_id)
                       && (Review.user_id r =? user_id)) (reviews d));;
  review <- scalar_one_or_none result;;
  match review with
  | None => ret false
  | Some review =>
      mutate (fun d => set_reviews
                (delete_where (fun r => Review.id r =? Review.id review)
                              (reviews d)) d);;
      commit;;
      ret true
  end.

Definition set_users (v : list User.t) (d : Db num) : Db num :=
  mkDb v (categories d) (products d) (cart_items d) (orders d)
       (order_items d) (reviews d).

(** [AdminService.get_user]. *)
Definition get_user (user_id : UUID) : M num (option User.t) :=
  result <- execute (fun d : Db num =>
      filter (fun u => User.id u =? user_id) (users d));;
  scalar_one_or_none result.

(** [await db.refresh(user)]. *)
Definition refresh_user (u : User.t) : M num User.t :=
  row <- execute (fun d : Db num =>
           find (fun x => User.id x =? User.id u) (users d));;
  match row with
  | Some x => ret x
  | None => raise InvalidRequestError
  end.

(** [AdminService.delete_user]: the account is deactivated, not removed. *)
Definition delete_user (user_id : UUID) : M num bool :=
  user <- get_user user_id;;
  match user with
  | None => ret false
  | Some user =>
      mutate (fun d => set_users
                (update_where (fun u => User.id u =? User.id user)
                              (User_set_is_active false) (users d)) d);;
      commit;;
      ret true
  end.

(** [AdminService.make_admin] and [AdminService.revoke_admin]. *)
Definition set_admin_flag (flag : bool) (user_id : UUID)
  : M num (option User.t) :=
  user <- get_user user_id;;
  match user with
  | None => ret None
  | Some user =>
      mutate (fun d => set_users
                (update_where (fun u => User.id u =? User.id user)
                              (User_set_is_admin flag) (users d)) d);;
      commit;;
      user <- refresh_user user;;
      ret (Some user)
  end.

Definition make_admin (user_id : UUID) : M num (option User.t) :=
  set_admin_flag true user_id.

Definition revoke_admin (user_id : UUID) : M num (option User.t) :=
  set_admin_flag false user_id.

End MoreServices.

(** *** The request guards of [app/api/deps.py] *)

Inductive HTTPException :=
| UnauthorizedException (detail : string)
| ForbiddenException (detail : string).

(** What a guard answers: the user, the HTTP error it raises, or an error of
    the query underneath. *)
Inductive guarded (A : Type) :=
| Allowed (a : A)
| Refused (e : HTTPException)
| Failed (e : exn).
Arguments Allowed {A} a.
Arguments Refused {A} e.
Arguments Failed {A} e.

(** [get_current_user], past the token check: it only reads. *)
Definition get_current_user {num} (d : Db num) (user_id : UUID)
  : guarded User.t :=
  match filter (fun u => User.id u =? user_id) (users d) with
  | [] => Refused (UnauthorizedException "User not found")
  | [user] =>
      if negb (User.is_active user)
      then Refused (UnauthorizedException "User account is inactive")
      else Allowed user
  | _ :: _ :: _ => Failed MultipleResultsFound
  end.

(** [get_current_admin_user]. *)
Definition get_current_admin_user {num} (d : Db num) (user_id : UUID)
  : guarded User.t :=
  match get_current_user d user_id with
  | Allowed current_user =>
      if negb (User.is_admin current_user)
      then Refused (ForbiddenException "Admin privileges required")
      else Allowed current_user
  | other => other
  end.

(** ** Vocabulary of the statements *)

(** The stock change a list of (product, delta) entries adds up to for one
    product. *)
Fixpoint stock_delta (changes : list (UUID * Z)) (k : UUID) : Z :=
  match changes with
  | [] => 0
  | (pid, delta) :: rest =>
      (if pid =? k then delta else 0) + stock_delta rest k
  end.

Definition adjust_stock {num} (changes : list (UUID * Z)) (p : Product.t num)
  : Product.t num :=
  Product.set_stock_quantity
    (Product.stock_quantity p + stock_delta changes (Product.id p)) p.

(** What a cart line costs at the product's current price. *)
Definition line_amount {num} `{Amount num} (cp : CartItem.t * Product.t num)
  : num :=
  num_mul (Product.price (snd cp)) (num_of_int (CartItem.quantity (fst cp))).

(** The dictionary [create_order] collects for a cart line and its product. *)
Definition item_of {num} `{Amount num} (cp : CartItem.t * Product.t num)
  : ItemData.t num :=
  ItemData.mk (Product.id (snd cp)) (Product.name (snd cp))
    (Product.sku (snd cp)) (CartItem.quantity (fst cp))
    (Product.price (snd cp)) (line_amount cp).

(** Stock changes of an order placement and of a cancellation. *)
Definition placement_changes {num} (item_list : list (ItemData.t num))
  : list (UUID * Z) :=
  map (fun it => (ItemData.product_id it, - ItemData.quantity it)) item_list.

Fixpoint restoration_changes {num} (item_list : list (OrderItem.t num))
  : list (UUID * Z) :=
  match item_list with
  | [] => []
  | item :: rest =>
      match OrderItem.product_id item with
      | Some pid => (pid, OrderItem.quantity item) :: restoration_changes rest
      | None => restoration_changes rest
      end
  end.



(** The shape of a slug: groups of characters of [a-z0-9], none of them
    empty, with one dash between neighbours; or nothing at all.
    [prev_dash] tells that a group has to begin here. *)
Fixpoint dash_runs_ok (prev_dash : bool) (s : list ascii) : bool :=
  match s with
  | [] => negb prev_dash
  | c :: t =>
      if Ascii.eqb c dash then negb prev_dash && dash_runs_ok true t
      else is_slug_char c && dash_runs_ok false t
  end.

(** The same shape, a dash at the end allowed. *)
Fixpoint dash_runs_open (prev_dash : bool) (s : list ascii) : bool :=
  match s with
  | [] => true
  | c :: t =>
      if Ascii.eqb c dash then negb prev_dash && dash_runs_open true t
      else is_slug_char c && dash_runs_open false t
  end.

Definition is_slug (s : string) : bool :=
  match list_ascii_of_string s with
  | [] => true
  | c :: t => dash_runs_ok true (c :: t)
  end.

(** The quantity a list of order lines holds of one product. *)
Definition restored_quantity {num} (item_list : list (OrderItem.t num))
           (k : UUID) : Z :=
  sum_int (map (fun i => OrderItem.quantity i)
               (filter (fun i => opt_uuid_is (OrderItem.product_id i) k)
                       item_list)).


(** The tail every listing service ends with: the page fetch, the page count
    and the response. *)
Definition page_call {num A} `{Amount num} (rows : list A)
           (total page page_size empty_pages : Z)
  : M num (ListResponse.t A) :=
  page_rows <- fetch_page ((page - 1) * page_size) page_size rows;;
  total_pages <-
    (if 0 <? total then math_ceil_div total page_size else ret empty_pages);;
  ret (ListResponse.mk page_rows total page page_size total_pages).


(** ** Sample data, on the rational instance *)

Module Sample.
Definition product (id : UUID) (name : string) (price : Q)
           (category_id : option UUID) (stock_quantity : Z) (is_active : bool)
  : Product.t Q :=
  Product.mk id name "" None price category_id "devices" None stock_quantity
             is_active false 0.

Definition category (id : UUID) (name : string) (parent_id : option UUID)
           (display_order : Z) (is_active : bool) : Category.t :=
  Category.mk id name name None parent_id display_order is_active false.

Definition order (id user_id : UUID) (status : OrderStatus) : Order.t Q :=
  Order.mk id user_id (id, 0) 0%Q 0%Q 0%Q 0%Q 0%Q status PAY_PENDING
           "" "" "" None None 0.

Definition order_item (id order_id : UUID) (product_id : option UUID)
           (quantity : Z) : OrderItem.t Q :=
  OrderItem.mk id order_id product_id "" None quantity 0%Q 0%Q.

(** A root category with two active children stored out of display order
    and one inactive child; four products, the third withdrawn from sale;
    three carts; a shipped and a pending order of user 1, both holding
    product 10, the pending one with a line whose product reference is null
    and a line whose product row is gone. *)
Definition db : Db Q :=
  mkDb []
    [category 1 "Root" None 0 true;
     category 2 "B" (Some 1) 2 true;
     category 3 "A" (Some 1) 1 true;
     category 4 "Z" (Some 1) 0 false]
    [product 10 "Product A" 3000%Q (Some 1) 5 true;
     product 11 "Product B" 2500%Q None 3 true;
     product 12 "Product C" 1000%Q None 10 false;
     product 13 "Product D" 1000%Q None 4 true]
    [CartItem.mk 100 1 10 1;
     CartItem.mk 101 1 11 1;
     CartItem.mk 102 2 12 2;
     CartItem.mk 103 3 13 1]
    [order 200 1 SHIPPED; order 201 1 PENDING]
    [order_item 300 200 (Some 10) 1;
     order_item 301 201 (Some 10) 2;
     order_item 302 201 None 1;
     order_item 303 201 (Some 99) 1]
    [].

Definition session : Session Q := open_session db 1000 0.

Definition order_data : OrderCreate.t :=
  OrderCreate.mk "A. Khan" "a.khan@example.org" "0300" (Some "COD"%string) None.



(** What [create_order] answers for users 1 and 3 on [session]. *)
Definition no_order : LoadedOrder Q := (order 0 0 PENDING, []).

Definition placed_1 : LoadedOrder Q :=
  Eval vm_compute in
    match fst (create_order 1 order_data session) with
    | Ok lo => lo
    | Raise _ => no_order
    end.

Definition after_1 : Session Q :=
  Eval vm_compute in snd (create_order 1 order_data session).

Definition placed_3 : LoadedOrder Q :=
  Eval vm_compute in
    match fst (create_order 3 order_data session) with
    | Ok lo => lo
    | Raise _ => no_order
    end.

Definition after_3 : Session Q :=
  Eval vm_compute in snd (create_order 3 order_data session).
End Sample.

(** The same shop with its accounts and reviews: users 1 and 3 are
    customers, user 2 is an administrator, user 4 was deactivated; users 1
    and 2 reviewed product 10. *)
Module Backoffice.
Definition user (id : UUID) (email : string) (is_active is_admin : bool)
  : User.t :=
  User.mk id email None is_active true is_admin 0.

Definition review (id user_id product_id : UUID) (rating : Z) : Review.t :=
  Review.mk id user_id product_id rating None None false true 0.

Definition db : Db Q :=
  mkDb [user 1 "a@example.org" true false;
        user 2 "b@example.org" true true;
        user 3 "c@example.org" true false;
        user 4 "d@example.org" false false]
       (categories Sample.db) (products Sample.db) (cart_items Sample.db)
       (orders Sample.db) (order_items Sample.db)
       [review 400 1 10 5; review 401 2 10 3].

Definition session : Session Q := open_session db 1000 0.
End Backoffice.

(** * Properties *)

Unset Implicit Arguments.

(** ** Tables: selects, updates and keys *)

Section TableFacts.
Context {A : Type}.

Lemma find_head_filter (f : A -> bool) (l : list A) :
  find f l = hd_error (filter f l).
Proof.
  induction l as [|x l IH]; simpl; [reflexivity|].
  destruct (f x); simpl; auto.
Qed.

Lemma find_of_select_one (f : A -> bool) (l : list A) (x : A) :
  filter f l = [x] -> find f l = Some x.
Proof. intros E. rewrite find_head_filter, E. reflexivity. Qed.

Lemma select_one_in (f : A -> bool) (l : list A) (x : A) :
  filter f l = [x] -> In x l /\ f x = true.
Proof.
  intros E. apply filter_In. rewrite E. left. reflexivity.
Qed.

Lemma select_absent_key (key : A -> Z) (l : list A) (k : Z) :
  ~ In k (map key l) -> filter (fun r => key r =? k) l = [].
Proof.
  induction l as [|y l IH]; simpl; intros Hnot; [reflexivity|].
  destruct (Z.eqb_spec (key y) k) as [E|_].
  - exfalso. apply Hnot. left. exact E.
  - apply IH. intros Hin. apply Hnot. right. exact Hin.
Qed.

(** A select on a unique key returns at most the row that carries it. *)
Lemma select_by_key (key : A -> Z) (l : list A) (x : A) :
  NoDup (map key l) -> In x l ->
  filter (fun r => key r =? key x) l = [x].
Proof.
  induction l as [|y l IH]; simpl; intros ND Hin; [contradiction|].
  inversion ND as [|? ? Hnot ND']; subst.
  destruct Hin as [->|Hin].
  - rewrite Z.eqb_refl. f_equal. apply select_absent_key. exact Hnot.
  - destruct (Z.eqb_spec (key y) (key x)) as [E|_].
    + exfalso. apply Hnot. rewrite E. apply in_map. exact Hin.
    + apply IH; assumption.
Qed.

Lemma filter_update_where (sel upd : A -> bool) (f : A -> A) (l : list A) :
  (forall r, sel (f r) = sel r) ->
  filter sel (update_where upd f l) = update_where upd f (filter sel l).
Proof.
  intros Hsel. unfold update_where.
  induction l as [|x l IH]; simpl; [reflexivity|].
  destruct (upd x) eqn:U.
  - rewrite Hsel. destruct (sel x); simpl; rewrite ?U, IH; reflexivity.
  - destruct (sel x); simpl; rewrite ?U, IH; reflexivity.
Qed.

Lemma update_where_none (upd : A -> bool) (f : A -> A) (l : list A) :
  (forall r, In r l -> upd r = false) -> update_where upd f l = l.
Proof.
  unfold update_where. induction l as [|x l IH]; simpl; intros Hn;
    [reflexivity|].
  rewrite (Hn x (or_introl eq_refl)), IH; auto.
Qed.

End TableFacts.

(** ** Cart *)

Section CartProperties.
Context {num : Type} `{Amount num}.


(** [db.refresh] finds the row that an update by primary key rewrote. *)
Lemma refresh_after_update (rows : list CartItem.t) (ci : CartItem.t) (v : Z) :
  NoDup (map CartItem.id rows) -> In ci rows ->
  find (fun c => CartItem.id c =? CartItem.id ci)
       (update_where (fun c => CartItem.id c =? CartItem.id ci)
                     (CartItem.set_quantity v) rows)
  = Some (CartItem.set_quantity v ci).
Proof.
  intros ND Hin. apply find_of_select_one.
  rewrite filter_update_where by reflexivity.
  rewrite (select_by_key CartItem.id rows ci ND Hin).
  simpl. rewrite Z.eqb_refl. reflexivity.
Qed.


(** C10: [update_cart_item] never looks at the product's [is_active]: on a
    line the caller owns, whose product is inactive and has stock for the
    new quantity, it succeeds and the stored line carries the new quantity,
    whereas [add_to_cart] for the same product is refused with
    "Product is not available". *)
Theorem update_cart_item_skips_is_active :
  forall (d : Db num) (fresh : UUID) (t : Z) (item_id user_id : UUID)
         (quantity : Z) (ci : CartItem.t) (p : Product.t num),
    filter (fun c => (CartItem.id c =? item_id)
                     && (CartItem.user_id c =? user_id))
           (cart_items d) = [ci] ->
    NoDup (map CartItem.id (cart_items d)) ->
    filter (fun x => Product.id x =? CartItem.product_id ci) (products d)
    = [p] ->
    Product.is_active p = false ->
    quantity <= Product.stock_quantity p ->
    let s := open_session d fresh t in
    (exists s',
       update_cart_item item_id user_id quantity s
       = (Ok (Some (CartItem.set_quantity quantity ci)), s') /\
       cart_items (persisted s')
       = update_where (fun c => CartItem.id c =? CartItem.id ci)
                      (CartItem.set_quantity quantity) (cart_items d) /\
       filter (fun c => (CartItem.id c =? item_id)
                        && (CartItem.user_id c =? user_id))
              (cart_items (persisted s'))
       = [CartItem.set_quantity quantity ci]) /\
    fst (add_to_cart user_id (CartItem.product_id ci) quantity s)
    = Raise (ValueError "Product is not available").
Proof.
  intros d fresh t item_id user_id quantity ci p Hci ND Hp Hact Hq s.
  destruct (select_one_in _ _ _ Hci) as [Hin _].
  split.
  - unfold update_cart_item, bind, execute, s; simpl. rewrite Hci. simpl.
    unfold CartItem_product. rewrite (find_of_select_one _ _ _ Hp). simpl.
    replace (Product.stock_quantity p <? quantity) with false
      by (symmetry; apply Z.ltb_ge; lia).
    simpl. unfold refresh_cart_item, bind, execute; simpl.
    rewrite (refresh_after_update (cart_items d) ci quantity ND Hin).
    eexists. split; [reflexivity|]. simpl. split; [reflexivity|].
    rewrite filter_update_where by reflexivity.
    rewrite Hci. simpl. rewrite Z.eqb_refl. reflexivity.
  - unfold add_to_cart, bind, execute, s; simpl. rewrite Hp. simpl.
    rewrite Hact. reflexivity.
Qed.
End CartProperties.

(** ** Stock arithmetic shared by order placement and cancellation *)

Lemma sum_int_shift (l : list Z) (a : Z) :
  fold_left Z.add l a = a + sum_int l.
Proof.
  unfold sum_int. revert a.
  induction l as [|x l IH]; intros a; simpl; [lia|].
  rewrite IH, (IH x). lia.
Qed.

Lemma sum_int_cons (x : Z) (l : list Z) : sum_int (x :: l) = x + sum_int l.
Proof. unfold sum_int at 1. simpl. apply sum_int_shift. Qed.

Section KeyFacts.
Context {A : Type} (key : A -> Z).

Lemma key_determines_row (l : list A) (x y : A) :
  NoDup (map key l) -> In x l -> In y l -> key x = key y -> x = y.
Proof.
  intros ND Hx Hy E.
  pose proof (select_by_key key l x ND Hx) as Sx.
  assert (Hy' : In y (filter (fun r => key r =? key x) l)).
  { apply filter_In. split; [exact Hy|]. apply Z.eqb_eq. auto. }
  rewrite Sx in Hy'. destruct Hy' as [->|[]]. reflexivity.
Qed.

Lemma select_key_cases (l : list A) (k : Z) :
  NoDup (map key l) ->
  filter (fun r => key r =? k) l = []
  \/ exists x, filter (fun r => key r =? k) l = [x] /\ In x l /\ key x = k.
Proof.
  intros ND.
  destruct (filter (fun r => key r =? k) l) as [|x rest] eqn:E.
  - left. reflexivity.
  - right. exists x.
    assert (Hx : In x (filter (fun r => key r =? k) l))
      by (rewrite E; left; reflexivity).
    apply filter_In in Hx. destruct Hx as [Hin Hk]. apply Z.eqb_eq in Hk.
    subst k. rewrite (select_by_key key l x ND Hin) in E.
    split; [inversion E; subst; reflexivity | split; auto].
Qed.

(** An update addressed to the selected row of a unique key, with a value
    computed from that row, is the pointwise rewrite of the rows with the
    key. *)
Lemma update_selected_row (l : list A) (k : Z) (x : A) (g : A -> A -> A) :
  NoDup (map key l) -> In x l -> key x = k ->
  update_where (fun r => key r =? key x) (g x) l
  = map (fun r => if key r =? k then g r r else r) l.
Proof.
  intros ND Hx Hk. unfold update_where. apply map_ext_in.
  intros r Hr. rewrite Hk.
  destruct (Z.eqb_spec (key r) k) as [E|_]; [|reflexivity].
  assert (r = x) by (apply (key_determines_row l); auto; congruence).
  subst r. reflexivity.
Qed.
End KeyFacts.

Section StockFacts.
Context {num : Type}.

Lemma adjust_stock_id (changes : list (UUID * Z)) (ps : list (Product.t num)) :
  map Product.id (map (adjust_stock changes) ps) = map Product.id ps.
Proof. rewrite map_map. reflexivity. Qed.

Lemma adjust_stock_nil (ps : list (Product.t num)) :
  map (adjust_stock []) ps = ps.
Proof.
  rewrite <- (map_id ps) at 2. apply map_ext. intros [ ].
  unfold adjust_stock, Product.set_stock_quantity. simpl.
  f_equal. lia.
Qed.

Lemma adjust_stock_step (pid : UUID) (delta : Z) (rest : list (UUID * Z))
      (ps : list (Product.t num)) :
  map (adjust_stock rest)
      (map (fun p => if Product.id p =? pid
                     then Product.set_stock_quantity
                            (Product.stock_quantity p + delta) p
                     else p) ps)
  = map (adjust_stock ((pid, delta) :: rest)) ps.
Proof.
  rewrite map_map. apply map_ext. intros p.
  unfold adjust_stock. simpl.
  rewrite (Z.eqb_sym pid).
  destruct (Product.id p =? pid); unfold Product.set_stock_quantity; simpl;
    f_equal; lia.
Qed.

Lemma stock_delta_app (a b : list (UUID * Z)) (k : UUID) :
  stock_delta (a ++ b) k = stock_delta a k + stock_delta b k.
Proof.
  induction a as [|[pid delta] a IH]; simpl; [reflexivity|]. rewrite IH. lia.
Qed.
End StockFacts.

(** ** Orders *)

Section KeyPresence.
Context {A : Type} (key : A -> Z).

Lemma select_present_key (l : list A) (k : Z) :
  NoDup (map key l) -> In k (map key l) ->
  exists x, filter (fun r => key r =? k) l = [x] /\ In x l /\ key x = k.
Proof.
  intros ND Hin.
  destruct (select_key_cases key l k ND) as [E|Hx]; [|exact Hx].
  exfalso. apply in_map_iff in Hin. destruct Hin as (x & Hk & Hx).
  assert (Hf : In x (filter (fun r => key r =? k) l)).
  { apply filter_In. split; [exact Hx|]. apply Z.eqb_eq. exact Hk. }
  rewrite E in Hf. exact Hf.
Qed.
End KeyPresence.

Section OrderProperties.
Context {num : Type} `{Amount num}.


(** The first loop on lines that all pass the checks. *)
Lemma collect_order_items_valid (priced : list (CartItem.t * Product.t num)) :
  forall acc items0,
    Forall (fun cp => Product.is_active (snd cp) = true
                      /\ CartItem.quantity (fst cp)
                         <= Product.stock_quantity (snd cp)) priced ->
    collect_order_items (map (fun cp => (fst cp, Some (snd cp))) priced)
                        acc items0
    = Ok (fold_left num_add (map line_amount priced) acc,
          items0 ++ map item_of priced).
Proof.
  induction priced as [|[ci p] priced IH]; simpl; intros acc items0 Hv.
  - rewrite app_nil_r. reflexivity.
  - inversion Hv as [|? ? [Hact Hq] Hrest]; subst. simpl in *.
    rewrite Hact. simpl.
    replace (Product.stock_quantity p <? CartItem.quantity ci) with false
      by (symmetry; apply Z.ltb_ge; lia).
    rewrite IH by exact Hrest. rewrite <- app_assoc. reflexivity.
Qed.

(** The second loop never touches the committed image, the orders or the
    carts, however it ends. *)
Lemma add_order_items_frame (item_list : list (ItemData.t num)) :
  forall order_id s r s',
    add_order_items order_id item_list s = (r, s') ->
    persisted s' = persisted s /\ commits s' = commits s /\
    orders (pending s') = orders (pending s) /\
    cart_items (pending s') = cart_items (pending s).
Proof.
  induction item_list as [|it rest IH]; simpl; intros order_id s r s' E.
  - inversion E; subst. auto.
  - unfold bind, uuid4, mutate, execute in E; simpl in E.
    destruct (filter (fun p => Product.id p =? ItemData.product_id it)
                     (products (pending s))) as [|x [|y l]];
      simpl in E.
    + inversion E; subst; simpl. auto.
    + apply IH in E. simpl in E. exact E.
    + inversion E; subst; simpl. auto.
Qed.
(** The second loop on products that are all there: it returns, and what is
    pending afterwards differs in the stock of the ordered products and in
    the appended order lines only. *)
Lemma add_order_items_run (item_list : list (ItemData.t num)) :
  forall order_id s,
    NoDup (map Product.id (products (pending s))) ->
    (forall it, In it item_list ->
                In (ItemData.product_id it)
                   (map Product.id (products (pending s)))) ->
    exists s' new_items,
      add_order_items order_id item_list s = (Ok tt, s') /\
      persisted s' = persisted s /\ commits s' = commits s /\
      pending s'
      = set_products
          (map (adjust_stock (placement_changes item_list))
               (products (pending s)))
          (set_order_items (order_items (pending s) ++ new_items) (pending s)) /\
      Forall (fun i => OrderItem.order_id i = order_id) new_items /\
      map (fun i => (OrderItem.product_id i, OrderItem.quantity i)) new_items
      = map (fun it => (Some (ItemData.product_id it), ItemData.quantity it))
            item_list.
Proof.
  induction item_list as [|it rest IH]; intros order_id s ND Hall.
  - exists s, []. simpl. repeat split; auto.
    rewrite adjust_stock_nil, app_nil_r. destruct (pending s); reflexivity.
  - destruct (select_present_key Product.id (products (pending s))
                (ItemData.product_id it) ND (Hall it (or_introl eq_refl)))
      as (p & Hsel & Hin & Hid).
    simpl. unfold bind, uuid4, mutate, execute; simpl.
    rewrite Hsel. simpl.
    rewrite (@update_selected_row _ Product.id (products (pending s))
               (ItemData.product_id it) p
               (fun x => Product.set_stock_quantity
                           (Product.stock_quantity x - ItemData.quantity it))
               ND Hin Hid).
    match goal with
    | |- context [add_order_items order_id rest ?s1] =>
        destruct (IH order_id s1) as (s' & new_items & Hrun & Hp & Hc & Hpend
                                      & Hoid & Hmap)
    end.
    + simpl. rewrite map_map. simpl.
      erewrite map_ext; [exact ND|].
      intros a. destruct (Product.id a =? ItemData.product_id it); reflexivity.
    + simpl. intros it' Hit'. rewrite map_map. simpl.
      erewrite map_ext; [apply Hall; right; exact Hit'|].
      intros a. destruct (Product.id a =? ItemData.product_id it); reflexivity.
    + eexists s', (_ :: new_items). rewrite Hrun.
      split; [reflexivity|]. simpl in *.
      split; [exact Hp|]. split; [exact Hc|].
      split; [|split].
      * rewrite Hpend. unfold set_products, set_order_items; simpl.
        f_equal.
        -- apply (adjust_stock_step (ItemData.product_id it)
                    (- ItemData.quantity it)).
        -- rewrite <- app_assoc. reflexivity.
      * constructor; [reflexivity | exact Hoid].
      * simpl. rewrite Hmap. reflexivity.
Qed.

Lemma CartItem_product_spec (d : Db num) (ci : CartItem.t) (p : Product.t num) :
  CartItem_product d ci = Some p ->
  In p (products d) /\ Product.id p = CartItem.product_id ci.
Proof.
  intros E. apply find_some in E. destruct E as [Hin Hid].
  apply Z.eqb_eq in Hid. auto.
Qed.

(** Cart lines that all find a product on sale with enough stock. *)
Lemma priced_of_valid (d : Db num) (lines : list CartItem.t) :
  (forall ci, In ci lines ->
     exists p, CartItem_product d ci = Some p /\ Product.is_active p = true
               /\ CartItem.quantity ci <= Product.stock_quantity p) ->
  exists priced : list (CartItem.t * Product.t num),
    map (fun cp => (fst cp, Some (snd cp))) priced
    = map (fun ci => (ci, CartItem_product d ci)) lines /\
    map fst priced = lines /\
    Forall (fun cp => Product.is_active (snd cp) = true
                      /\ CartItem.quantity (fst cp)
                         <= Product.stock_quantity (snd cp)) priced /\
    Forall (fun cp => CartItem_product d (fst cp) = Some (snd cp)) priced.
Proof.
  induction lines as [|ci lines IH]; intros Hv.
  - exists []. simpl. repeat split; constructor.
  - destruct IH as (priced & H1 & H2 & H3 & H4).
    { intros c Hc. apply Hv. right. exact Hc. }
    destruct (Hv ci (or_introl eq_refl)) as (p & Hp & Hact & Hq).
    exists ((ci, p) :: priced). simpl. rewrite H1, H2, Hp.
    repeat split; try constructor; auto.
Qed.

Lemma placement_changes_of_lines (d : Db num)
      (priced : list (CartItem.t * Product.t num)) :
  Forall (fun cp => CartItem_product d (fst cp) = Some (snd cp)) priced ->
  placement_changes (map item_of priced)
  = map (fun ci => (CartItem.product_id ci, - CartItem.quantity ci))
        (map fst priced).
Proof.
  unfold placement_changes. induction 1 as [|[ci p] priced Hp _ IH]; simpl;
    [reflexivity|].
  rewrite IH. simpl in Hp. apply CartItem_product_spec in Hp.
  destruct Hp as [_ ->]. reflexivity.
Qed.

(** With one line per product, the stock change of a line's product is the
    line's quantity. *)
Lemma stock_delta_unique_line (lines : list CartItem.t) (ci : CartItem.t) :
  NoDup (map CartItem.product_id lines) -> In ci lines ->
  stock_delta (map (fun c => (CartItem.product_id c, - CartItem.quantity c))
                   lines) (CartItem.product_id ci)
  = - CartItem.quantity ci.
Proof.
  induction lines as [|c lines IH]; simpl; intros ND Hin; [contradiction|].
  inversion ND as [|? ? Hnot ND']; subst.
  assert (Habsent : forall l,
             ~ In (CartItem.product_id c) (map CartItem.product_id l) ->
             stock_delta (map (fun c0 => (CartItem.product_id c0,
                                          - CartItem.quantity c0)) l)
                         (CartItem.product_id c) = 0).
  { clear. induction l as [|x l IHl]; simpl; intros Hn; [reflexivity|].
    destruct (Z.eqb_spec (CartItem.product_id x) (CartItem.product_id c))
      as [E|_].
    - exfalso. apply Hn. left. exact E.
    - rewrite IHl; [reflexivity|]. intros Hl. apply Hn. right. exact Hl. }
  destruct Hin as [->|Hin].
  - rewrite Z.eqb_refl, Habsent by exact Hnot. lia.
  - destruct (Z.eqb_spec (CartItem.product_id c) (CartItem.product_id ci))
      as [E|_].
    + exfalso. apply Hnot. rewrite E. apply in_map. exact Hin.
    + rewrite IH by assumption. lia.
Qed.

Lemma stock_delta_absent (changes : list (UUID * Z)) (k : UUID) :
  ~ In k (map fst changes) -> stock_delta changes k = 0.
Proof.
  induction changes as [|[pid delta] rest IH]; simpl; intros Hn;
    [reflexivity|].
  destruct (Z.eqb_spec pid k) as [E|_].
  - exfalso. apply Hn. left. exact E.
  - rewrite IH; [reflexivity|]. intros Hl. apply Hn. right. exact Hl.
Qed.

Lemma adjust_stock_zero (changes : list (UUID * Z)) (p : Product.t num) :
  stock_delta changes (Product.id p) = 0 -> adjust_stock changes p = p.
Proof.
  intros E. unfold adjust_stock. rewrite E. destruct p.
  unfold Product.set_stock_quantity. simpl. f_equal. lia.
Qed.
#[local] Arguments collect_order_items : simpl never.

(** C1: on a non-empty cart whose every line references a product on sale
    with [stock_quantity >= quantity], [create_order] succeeds (the new
    order's id and order number being unused); afterwards no cart row of
    the user is stored, every ordered product's stored stock is its former
    stock minus the ordered quantity (the others keep theirs), the order and
    one order line per cart line are stored, and all of it reached the
    database in the single commit of the call. *)
Theorem create_order_consumes_cart :
  forall (d : Db num) (fresh : UUID) (t : Z) (user_id : UUID)
         (order_data : OrderCreate.t),
    let lines :=
      filter (fun ci => CartItem.user_id ci =? user_id) (cart_items d) in
    lines <> [] ->
    (forall ci, In ci lines ->
       exists p, CartItem_product d ci = Some p /\ Product.is_active p = true
                 /\ CartItem.quantity ci <= Product.stock_quantity p) ->
    NoDup (map CartItem.product_id lines) ->
    NoDup (map Product.id (products d)) ->
    (forall o, In o (orders d) ->
       Order.id o <> fresh
       /\ Order.order_number o <> (t, uuid_prefix user_id)) ->
    exists (lo : LoadedOrder num) (s' : Session num)
           (new_items : list (OrderItem.t num)),
      create_order user_id order_data (open_session d fresh t) = (Ok lo, s') /\
      filter (fun ci => CartItem.user_id ci =? user_id)
             (cart_items (persisted s')) = [] /\
      (forall ci p, In ci lines -> CartItem_product d ci = Some p ->
         In (Product.set_stock_quantity
               (Product.stock_quantity p - CartItem.quantity ci) p)
            (products (persisted s'))) /\
      (forall p, In p (products d) ->
         ~ In (Product.id p) (map CartItem.product_id lines) ->
         In p (products (persisted s'))) /\
      map Product.id (products (persisted s')) = map Product.id (products d) /\
      orders (persisted s') = orders d ++ [fst lo] /\
      order_items (persisted s') = order_items d ++ new_items /\
      Forall (fun i => OrderItem.order_id i = Order.id (fst lo)) new_items /\
      map (fun i => (OrderItem.product_id i, OrderItem.quantity i)) new_items
      = map (fun ci => (Some (CartItem.product_id ci), CartItem.quantity ci))
            lines /\
      commits s' = 1%nat /\
      pending s' = persisted s'.
Proof.
  intros d fresh t user_id order_data lines Hne Hvalid NDl NDp Hfresh.
  destruct (priced_of_valid d lines Hvalid)
    as (priced & Hrows & Hfst & Hv & Hprod).
  pose proof (collect_order_items_valid priced (num_of_int 0) [] Hv) as Hc.
  unfold create_order, bind, execute. simpl.
  unfold select_cart. fold lines. rewrite <- Hrows.
  destruct (map (fun cp => (fst cp, Some (snd cp))) priced) as [|r rows] eqn:Hm.
  { destruct priced; [|discriminate]. simpl in Hfst. symmetry in Hfst.
    contradiction. }
  rewrite Hc. simpl.
  unfold utcnow, uuid4, insert_order, bind, execute; simpl.
  match goal with
  | |- context [existsb ?f ?l] =>
      replace (existsb f l) with false
  end.
  2:{ symmetry. apply not_true_is_false. intros Hex.
      apply existsb_exists in Hex. destruct Hex as (o & Hino & Ho).
      destruct (Hfresh o Hino) as [Hid Hnum].
      apply orb_true_iff in Ho. destruct Ho as [Ho|Ho].
      - apply Z.eqb_eq in Ho. contradiction.
      - apply andb_true_iff in Ho. destruct Ho as [H1 H2].
        apply Z.eqb_eq in H1, H2. apply Hnum.
        destruct (Order.order_number o). simpl in *. congruence. }
  unfold mutate, commit, bind; simpl.
  match goal with
  | |- context [add_order_items ?oid ?il ?s1] =>
      destruct (add_order_items_run il oid s1)
        as (s2 & new_items & Hrun & Hp2 & Hc2 & Hpend & Hoid & Hmap)
  end.
  { simpl. exact NDp. }
  { simpl. intros it Hit. apply in_map_iff in Hit.
    destruct Hit as (cp & <- & Hcp). simpl.
    rewrite Forall_forall in Hprod. apply Hprod in Hcp.
    apply CartItem_product_spec in Hcp. apply in_map. tauto. }
  rewrite Hrun. simpl in *.
  assert (Habs : filter (fun o => Order.id o =? fresh) (orders d) = []).
  { apply (select_absent_key Order.id (orders d) fresh).
    intros Hin. apply in_map_iff in Hin. destruct Hin as (o & Ho & Hino).
    exact (proj1 (Hfresh o Hino) Ho). }
  unfold refresh_order, bind, execute, select_order_by_id; simpl.
  rewrite Hpend. simpl.
  rewrite find_head_filter, filter_app, Habs. simpl. rewrite Z.eqb_refl.
  simpl. rewrite filter_app, Habs. simpl. rewrite Z.eqb_refl.
  simpl.
  rewrite (placement_changes_of_lines d priced Hprod), Hfst.
  eexists _, _, new_items. split; [reflexivity|]. simpl.
  rewrite Hmap, map_map. simpl.
  repeat split; auto.
  - unfold delete_where. fold lines.
    clear. induction (cart_items d) as [|c l IH]; simpl; [reflexivity|].
    destruct (CartItem.user_id c =? user_id) eqn:E; simpl; rewrite ?E; auto.
  - intros ci p Hci Hp.
    destruct (CartItem_product_spec d ci p Hp) as [Hin Hid].
    apply in_map_iff. exists p. split; [|exact Hin].
    unfold adjust_stock. rewrite Hid.
    rewrite (stock_delta_unique_line lines ci NDl Hci). reflexivity.
  - intros p Hin Hnot. apply in_map_iff. exists p. split; [|exact Hin].
    apply adjust_stock_zero. apply stock_delta_absent.
    rewrite map_map. simpl. exact Hnot.
  - rewrite <- Hfst, !map_map. apply map_ext_in. intros cp Hcp. simpl.
    rewrite Forall_forall in Hprod. apply Hprod in Hcp.
    apply CartItem_product_spec in Hcp. destruct Hcp as [_ ->]. reflexivity.
Qed.
Lemma stock_delta_restoration (item_list : list (OrderItem.t num)) (k : UUID) :
  stock_delta (restoration_changes item_list) k = restored_quantity item_list k.
Proof.
  unfold restored_quantity.
  induction item_list as [|item rest IH]; simpl; [reflexivity|].
  destruct (OrderItem.product_id item) as [pid|]; simpl; [|exact IH].
  destruct (pid =? k); simpl; rewrite IH; [|reflexivity].
  rewrite sum_int_cons. reflexivity.
Qed.

(** The loop of [cancel_order]: it returns whatever the lines reference, and
    what is pending afterwards differs in the stock of the referenced
    products only. *)
Lemma restore_stock_run (item_list : list (OrderItem.t num)) :
  forall s,
    NoDup (map Product.id (products (pending s))) ->
    exists s',
      restore_stock item_list s = (Ok tt, s') /\
      persisted s' = persisted s /\ commits s' = commits s /\
      pending s'
      = set_products
          (map (adjust_stock (restoration_changes item_list))
               (products (pending s))) (pending s).
Proof.
  induction item_list as [|item rest IH]; intros s ND.
  - exists s. simpl. repeat split; auto.
    rewrite adjust_stock_nil. destruct (pending s); reflexivity.
  - simpl. destruct (OrderItem.product_id item) as [pid|] eqn:Hpid.
    + unfold bind, execute; simpl.
      destruct (select_key_cases Product.id (products (pending s)) pid ND)
        as [Hnone|(p & Hsel & Hin & Hid)].
      * rewrite Hnone. simpl.
        destruct (IH s ND) as (s' & Hrun & Hp & Hc & Hpend).
        exists s'. rewrite Hrun. repeat split; auto.
        rewrite Hpend. f_equal. apply map_ext_in. intros a Ha.
        unfold adjust_stock. simpl.
        destruct (Z.eqb_spec pid (Product.id a)) as [E|_]; [|reflexivity].
        exfalso.
        assert (Hf : In a (filter (fun r => Product.id r =? pid)
                                  (products (pending s)))).
        { apply filter_In. split; [exact Ha|]. apply Z.eqb_eq. auto. }
        rewrite Hnone in Hf. exact Hf.
      * rewrite Hsel. simpl. unfold mutate; simpl.
        rewrite (@update_selected_row _ Product.id (products (pending s))
                   pid p
                   (fun x => Product.set_stock_quantity
                               (Product.stock_quantity x
                                + OrderItem.quantity item))
                   ND Hin Hid).
        match goal with
        | |- context [restore_stock rest ?s1] =>
            destruct (IH s1) as (s' & Hrun & Hp & Hc & Hpend)
        end.
        { simpl. rewrite map_map. simpl.
          erewrite map_ext; [exact ND|].
          intros a. destruct (Product.id a =? pid); reflexivity. }
        exists s'. rewrite Hrun. simpl in *. repeat split; auto.
        rewrite Hpend. unfold set_products; simpl. f_equal.
        apply (adjust_stock_step pid (OrderItem.quantity item)).
    + unfold bind; simpl. apply IH. exact ND.
Qed.

Lemma filter_andb {A} (f g : A -> bool) (l : list A) :
  filter (fun x => f x && g x) l = filter g (filter f l).
Proof.
  induction l as [|x l IH]; simpl; [reflexivity|].
  destruct (f x); simpl; [destruct (g x)|]; rewrite IH; reflexivity.
Qed.
(** The order a caller may address: the row with that id, if it is theirs. *)
Lemma select_own_order (d : Db num) (order_id user_id : UUID) (o : Order.t num) :
  NoDup (map Order.id (orders d)) ->
  In o (orders d) -> Order.id o = order_id -> Order.user_id o = user_id ->
  filter (fun x => (Order.id x =? order_id) && (Order.user_id x =? user_id))
         (orders d) = [o].
Proof.
  intros ND Hin Hid Hu.
  rewrite (filter_andb (fun x => Order.id x =? order_id)
                       (fun x => Order.user_id x =? user_id)).
  rewrite <- Hid, (select_by_key Order.id (orders d) o ND Hin).
  simpl. rewrite Hu, Z.eqb_refl. reflexivity.
Qed.

(** C4: [cancel_order] answers [None] (reported as not found) when no order
    with that id belongs to the caller; raises "Order cannot be cancelled at
    this stage" when the caller's order is neither pending nor confirmed,
    with the session and the database exactly as before; and otherwise
    stores the order as cancelled and adds to the stock of every product
    the quantities of the order lines that reference it, lines whose
    product reference is null or whose product row is gone being passed
    over. *)
Theorem cancel_order_behaviour :
  forall (d : Db num) (fresh : UUID) (t : Z) (order_id user_id : UUID),
    NoDup (map Order.id (orders d)) ->
    NoDup (map Product.id (products d)) ->
    let s := open_session d fresh t in
    ((forall o, In o (orders d) -> Order.id o = order_id ->
                Order.user_id o <> user_id) ->
     cancel_order order_id user_id s = (Ok None, s)) /\
    (forall o, In o (orders d) -> Order.id o = order_id ->
               Order.user_id o = user_id ->
       (Order.status o <> PENDING -> Order.status o <> CONFIRMED ->
        cancel_order order_id user_id s
        = (Raise (ValueError "Order cannot be cancelled at this stage"), s)) /\
       (Order.status o = PENDING \/ Order.status o = CONFIRMED ->
        exists s',
          cancel_order order_id user_id s
          = (Ok (Some (Order.set_status CANCELLED o, Order_items d o)), s') /\
          orders (persisted s')
          = update_where (fun x => Order.id x =? order_id)
                         (Order.set_status CANCELLED) (orders d) /\
          In (Order.set_status CANCELLED o) (orders (persisted s')) /\
          products (persisted s')
          = map (fun p => Product.set_stock_quantity
                            (Product.stock_quantity p
                             + restored_quantity (Order_items d o)
                                                 (Product.id p)) p)
                (products d) /\
          order_items (persisted s') = order_items d /\
          cart_items (persisted s') = cart_items d /\
          commits s' = 1%nat)).
Proof.
  intros d fresh t order_id user_id NDo NDp s. split.
  - intros Hnone. unfold cancel_order, bind, execute, s; simpl.
    replace (filter (fun o => (Order.id o =? order_id)
                              && (Order.user_id o =? user_id)) (orders d))
      with (@nil (Order.t num)); [reflexivity|].
    symmetry. clear -Hnone.
    induction (orders d) as [|o l IH]; simpl; [reflexivity|].
    destruct (Z.eqb_spec (Order.id o) order_id) as [E|_]; simpl.
    + destruct (Z.eqb_spec (Order.user_id o) user_id) as [E'|_].
      * exfalso. exact (Hnone o (or_introl eq_refl) E E').
      * apply IH. intros x Hx. apply Hnone. right. exact Hx.
    + apply IH. intros x Hx. apply Hnone. right. exact Hx.
  - intros o Hin Hid Hu.
    pose proof (select_own_order d order_id user_id o NDo Hin Hid Hu) as Hsel.
    split.
    + intros Hp Hc. unfold cancel_order, bind, execute, s; simpl.
      rewrite Hsel. simpl.
      destruct (Order.status o); simpl; try reflexivity; congruence.
    + intros Hst. unfold cancel_order, bind, execute, s; simpl.
      rewrite Hsel. simpl.
      replace (negb (OrderStatus_eqb (Order.status o) PENDING
                     || (OrderStatus_eqb (Order.status o) CONFIRMED || false)))
        with false by (destruct Hst as [-> | ->]; reflexivity).
      unfold mutate; simpl.
      match goal with
      | |- context [restore_stock ?il ?s1] =>
          destruct (restore_stock_run il s1) as (s2 & Hrun & Hp2 & Hc2 & Hpend)
      end.
      { simpl. exact NDp. }
      rewrite Hrun. unfold commit, refresh_order, bind, execute; simpl.
      rewrite Hpend. simpl. rewrite <- Hid.
      rewrite find_head_filter.
      rewrite filter_update_where by reflexivity.
      rewrite (select_by_key Order.id (orders d) o NDo Hin). simpl.
      rewrite Z.eqb_refl. simpl.
      eexists. split; [reflexivity|]. simpl.
      simpl in Hc2. rewrite Hc2.
      repeat split; auto.
      * apply in_map_iff. exists o. rewrite Z.eqb_refl. auto.
      * apply map_ext. intros p. unfold adjust_stock.
        rewrite stock_delta_restoration. reflexivity.
Qed.
End OrderProperties.

(** ** Reviews *)

Section ReviewProperties.
Context {num : Type} `{Amount num}.

(** C9: for a user without a review of the product whose order history
    joins to two or more order lines of that product, [create_review] ends
    in [MultipleResultsFound], raised by the verified-purchase lookup: no
    review is returned, the error is not one of the service's [ValueError]s,
    and nothing is stored. *)
Theorem create_review_multiple_purchases :
  forall (s : Session num) (user_id : UUID) (review_data : ReviewCreate.t),
    filter (fun r => (Review.user_id r =? user_id)
                     && (Review.product_id r
                         =? ReviewCreate.product_id review_data))
           (reviews (pending s)) = [] ->
    (2 <= List.length (purchased_items user_id
                         (ReviewCreate.product_id review_data) (pending s)))%nat ->
    create_review user_id review_data s = (Raise MultipleResultsFound, s) /\
    (forall msg, fst (create_review user_id review_data s)
                 <> Raise (ValueError msg)) /\
    (forall r, fst (create_review user_id review_data s) <> Ok r).
Proof.
  intros s user_id review_data Hnone Htwo.
  assert (E : create_review user_id review_data s
              = (Raise MultipleResultsFound, s)).
  { unfold create_review, bind, execute; simpl. rewrite Hnone. simpl.
    destruct (purchased_items user_id (ReviewCreate.product_id review_data)
                              (pending s)) as [|a [|b l]];
      simpl in Htwo; try lia. reflexivity. }
  rewrite E. simpl. repeat split; congruence.
Qed.
End ReviewProperties.

(** ** Listings *)

Lemma insert_by_length {A} (le : A -> A -> bool) (x : A) (l : list A) :
  List.length (insert_by le x l) = S (List.length l).
Proof.
  induction l as [|y l IH]; simpl; [reflexivity|].
  destruct (le x y); simpl; [reflexivity|]. rewrite IH. reflexivity.
Qed.

Lemma order_by_length {A} (le : A -> A -> bool) (l : list A) :
  List.length (order_by le l) = List.length l.
Proof.
  unfold order_by. induction l as [|x l IH]; simpl; [reflexivity|].
  rewrite insert_by_length, IH. reflexivity.
Qed.


Section ListingProperties.
Context {num : Type} `{Amount num}.










End ListingProperties.

(** ** The services on the sample data *)

Example sample_order_two_lines :
  create_order 1 Sample.order_data Sample.session
  = (Ok Sample.placed_1, Sample.after_1)
  /\ Order.subtotal (fst Sample.placed_1) = 5500%Q
  /\ Order.shipping_cost (fst Sample.placed_1) = 0%Q
  /\ Order.total_amount (fst Sample.placed_1) = 5500%Q.
Proof. vm_compute. repeat split; reflexivity. Qed.

Example sample_order_one_line :
  create_order 3 Sample.order_data Sample.session
  = (Ok Sample.placed_3, Sample.after_3)
  /\ Order.subtotal (fst Sample.placed_3) = 1000%Q
  /\ Order.shipping_cost (fst Sample.placed_3) = 250%Q
  /\ Order.total_amount (fst Sample.placed_3) = 1250%Q.
Proof. vm_compute. repeat split; reflexivity. Qed.

Ltac distinct_keys :=
  repeat (constructor; [simpl; intuition (try discriminate; try lia)|]);
  constructor.

(** Both cart lines of user 1 reference a product on sale with enough
    stock. *)
Lemma sample_user_1_lines :
  forall ci,
    In ci (filter (fun c => CartItem.user_id c =? 1) (cart_items Sample.db)) ->
    exists p, CartItem_product Sample.db ci = Some p
              /\ Product.is_active p = true
              /\ CartItem.quantity ci <= Product.stock_quantity p.
Proof.
  simpl. intros ci [<-|[<-|[]]]; eexists; (split; [reflexivity|]);
    split; [reflexivity | simpl; lia | reflexivity | simpl; lia].
Defined.

(** User 1 orders one unit each of products 10 and 11: the cart is emptied,
    the stocks go from 5 to 4 and from 3 to 2, product 13 keeps its 4. *)
Lemma create_order_consumes_cart_witness :
  exists (lo : LoadedOrder Q) (s' : Session Q),
    create_order 1 Sample.order_data Sample.session = (Ok lo, s')
    /\ filter (fun ci => CartItem.user_id ci =? 1) (cart_items (persisted s'))
       = []
    /\ In (Sample.product 10 "Product A" 3000%Q (Some 1) 4 true)
          (products (persisted s'))
    /\ In (Sample.product 11 "Product B" 2500%Q None 2 true)
          (products (persisted s'))
    /\ In (Sample.product 13 "Product D" 1000%Q None 4 true)
          (products (persisted s'))
    /\ commits s' = 1%nat.
Proof.
  destruct (create_order_consumes_cart Sample.db 1000 0 1 Sample.order_data)
    as (lo & s' & new_items & Hrun & Hcart & Hdec & Hkeep & _ & _ & _ & _ & _
        & Hcommit & _).
  - simpl. discriminate.
  - exact sample_user_1_lines.
  - simpl. distinct_keys.
  - simpl. distinct_keys.
  - simpl. intros o [<-|[<-|[]]]; simpl; (split; [lia | discriminate]).
  - exists lo, s'. split; [exact Hrun|]. split; [exact Hcart|].
    split; [|split; [|split; [|exact Hcommit]]].
    + apply (Hdec (CartItem.mk 100 1 10 1)
                  (Sample.product 10 "Product A" 3000%Q (Some 1) 5 true));
        [simpl; auto | reflexivity].
    + apply (Hdec (CartItem.mk 101 1 11 1)
                  (Sample.product 11 "Product B" 2500%Q None 3 true));
        [simpl; auto | reflexivity].
    + apply Hkeep; [simpl; auto 6|]. simpl. intuition lia.
Defined.


(** An unknown order, somebody else's order, a shipped order, and the
    pending order 201 of user 1, whose cancellation returns the two units of
    product 10 and passes over the lines without a product. *)
Lemma cancel_order_behaviour_witness :
  cancel_order 999 1 Sample.session = (Ok None, Sample.session)
  /\ cancel_order 201 2 Sample.session = (Ok None, Sample.session)
  /\ cancel_order 200 1 Sample.session
     = (Raise (ValueError "Order cannot be cancelled at this stage"),
        Sample.session)
  /\ exists s',
       cancel_order 201 1 Sample.session
       = (Ok (Some (Sample.order 201 1 CANCELLED,
                    Order_items Sample.db (Sample.order 201 1 PENDING))), s')
       /\ In (Sample.order 201 1 CANCELLED) (orders (persisted s'))
       /\ In (Sample.product 10 "Product A" 3000%Q (Some 1) 7 true)
             (products (persisted s'))
       /\ List.length (products (persisted s'))
          = List.length (products Sample.db).
Proof.
  assert (NDo : NoDup (map Order.id (orders Sample.db)))
    by (simpl; distinct_keys).
  assert (NDp : NoDup (map Product.id (products Sample.db)))
    by (simpl; distinct_keys).
  split; [|split; [|split]].
  - apply (cancel_order_behaviour Sample.db 1000 0 999 1 NDo NDp).
    simpl. intros o [<-|[<-|[]]]; simpl; lia.
  - apply (cancel_order_behaviour Sample.db 1000 0 201 2 NDo NDp).
    simpl. intros o [<-|[<-|[]]]; simpl; lia.
  - apply (proj2 (cancel_order_behaviour Sample.db 1000 0 200 1 NDo NDp)
                 (Sample.order 200 1 SHIPPED));
      simpl; auto; discriminate.
  - destruct (proj2 (proj2 (cancel_order_behaviour Sample.db 1000 0 201 1
                              NDo NDp)
                           (Sample.order 201 1 PENDING)
                           ltac:(simpl; auto) eq_refl eq_refl)
                    (or_introl eq_refl))
      as (s' & Hrun & _ & Hin & Hprod & _).
    exists s'. split; [exact Hrun|]. split; [exact Hin|].
    rewrite Hprod. split; [left; reflexivity | apply length_map].
Defined.


(** User 2 holds the withdrawn product 12: the quantity can be updated,
    adding it again cannot. *)
Lemma update_cart_item_skips_is_active_witness :
  (exists s',
     update_cart_item 102 2 5 Sample.session
     = (Ok (Some (CartItem.mk 102 2 12 5)), s')
     /\ filter (fun c => (CartItem.id c =? 102) && (CartItem.user_id c =? 2))
               (cart_items (persisted s'))
        = [CartItem.mk 102 2 12 5])
  /\ fst (add_to_cart 2 12 5 Sample.session)
     = Raise (ValueError "Product is not available").
Proof.
  assert (ND : NoDup (map CartItem.id (cart_items Sample.db)))
    by (simpl; distinct_keys).
  destruct (update_cart_item_skips_is_active Sample.db 1000 0 102 2 5
              (CartItem.mk 102 2 12 2)
              (Sample.product 12 "Product C" 1000%Q None 10 false)
              eq_refl ND eq_refl eq_refl ltac:(simpl; lia))
    as ((s' & Hrun & _ & Hline) & Hadd).
  split; [exists s'; split; [exact Hrun | exact Hline] | exact Hadd].
Defined.


(** User 1 bought product 10 in orders 200 and 201 and has not reviewed
    it. *)
Lemma create_review_multiple_purchases_witness :
  create_review 1 (ReviewCreate.mk 10 5 None None) Sample.session
  = (Raise MultipleResultsFound, Sample.session).
Proof.
  apply (create_review_multiple_purchases Sample.session 1
           (ReviewCreate.mk 10 5 None None)).
  - reflexivity.
  - simpl. lia.
Defined.



(** ** Categories on the sample data *)

(** C2 on the code: forcing the deletion of category 1 removes the category
    and promotes its three children to roots, but product 10, which
    referenced the category, is deleted with it (together with its cart
    line), where the message of [delete_category] promises that the
    products are uncategorized. *)
Theorem delete_category_force_deletes_products :
  In (Sample.product 10 "Product A" 3000%Q (Some 1) 5 true)
     (Category_products Sample.db (Sample.category 1 "Root" None 0 true))
  /\ exists s',
       delete_category 1 true Sample.session = (Ok true, s')
       /\ categories (persisted s')
          = [Sample.category 2 "B" None 2 true;
             Sample.category 3 "A" None 1 true;
             Sample.category 4 "Z" None 0 false]
       /\ map Product.id (products (persisted s')) = [11; 12; 13]
       /\ filter (fun p => Product.id p =? 10) (products (persisted s')) = []
       /\ map CartItem.id (cart_items (persisted s')) = [101; 102; 103]
       /\ map (fun i => OrderItem.product_id i) (order_items (persisted s'))
          = [None; None; None; Some 99].
Proof.
  split; [left; reflexivity|].
  eexists. split; [vm_compute; reflexivity|].
  vm_compute. repeat split; reflexivity.
Qed.

(** C6 on the code: the tree of the sample categories has the one active
    root, and under it the active children B and A in storage order, B
    ([display_order] 2) before A ([display_order] 1); the inactive child Z
    is left out. *)
Theorem get_category_tree_children_unordered :
  get_category_tree 8 Sample.session
  = (Ok [TreeNode 1 "Root" "Root" 1
           [TreeNode 2 "B" "B" 0 []; TreeNode 3 "A" "A" 0 []]],
     Sample.session)
  /\ category_le (Sample.category 2 "B" (Some 1) 2 true)
                 (Sample.category 3 "A" (Some 1) 1 true) = false.
Proof. vm_compute. split; reflexivity. Qed.

(** ** The category tree in general *)

Lemma sequence_outcome_map_ok {A B} (f : A -> outcome B) (key : B -> Z)
      (key' : A -> Z) (l : list A) (r : list B) :
  (forall x v, In x l -> f x = Ok v -> key v = key' x) ->
  sequence_outcome (map f l) = Ok r ->
  map key r = map key' l.
Proof.
  revert r. induction l as [|x l IH]; simpl; intros r Hk E.
  - inversion E. reflexivity.
  - destruct (f x) as [v|e] eqn:Fx; [|discriminate].
    destruct (sequence_outcome (map f l)) as [r'|e]; [|discriminate].
    inversion E; subst. simpl. f_equal.
    + apply (Hk x v); auto.
    + apply IH; auto.
Qed.

Lemma sequence_outcome_all_ok {A B} (f : A -> outcome B) (l : list A) :
  (forall x, In x l -> exists v, f x = Ok v) ->
  exists r, sequence_outcome (map f l) = Ok r.
Proof.
  induction l as [|x l IH]; simpl; intros Hall.
  - exists []. reflexivity.
  - destruct (Hall x (or_introl eq_refl)) as (v & ->).
    destruct IH as (r & ->); [intros y Hy; apply Hall; right; exact Hy|].
    exists (v :: r). reflexivity.
Qed.

Section TreeProperties.
Context {num : Type} `{Amount num}.

Lemma category_map_get_id (all_categories : list Category.t) (key : UUID)
      (c : Category.t) :
  category_map_get all_categories key = Some c ->
  In c all_categories /\ Category.id c = key.
Proof.
  unfold category_map_get. intros E. apply find_some in E.
  destruct E as [Hin Hid]. apply in_rev in Hin. apply Z.eqb_eq in Hid. auto.
Qed.

(** A node carries the id of its category, and its children are the
    children of the category that are active and were loaded, in the order
    of the [subcategories] relationship. *)
Lemma tree_node_shape (depth : nat) (d : Db num) (category : Category.t)
      (category_map : list Category.t) (node : CategoryTree) :
  _build_category_tree_node depth d category category_map = Ok node ->
  tree_id node = Category.id category
  /\ map tree_id (tree_subcategories node)
     = map Category.id
         (filter (fun subcat =>
                    match category_map_get category_map (Category.id subcat) with
                    | Some _ => Category.is_active subcat
                    | None => false
                    end)
                 (Category_subcategories d category)).
Proof.
  revert category node. induction depth as [|depth IH]; simpl;
    intros category node E; [discriminate|].
  match type of E with
  | context [sequence_outcome (map ?f ?l)] =>
      destruct (sequence_outcome (map f l)) as [subs|e] eqn:Hs;
        [|discriminate]
  end.
  inversion E; subst; clear E. simpl. split; [reflexivity|].
  eapply sequence_outcome_map_ok; [|exact Hs].
  intros subcat v _ Hv. simpl in Hv.
  destruct (category_map_get category_map (Category.id subcat)) as [c|] eqn:Hc;
    [|discriminate].
  apply IH in Hv. destruct Hv as [-> _].
  apply category_map_get_id in Hc. tauto.
Qed.

(** An inactive category is nobody's child in the tree. *)
Lemma tree_children_are_active (depth : nat) (d : Db num)
      (category : Category.t) (category_map : list Category.t)
      (node : CategoryTree) (k : UUID) :
  _build_category_tree_node depth d category category_map = Ok node ->
  In k (map tree_id (tree_subcategories node)) ->
  exists subcat, In subcat (Category_subcategories d category)
                 /\ Category.id subcat = k
                 /\ Category.is_active subcat = true.
Proof.
  intros E Hk. apply tree_node_shape in E. destruct E as [_ E].
  rewrite E in Hk. apply in_map_iff in Hk. destruct Hk as (subcat & Hid & Hin).
  apply filter_In in Hin. destruct Hin as [Hin Hact].
  exists subcat. split; [exact Hin|]. split; [exact Hid|].
  destruct (category_map_get category_map (Category.id subcat)); congruence.
Qed.

(** The top level of the tree: one node per active category without parent,
    in the order of the query ([display_order], then [name]). *)
Lemma tree_top_level (depth : nat) (s s' : Session num)
      (tree : list CategoryTree) :
  get_category_tree depth s = (Ok tree, s') ->
  s' = s
  /\ map tree_id tree
     = map Category.id
         (filter (fun c => match Category.parent_id c with
                           | None => true
                           | Some _ => false
                           end)
                 (order_by category_le
                    (filter (fun c => Category.is_active c)
                            (categories (pending s))))).
Proof.
  unfold get_category_tree, bind, execute. simpl.
  match goal with
  | |- context [sequence_outcome (map ?f ?l)] =>
      destruct (sequence_outcome (map f l)) as [r|e] eqn:Hs
  end; simpl; intros E; inversion E; subst; clear E.
  split; [reflexivity|].
  eapply sequence_outcome_map_ok; [|exact Hs].
  intros c v _ Hv. apply tree_node_shape in Hv. tauto.
Qed.

(** On a forest (a rank that decreases from parent to child) the builder
    returns for every depth above the rank of the category. *)
Lemma tree_node_builds (rank : UUID -> nat) (d : Db num)
      (category_map : list Category.t) :
  (forall k p, In k (categories d) -> Category.parent_id k = Some p ->
               (rank (Category.id k) < rank p)%nat) ->
  forall (depth : nat) (category : Category.t),
    (rank (Category.id category) < depth)%nat ->
    exists node,
      _build_category_tree_node depth d category category_map = Ok node.
Proof.
  intros Hrank. induction depth as [|depth IH]; intros category Hd; [lia|].
  simpl.
  match goal with
  | |- context [sequence_outcome (map ?f ?l)] =>
      destruct (sequence_outcome_all_ok f l) as (r & ->)
  end.
  - intros subcat Hin. apply filter_In in Hin. destruct Hin as [Hsub Hget].
    destruct (category_map_get category_map (Category.id subcat)) as [c|] eqn:Hc;
      [|discriminate].
    apply IH. apply category_map_get_id in Hc. destruct Hc as [_ ->].
    apply filter_In in Hsub. destruct Hsub as [Hin Hpar].
    destruct (Category.parent_id subcat) as [p|] eqn:Hp; [|discriminate].
    simpl in Hpar. apply Z.eqb_eq in Hpar. subst p.
    specialize (Hrank subcat (Category.id category) Hin Hp). lia.
  - eexists. reflexivity.
Qed.
Lemma order_by_in {A} (le : A -> A -> bool) (l : list A) (x : A) :
  In x (order_by le l) -> In x l.
Proof.
  unfold order_by. induction l as [|y l IH]; simpl; [tauto|].
  assert (Hins : forall z m, In x (insert_by le z m) -> x = z \/ In x m).
  { clear. intros z m. induction m as [|w m IHm]; simpl.
    - intros [->|[]]. auto.
    - destruct (le z w); simpl; intros [E|Hin]; auto.
      destruct (IHm Hin); auto. }
  intros Hin. apply Hins in Hin. destruct Hin as [->|Hin]; auto.
Qed.

(** [get_category_tree] returns on a forest whose ranks stay below the
    recursion bound. *)
Lemma tree_builds (rank : UUID -> nat) (depth : nat) (s : Session num) :
  (forall k p, In k (categories (pending s)) -> Category.parent_id k = Some p ->
               (rank (Category.id k) < rank p)%nat) ->
  (forall c, In c (categories (pending s)) ->
             (rank (Category.id c) < depth)%nat) ->
  exists tree, get_category_tree depth s = (Ok tree, s).
Proof.
  intros Hrank Hdepth. unfold get_category_tree, bind, execute. simpl.
  match goal with
  | |- context [sequence_outcome (map ?f ?l)] =>
      destruct (sequence_outcome_all_ok f l) as (r & ->)
  end.
  - intros c Hin. apply (tree_node_builds rank); [exact Hrank|].
    apply Hdepth. apply filter_In in Hin. destruct Hin as [Hin _].
    apply order_by_in in Hin. apply filter_In in Hin. tauto.
  - eexists. reflexivity.
Qed.
End TreeProperties.

(** ** Forced deletion of a category in general *)

Section DeleteProperties.
Context {num : Type} `{Amount num}.

Lemma session_delete_products_fold (ps : list (Product.t num)) :
  forall d : Db num,
    categories (fold_left (fun acc p => session_delete_product p acc) ps d)
    = categories d
    /\ products (fold_left (fun acc p => session_delete_product p acc) ps d)
       = filter (fun x => negb (existsb (fun p => Product.id x =? Product.id p)
                                        ps))
                (products d).
Proof.
  induction ps as [|p ps IH]; intros d; simpl.
  - split; [reflexivity|].
    induction (products d) as [|x l IHl]; simpl; [reflexivity|].
    f_equal. exact IHl.
  - destruct (IH (session_delete_product p d)) as [Hc Hp].
    rewrite Hc, Hp. simpl. split; [reflexivity|].
    unfold delete_where. clear.
    induction (products d) as [|x l IHl]; simpl; [reflexivity|].
    destruct (Product.id x =? Product.id p); simpl; rewrite IHl; reflexivity.
Qed.

(** [delete_category(id, force=True)] on an existing category: the row is
    removed, the children stay with a null parent, and no product that
    referenced the category is left. *)
Lemma delete_category_force (d : Db num) (fresh : UUID) (t : Z)
      (category_id : UUID) (c : Category.t) :
  filter (fun x => Category.id x =? category_id) (categories d) = [c] ->
  NoDup (map Product.id (products d)) ->
  exists s',
    delete_category category_id true (open_session d fresh t) = (Ok true, s')
    /\ categories (persisted s')
       = delete_where (fun x => Category.id x =? category_id)
           (update_where (fun x => opt_uuid_is (Category.parent_id x)
                                               category_id)
                         (Category.set_parent_id None) (categories d))
    /\ products (persisted s')
       = filter (fun p => negb (opt_uuid_is (Product.category_id p)
                                            category_id))
                (products d).
Proof.
  intros Hsel ND.
  destruct (select_one_in _ _ _ Hsel) as [_ Hid]. apply Z.eqb_eq in Hid.
  unfold delete_category, get_category, bind, execute. simpl.
  rewrite Hsel. simpl. unfold mutate, commit. simpl.
  eexists. split; [reflexivity|]. simpl.
  destruct (session_delete_products_fold (Category_products d c) d)
    as [Hc Hp].
  rewrite Hc, Hp, Hid. split; [reflexivity|].
  unfold Category_products. rewrite Hid. clear -ND.
  apply filter_ext_in. intros x Hx. f_equal.
  destruct (opt_uuid_is (Product.category_id x) category_id) eqn:E.
  - apply existsb_exists. exists x. split.
    + apply filter_In. auto.
    + apply Z.eqb_refl.
  - destruct (existsb _ _) eqn:Ex; [|reflexivity].
    exfalso. apply existsb_exists in Ex. destruct Ex as (p & Hp & Hid).
    apply filter_In in Hp. destruct Hp as [Hin Hcat].
    apply Z.eqb_eq in Hid.
    assert (x = p) by (apply (key_determines_row Product.id (products d)); auto).
    subst p. congruence.
Qed.
End DeleteProperties.

(** * Further properties of the services *)

(** ** Cart: new lines, removal, failures *)



Lemma find_snoc_fresh {A} (key : A -> Z) (rows : list A) (x : A) :
  (forall r, In r rows -> key r <> key x) ->
  find (fun r => key r =? key x) (rows ++ [x]) = Some x.
Proof.
  intros Hfresh. rewrite find_head_filter, filter_app.
  rewrite (select_absent_key key rows (key x)).
  - simpl. rewrite Z.eqb_refl. reflexivity.
  - intros Hin. apply in_map_iff in Hin. destruct Hin as (r & Hk & Hr).
    exact (Hfresh r Hr Hk).
Qed.

Section CartExtras.
Context {num : Type} `{Amount num}.

(** What [add_to_cart] does for a product the cart does not hold yet. *)
Lemma add_to_cart_new_line_run (d : Db num) (fresh : UUID) (t : Z)
      (user_id product_id : UUID) (quantity : Z) (p : Product.t num) :
  filter (fun x => Product.id x =? product_id) (products d) = [p] ->
  Product.is_active p = true ->
  quantity <= Product.stock_quantity p ->
  filter (fun c => (CartItem.user_id c =? user_id)
                   && (CartItem.product_id c =? product_id))
         (cart_items d) = [] ->
  (forall c, In c (cart_items d) -> CartItem.id c <> fresh) ->
  let line := CartItem.mk fresh user_id product_id quantity in
  let d' := set_cart_items (cart_items d ++ [line]) d in
  add_to_cart user_id product_id quantity (open_session d fresh t)
  = (Ok (line, Some p), mkSession d' d' 1%nat (fresh + 1) t).
Proof.
  intros Hp Hact Hq Hnone Hfresh line d'.
  pose proof (find_snoc_fresh CartItem.id (cart_items d) line Hfresh) as Hf.
  subst line d'. simpl in Hf.
  unfold add_to_cart, bind, execute. simpl. rewrite Hp. simpl.
  rewrite Hact. simpl.
  replace (Product.stock_quantity p <? quantity) with false
    by (symmetry; apply Z.ltb_ge; lia).
  simpl. rewrite Hnone. simpl.
  unfold refresh_cart_item, bind, execute. simpl.
  rewrite Hf. simpl.
  unfold CartItem_product. simpl. rewrite (find_of_select_one _ _ _ Hp).
  reflexivity.
Qed.

(** X1: adding a product the cart of a stored user does not hold yet
    (product on sale, stock sufficient) appends one cart line with that
    quantity and commits once; every other line stays. *)
Theorem add_to_cart_new_line :
  forall (d : Db num) (fresh : UUID) (t : Z) (user_id product_id : UUID)
         (quantity : Z) (p : Product.t num),
    In user_id (map User.id (users d)) ->
    filter (fun x => Product.id x =? product_id) (products d) = [p] ->
    Product.is_active p = true ->
    quantity <= Product.stock_quantity p ->
    filter (fun c => (CartItem.user_id c =? user_id)
                     && (CartItem.product_id c =? product_id))
           (cart_items d) = [] ->
    (forall c, In c (cart_items d) -> CartItem.id c <> fresh) ->
    exists s',
      add_to_cart user_id product_id quantity (open_session d fresh t)
      = (Ok (CartItem.mk fresh user_id product_id quantity, Some p), s')
      /\ cart_items (persisted s')
         = cart_items d ++ [CartItem.mk fresh user_id product_id quantity]
      /\ products (persisted s') = products d
      /\ commits s' = 1%nat.
Proof.
  intros d fresh t user_id product_id quantity p _ Hp Hact Hq Hnone Hfresh.
  eexists. split.
  - apply add_to_cart_new_line_run; eassumption.
  - simpl. auto.
Qed.

Lemma refresh_finds_updated (rows : list CartItem.t) (ci : CartItem.t) (v : Z) :
  In ci rows ->
  find (fun c => CartItem.id c =? CartItem.id ci)
       (update_where (fun c => CartItem.id c =? CartItem.id ci)
                     (CartItem.set_quantity v) rows) <> None.
Proof.
  intros Hin Hnone.
  pose proof (find_none _ _ Hnone (CartItem.set_quantity v ci)) as F.
  simpl in F. rewrite Z.eqb_refl in F.
  assert (true = false); [|discriminate].
  apply F. unfold update_where. apply in_map_iff. exists ci.
  rewrite Z.eqb_refl. auto.
Qed.

Lemma refresh_finds_added (rows : list CartItem.t) (ci : CartItem.t) :
  find (fun c => CartItem.id c =? CartItem.id ci) (rows ++ [ci]) <> None.
Proof.
  intros Hnone. pose proof (find_none _ _ Hnone ci) as F.
  simpl in F. rewrite Z.eqb_refl in F.
  assert (true = false); [|discriminate].
  apply F. apply in_or_app. right. left. reflexivity.
Qed.

Ltac raise_before_commit E :=
  solve [inversion E; subst; clear E; simpl; split; reflexivity].

(** X3: a cart mutation that raises has committed nothing: after a failed
    [add_to_cart], [update_cart_item] or [remove_from_cart] the stored
    database and the commit count are those from before the call. *)
Theorem cart_failure_commits_nothing :
  forall (s s' : Session num) (e : exn),
    (forall user_id product_id quantity,
        add_to_cart user_id product_id quantity s = (Raise e, s') ->
        persisted s' = persisted s /\ commits s' = commits s) /\
    (forall item_id user_id quantity,
        update_cart_item item_id user_id quantity s = (Raise e, s') ->
        persisted s' = persisted s /\ commits s' = commits s) /\
    (forall item_id user_id,
        remove_from_cart item_id user_id s = (Raise e, s') ->
        persisted s' = persisted s /\ commits s' = commits s).
Proof.
  intros s s' e. split; [|split].
  - intros user_id product_id quantity E.
    unfold add_to_cart, bind, execute in E. simpl in E.
    destruct (filter (fun p => Product.id p =? product_id)
                     (products (pending s))) as [|p [|p' l]];
      simpl in E; try (raise_before_commit E).
    destruct (Product.is_active p); simpl in E;
      [|raise_before_commit E].
    destruct (Product.stock_quantity p <? quantity); simpl in E;
      [raise_before_commit E|].
    destruct (filter (fun c => (CartItem.user_id c =? user_id)
                               && (CartItem.product_id c =? product_id))
                     (cart_items (pending s))) as [|ci [|ci' l]] eqn:Hsel;
      simpl in E; try (raise_before_commit E).
    + unfold refresh_cart_item, bind, execute in E. simpl in E.
      destruct (find _ _) eqn:Hf in E; simpl in E; [discriminate|].
      exfalso. exact (refresh_finds_added _ _ Hf).
    + destruct (CartItem.quantity ci + quantity >? Product.stock_quantity p);
        simpl in E; [raise_before_commit E|].
      unfold refresh_cart_item, bind, execute in E. simpl in E.
      destruct (find _ _) eqn:Hf in E; simpl in E; [discriminate|].
      exfalso. refine (refresh_finds_updated _ ci _ _ Hf).
      apply (select_one_in _ _ _ Hsel).
  - intros item_id user_id quantity E.
    unfold update_cart_item, bind, execute in E. simpl in E.
    destruct (filter (fun c => (CartItem.id c =? item_id)
                               && (CartItem.user_id c =? user_id))
                     (cart_items (pending s))) as [|ci [|ci' l]] eqn:Hsel;
      simpl in E; try discriminate; try (raise_before_commit E).
    destruct (CartItem_product (pending s) ci) as [p|]; simpl in E;
      [|raise_before_commit E].
    destruct (Product.stock_quantity p <? quantity); simpl in E;
      [raise_before_commit E|].
    unfold refresh_cart_item, bind, execute in E. simpl in E.
    destruct (find _ _) eqn:Hf in E; simpl in E; [discriminate|].
    exfalso. refine (refresh_finds_updated _ ci _ _ Hf).
    apply (select_one_in _ _ _ Hsel).
  - intros item_id user_id E.
    unfold remove_from_cart, bind, execute in E. simpl in E.
    destruct (filter (fun c => (CartItem.id c =? item_id)
                               && (CartItem.user_id c =? user_id))
                     (cart_items (pending s))) as [|ci [|ci' l]];
      simpl in E; try discriminate; raise_before_commit E.
Qed.
Lemma select_none (A : Type) (f : A -> bool) (l : list A) :
  (forall x, In x l -> f x = false) -> filter f l = [].
Proof.
  induction l as [|x l IH]; simpl; intros Hf; [reflexivity|].
  rewrite (Hf x (or_introl eq_refl)). apply IH.
  intros y Hy. apply Hf. right. exact Hy.
Qed.

(** X4: [update_cart_item] answers [None] and touches nothing when no line
    with that id belongs to the caller, and raises "Insufficient stock",
    again touching nothing, when the caller's line asks for more than the
    product's stock. *)
Theorem update_cart_item_refusals :
  forall (s : Session num) (item_id user_id : UUID) (quantity : Z),
    ((forall c, In c (cart_items (pending s)) -> CartItem.id c = item_id ->
                CartItem.user_id c <> user_id) ->
     update_cart_item item_id user_id quantity s = (Ok None, s)) /\
    (forall ci p,
        filter (fun c => (CartItem.id c =? item_id)
                         && (CartItem.user_id c =? user_id))
               (cart_items (pending s)) = [ci] ->
        CartItem_product (pending s) ci = Some p ->
        Product.stock_quantity p < quantity ->
        update_cart_item item_id user_id quantity s
        = (Raise (ValueError "Insufficient stock"), s)).
Proof.
  intros s item_id user_id quantity. split.
  - intros Hnone. unfold update_cart_item, bind, execute. simpl.
    rewrite select_none; [reflexivity|].
    intros c Hc. apply andb_false_iff.
    destruct (Z.eqb_spec (CartItem.id c) item_id) as [E|]; [|auto].
    right. apply Z.eqb_neq. apply Hnone; assumption.
  - intros ci p Hsel Hp Hlt. unfold update_cart_item, bind, execute. simpl.
    rewrite Hsel. simpl. rewrite Hp. simpl.
    replace (Product.stock_quantity p <? quantity) with true
      by (symmetry; apply Z.ltb_lt; lia).
    reflexivity.
Qed.

(** X5: [remove_from_cart] deletes the caller's line and nothing else, and
    a second removal of the same line, like the removal of a line that is
    not the caller's, answers [False] without a change. *)
Theorem remove_from_cart_once :
  forall (d : Db num) (fresh : UUID) (t : Z) (item_id user_id : UUID)
         (ci : CartItem.t),
    NoDup (map CartItem.id (cart_items d)) ->
    In ci (cart_items d) ->
    CartItem.id ci = item_id ->
    let s := open_session d fresh t in
    (CartItem.user_id ci <> user_id ->
     remove_from_cart item_id user_id s = (Ok false, s)) /\
    (CartItem.user_id ci = user_id ->
     exists s',
       remove_from_cart item_id user_id s = (Ok true, s')
       /\ cart_items (persisted s')
          = filter (fun c => negb (CartItem.id c =? item_id)) (cart_items d)
       /\ ~ In ci (cart_items (persisted s'))
       /\ (forall c, In c (cart_items d) -> c <> ci ->
                     In c (cart_items (persisted s')))
       /\ remove_from_cart item_id user_id s' = (Ok false, s')).
Proof.
  intros d fresh t item_id user_id ci ND Hin Hid s.
  assert (Hkey : filter (fun c => CartItem.id c =? item_id) (cart_items d)
                 = [ci])
    by (rewrite <- Hid; apply select_by_key; assumption).
  split.
  - intros Hu. unfold remove_from_cart, bind, execute. simpl.
    rewrite (filter_andb (fun c => CartItem.id c =? item_id)
                         (fun c => CartItem.user_id c =? user_id)).
    rewrite Hkey. simpl.
    replace (CartItem.user_id ci =? user_id) with false
      by (symmetry; apply Z.eqb_neq; exact Hu).
    reflexivity.
  - intros Hu. unfold remove_from_cart, bind, execute. simpl.
    rewrite (filter_andb (fun c => CartItem.id c =? item_id)
                         (fun c => CartItem.user_id c =? user_id)).
    rewrite Hkey. simpl. rewrite Hu, Z.eqb_refl. simpl.
    eexists. split; [reflexivity|]. simpl. rewrite Hid.
    unfold delete_where.
    split; [reflexivity|]. split; [|split].
    + intros Hc. apply filter_In in Hc. destruct Hc as [_ Hc].
      rewrite Hid, Z.eqb_refl in Hc. discriminate.
    + intros c Hc Hne. apply filter_In. split; [exact Hc|].
      apply negb_true_iff. apply Z.eqb_neq. intros E.
      apply Hne. apply (key_determines_row CartItem.id (cart_items d));
        auto. congruence.
    + rewrite (filter_andb (fun c => CartItem.id c =? item_id)
                           (fun c => CartItem.user_id c =? user_id)).
      rewrite (select_none _ (fun c => CartItem.id c =? item_id));
        [reflexivity|].
      intros x Hx. apply filter_In in Hx. destruct Hx as [_ Hx].
      apply negb_true_iff in Hx. exact Hx.
Qed.

(** X6: [clear_cart] always returns; afterwards the user has no cart line
    stored, and the lines of the other users are the ones from before. *)
Theorem clear_cart_empties :
  forall (s : Session num) (user_id : UUID),
    exists s',
      clear_cart user_id s = (Ok tt, s')
      /\ filter (fun c => CartItem.user_id c =? user_id)
                (cart_items (persisted s')) = []
      /\ (NoDup (map CartItem.id (cart_items (pending s))) ->
          cart_items (persisted s')
          = filter (fun c => negb (CartItem.user_id c =? user_id))
                   (cart_items (pending s)))
      /\ products (persisted s') = products (pending s)
      /\ commits s' = S (commits s).
Proof.
  intros s user_id. unfold clear_cart, bind, execute, mutate, commit. simpl.
  eexists. split; [reflexivity|]. simpl. unfold delete_where.
  split; [|split; [|split; reflexivity]].
  - apply select_none. intros x Hx. apply filter_In in Hx.
    destruct Hx as [Hin Hx]. apply negb_true_iff in Hx.
    destruct (Z.eqb_spec (CartItem.user_id x) user_id) as [E|]; [|reflexivity].
    exfalso. assert (Hex : existsb (fun y => CartItem.id y =? CartItem.id x)
                             (filter (fun c => CartItem.user_id c =? user_id)
                                     (cart_items (pending s))) = true).
    { apply existsb_exists. exists x. split; [|apply Z.eqb_refl].
      apply filter_In. split; [exact Hin|]. apply Z.eqb_eq. exact E. }
    rewrite Hex in Hx. discriminate.
  - intros ND. apply filter_ext_in. intros x Hx. f_equal.
    destruct (Z.eqb_spec (CartItem.user_id x) user_id) as [E|Hne].
    + apply existsb_exists. exists x. split; [|apply Z.eqb_refl].
      apply filter_In. split; [exact Hx|]. apply Z.eqb_eq. exact E.
    + destruct (existsb _ _) eqn:Hex; [|reflexivity].
      exfalso. apply existsb_exists in Hex. destruct Hex as (y & Hy & Hid).
      apply filter_In in Hy. destruct Hy as [Hy Hu].
      apply Z.eqb_eq in Hid, Hu.
      assert (y = x)
        by (apply (key_determines_row CartItem.id (cart_items (pending s)));
            auto).
      subst y. contradiction.
Qed.
End CartExtras.

(** ** Orders: refusals, failures, cancellation after placement *)

Section OrderExtras.
Context {num : Type} `{Amount num}.

Lemma collect_order_items_rejects (rows : list (LoadedCartItem num)) :
  forall acc items0,
    (exists r, In r rows
               /\ (snd r = None
                   \/ exists p, snd r = Some p
                                /\ (Product.is_active p = false
                                    \/ Product.stock_quantity p
                                       < CartItem.quantity (fst r)))) ->
    exists msg, collect_order_items rows acc items0 = Raise (ValueError msg).
Proof.
  induction rows as [|[ci op] rows IH]; intros acc items0 (r & Hin & Hbad);
    [contradiction|].
  simpl. destruct op as [p|]; [|eexists; reflexivity].
  destruct (Product.is_active p) eqn:Hact; simpl; [|eexists; reflexivity].
  destruct (Z.ltb_spec (Product.stock_quantity p) (CartItem.quantity ci))
    as [Hlt|Hge]; [eexists; reflexivity|].
  apply IH. destruct Hin as [<-|Hin].
  - exfalso. simpl in Hbad. destruct Hbad as [Hn|(q & Hq & [Hi|Hs])].
    + discriminate.
    + inversion Hq; subst. congruence.
    + inversion Hq; subst. lia.
  - exists r. auto.
Qed.

(** X7: [create_order] refuses an empty cart with "Cart is empty", and a
    cart holding a line whose product is gone, withdrawn from sale or short
    of stock with a [ValueError]; in both cases the session is exactly as
    before: no order, no stock change, the cart kept. *)
Theorem create_order_refusals :
  forall (s : Session num) (user_id : UUID) (order_data : OrderCreate.t),
    let d := pending s in
    let lines :=
      filter (fun ci => CartItem.user_id ci =? user_id) (cart_items d) in
    (lines = [] ->
     create_order user_id order_data s = (Raise (ValueError "Cart is empty"), s))
    /\ (forall ci,
          In ci lines ->
          (CartItem_product d ci = None
           \/ exists p, CartItem_product d ci = Some p
                        /\ (Product.is_active p = false
                            \/ Product.stock_quantity p < CartItem.quantity ci)) ->
          exists msg,
            create_order user_id order_data s = (Raise (ValueError msg), s)).
Proof.
  intros s user_id order_data d lines. split.
  - intros Hempty. unfold create_order, bind, execute, select_cart. simpl.
    fold d. fold lines. rewrite Hempty. reflexivity.
  - intros ci Hin Hbad.
    destruct (collect_order_items_rejects (select_cart user_id d)
                (num_of_int 0) []) as (msg & Hc).
    { exists (ci, CartItem_product d ci). split; [|exact Hbad].
      unfold select_cart. apply in_map_iff. exists ci. auto. }
    exists msg. unfold create_order, bind, execute. simpl. fold d.
    destruct (select_cart user_id d) as [|r rows] eqn:Hrows.
    + exfalso. unfold select_cart in Hrows. fold lines in Hrows.
      destruct lines; [contradiction | discriminate].
    + rewrite Hc. reflexivity.
Qed.

(** X8: a [create_order] that raises, for whatever reason, has committed
    nothing: the stored database holds no part of an order, no stock
    decrement and the whole cart. *)
Theorem create_order_failure_commits_nothing :
  forall (s s' : Session num) (user_id : UUID) (order_data : OrderCreate.t)
         (e : exn),
    create_order user_id order_data s = (Raise e, s') ->
    persisted s' = persisted s /\ commits s' = commits s.
Proof.
  intros s s' user_id order_data e E.
  unfold create_order, bind, execute in E.
  destruct (select_cart user_id (pending s)) as [|r0 rows];
    [inversion E; subst; auto|].
  destruct (collect_order_items (r0 :: rows) (num_of_int 0) [])
    as [[sub item_list]|e0]; [|inversion E; subst; auto].
  unfold utcnow, uuid4, insert_order, bind, execute in E; simpl in E.
  match type of E with
  | context [existsb ?f ?l] => destruct (existsb f l) eqn:Hfree
  end; [inversion E; subst; auto|].
  unfold mutate, commit, bind in E; simpl in E.
  match type of E with
  | context [add_order_items ?oid ?il ?s1] =>
      destruct (add_order_items oid il s1) as [r s2] eqn:Hadd
  end.
  apply add_order_items_frame in Hadd. simpl in Hadd.
  destruct Hadd as (Hp & Hc & Hord & _).
  destruct r as [[]|e1]; [|inversion E; subst; auto].
  exfalso.
  assert (Habs : filter (fun o => Order.id o =? next_uuid s)
                        (orders (pending s)) = []).
  { apply select_none. intros o Ho.
    destruct (Z.eqb_spec (Order.id o) (next_uuid s)) as [Eo|]; [|reflexivity].
    exfalso.
    assert (Hex : existsb
              (fun o0 => (Order.id o0 =? next_uuid s)
                         || (fst (Order.order_number o0) =? now s)
                            && (snd (Order.order_number o0)
                                =? uuid_prefix user_id))
              (orders (pending s)) = true).
    { apply existsb_exists. exists o. split; [exact Ho|].
      apply orb_true_iff. left. apply Z.eqb_eq. exact Eo. }
    simpl in Hfree. rewrite Hex in Hfree. discriminate. }
  unfold refresh_order, bind, execute, select_order_by_id in E. simpl in E.
  rewrite Hord in E.
  rewrite find_head_filter, filter_app, Habs in E. simpl in E.
  rewrite Z.eqb_refl in E. simpl in E.
  rewrite Hord, filter_app, Habs in E. simpl in E.
  rewrite Z.eqb_refl in E. simpl in E. discriminate.
Qed.
Lemma update_where_keys {A} (key : A -> Z) (sel : A -> bool) (f : A -> A)
      (l : list A) :
  (forall r, key (f r) = key r) ->
  map key (update_where sel f l) = map key l.
Proof.
  intros Hk. unfold update_where. rewrite map_map. apply map_ext.
  intros r. destruct (sel r); auto.
Qed.

(** [cancel_order] on an order of the caller that may still be cancelled, in
    any session. *)
Lemma cancel_order_run (s : Session num) (order_id user_id : UUID)
      (o : Order.t num) :
  NoDup (map Order.id (orders (pending s))) ->
  NoDup (map Product.id (products (pending s))) ->
  In o (orders (pending s)) ->
  Order.id o = order_id -> Order.user_id o = user_id ->
  Order.status o = PENDING \/ Order.status o = CONFIRMED ->
  exists s',
    cancel_order order_id user_id s
    = (Ok (Some (Order.set_status CANCELLED o, Order_items (pending s) o)), s')
    /\ persisted s' = pending s'
    /\ pending s'
       = set_products
           (map (adjust_stock (restoration_changes (Order_items (pending s) o)))
                (products (pending s)))
           (set_orders
              (update_where (fun x => Order.id x =? order_id)
                            (Order.set_status CANCELLED) (orders (pending s)))
              (pending s)).
Proof.
  intros NDo NDp Hin Hid Hu Hst.
  pose proof (select_own_order (pending s) order_id user_id o NDo Hin Hid Hu)
    as Hsel.
  unfold cancel_order, bind, execute. simpl. rewrite Hsel. simpl.
  replace (negb (OrderStatus_eqb (Order.status o) PENDING
                 || (OrderStatus_eqb (Order.status o) CONFIRMED || false)))
    with false by (destruct Hst as [-> | ->]; reflexivity).
  unfold mutate. simpl.
  match goal with
  | |- context [restore_stock ?il ?s1] =>
      destruct (restore_stock_run il s1) as (s2 & Hrun & Hp2 & Hc2 & Hpend)
  end.
  { simpl. exact NDp. }
  rewrite Hrun. unfold commit, refresh_order, bind, execute. simpl.
  rewrite Hpend. simpl. rewrite <- Hid.
  rewrite find_head_filter.
  rewrite filter_update_where by reflexivity.
  rewrite (select_by_key Order.id (orders (pending s)) o NDo Hin). simpl.
  rewrite Z.eqb_refl. simpl.
  eexists. split; [reflexivity|]. simpl. auto.
Qed.

(** X10: an order can be cancelled once: after a cancellation the same call
    raises "Order cannot be cancelled at this stage" and changes nothing, so
    the stock is restored a single time. *)
Theorem cancel_order_not_repeatable :
  forall (d : Db num) (fresh : UUID) (t : Z) (order_id user_id : UUID)
         (o : Order.t num),
    NoDup (map Order.id (orders d)) ->
    NoDup (map Product.id (products d)) ->
    In o (orders d) ->
    Order.id o = order_id -> Order.user_id o = user_id ->
    Order.status o = PENDING \/ Order.status o = CONFIRMED ->
    exists lo s1,
      cancel_order order_id user_id (open_session d fresh t)
      = (Ok (Some lo), s1)
      /\ cancel_order order_id user_id s1
         = (Raise (ValueError "Order cannot be cancelled at this stage"), s1).
Proof.
  intros d fresh t order_id user_id o NDo NDp Hin Hid Hu Hst.
  destruct (cancel_order_run (open_session d fresh t) order_id user_id o
              NDo NDp Hin Hid Hu Hst) as (s1 & Hrun & _ & Hpend).
  exists (Order.set_status CANCELLED o, Order_items d o), s1.
  split; [exact Hrun|]. simpl in Hpend.
  unfold cancel_order, bind, execute. simpl. rewrite Hpend. simpl.
  rewrite (filter_andb (fun x => Order.id x =? order_id)
                       (fun x => Order.user_id x =? user_id)).
  rewrite filter_update_where by reflexivity.
  rewrite <- Hid, (select_by_key Order.id (orders d) o NDo Hin). simpl.
  rewrite Z.eqb_refl. simpl. rewrite Hu, Z.eqb_refl. simpl. reflexivity.
Qed.
#[local] Arguments collect_order_items : simpl never.

(** [create_order] on a cart that passes the checks: the order it returns
    and the database it commits. *)
Lemma create_order_run (d : Db num) (fresh : UUID) (t : Z) (user_id : UUID)
      (order_data : OrderCreate.t) :
  let lines :=
    filter (fun ci => CartItem.user_id ci =? user_id) (cart_items d) in
  lines <> [] ->
  (forall ci, In ci lines ->
     exists p, CartItem_product d ci = Some p /\ Product.is_active p = true
               /\ CartItem.quantity ci <= Product.stock_quantity p) ->
  NoDup (map Product.id (products d)) ->
  (forall o, In o (orders d) ->
     Order.id o <> fresh
     /\ Order.order_number o <> (t, uuid_prefix user_id)) ->
  exists (order : Order.t num) (item_list : list (OrderItem.t num))
         (new_items : list (OrderItem.t num)) (s1 : Session num),
    create_order user_id order_data (open_session d fresh t)
    = (Ok (order, item_list), s1)
    /\ Order.id order = fresh /\ Order.user_id order = user_id
    /\ Order.status order = PENDING
    /\ item_list = Order_items (pending s1) order
    /\ persisted s1 = pending s1
    /\ pending s1
       = set_cart_items
           (delete_where (fun c => CartItem.user_id c =? user_id)
                         (cart_items d))
           (set_products
              (map (adjust_stock
                      (map (fun ci => (CartItem.product_id ci,
                                       - CartItem.quantity ci)) lines))
                   (products d))
              (set_order_items (order_items d ++ new_items)
                 (set_orders (orders d ++ [order]) d)))
    /\ Forall (fun i => OrderItem.order_id i = fresh) new_items
    /\ map (fun i => (OrderItem.product_id i, OrderItem.quantity i)) new_items
       = map (fun ci => (Some (CartItem.product_id ci), CartItem.quantity ci))
             lines.
Proof.
  intros lines Hne Hvalid NDp Hfresh.
  destruct (priced_of_valid d lines Hvalid)
    as (priced & Hrows & Hfst & Hv & Hprod).
  pose proof (collect_order_items_valid priced (num_of_int 0) [] Hv) as Hc.
  unfold create_order, bind, execute. simpl.
  unfold select_cart. fold lines. rewrite <- Hrows.
  destruct (map (fun cp => (fst cp, Some (snd cp))) priced) as [|r rows] eqn:Hm.
  { destruct priced; [|discriminate]. simpl in Hfst. symmetry in Hfst.
    contradiction. }
  rewrite Hc. simpl.
  unfold utcnow, uuid4, insert_order, bind, execute; simpl.
  match goal with
  | |- context [existsb ?f ?l] =>
      replace (existsb f l) with false
  end.
  2:{ symmetry. apply not_true_is_false. intros Hex.
      apply existsb_exists in Hex. destruct Hex as (o & Hino & Ho).
      destruct (Hfresh o Hino) as [Hid Hnum].
      apply orb_true_iff in Ho. destruct Ho as [Ho|Ho].
      - apply Z.eqb_eq in Ho. contradiction.
      - apply andb_true_iff in Ho. destruct Ho as [H1 H2].
        apply Z.eqb_eq in H1, H2. apply Hnum.
        destruct (Order.order_number o). simpl in *. congruence. }
  unfold mutate, commit, bind; simpl.
  match goal with
  | |- context [add_order_items ?oid ?il ?s1] =>
      destruct (add_order_items_run il oid s1)
        as (s2 & new_items & Hrun & Hp2 & Hc2 & Hpend & Hoid & Hmap)
  end.
  { simpl. exact NDp. }
  { simpl. intros it Hit. apply in_map_iff in Hit.
    destruct Hit as (cp & <- & Hcp). simpl.
    rewrite Forall_forall in Hprod. apply Hprod in Hcp.
    apply CartItem_product_spec in Hcp. apply in_map. tauto. }
  rewrite Hrun. simpl in *.
  assert (Habs : filter (fun o => Order.id o =? fresh) (orders d) = []).
  { apply (select_absent_key Order.id (orders d) fresh).
    intros Hin. apply in_map_iff in Hin. destruct Hin as (o & Ho & Hino).
    exact (proj1 (Hfresh o Hino) Ho). }
  unfold refresh_order, bind, execute, select_order_by_id; simpl.
  rewrite Hpend. simpl.
  rewrite find_head_filter, filter_app, Habs. simpl. rewrite Z.eqb_refl.
  simpl. rewrite filter_app, Habs. simpl. rewrite Z.eqb_refl.
  simpl.
  rewrite (placement_changes_of_lines d priced Hprod), Hfst.
  eexists _, _, new_items, _. split; [reflexivity|]. simpl.
  rewrite Hmap, map_map. simpl.
  repeat split; auto.
  rewrite <- Hfst, !map_map. apply map_ext_in. intros cp Hcp. simpl.
  rewrite Forall_forall in Hprod. apply Hprod in Hcp.
  apply CartItem_product_spec in Hcp. destruct Hcp as [_ ->]. reflexivity.
Qed.

Lemma restoration_of_lines (new_items : list (OrderItem.t num))
      (lines : list CartItem.t) :
  map (fun i => (OrderItem.product_id i, OrderItem.quantity i)) new_items
  = map (fun ci => (Some (CartItem.product_id ci), CartItem.quantity ci)) lines ->
  forall k,
    stock_delta (map (fun ci => (CartItem.product_id ci, - CartItem.quantity ci))
                     lines) k
    + stock_delta (restoration_changes new_items) k = 0.
Proof.
  revert lines.
  induction new_items as [|i rest IH]; intros [|ci lines] E k; simpl in *;
    try discriminate; [reflexivity|].
  inversion E as [[Hp Hq Hrest]]. rewrite Hp. simpl.
  specialize (IH lines Hrest k). rewrite Hq.
  destruct (CartItem.product_id ci =? k); lia.
Qed.

Lemma adjust_stock_inverse (a b : list (UUID * Z)) (ps : list (Product.t num)) :
  (forall k, stock_delta a k + stock_delta b k = 0) ->
  map (adjust_stock b) (map (adjust_stock a) ps) = ps.
Proof.
  intros Hz. rewrite map_map. rewrite <- (map_id ps) at 2.
  apply map_ext. intros p. unfold adjust_stock. destruct p; simpl.
  unfold Product.set_stock_quantity; simpl. f_equal.
  specialize (Hz id). lia.
Qed.

(** X9: an order placed by a stored user and then cancelled by that user
    leaves every product row as it was before the order, stock included; the
    order stays, stored as cancelled, and the cart that was emptied by the
    placement is not given back. *)
Theorem create_then_cancel_restores_stock :
  forall (d : Db num) (fresh : UUID) (t : Z) (user_id : UUID)
         (order_data : OrderCreate.t),
    let lines :=
      filter (fun ci => CartItem.user_id ci =? user_id) (cart_items d) in
    In user_id (map User.id (users d)) ->
    lines <> [] ->
    (forall ci, In ci lines ->
       exists p, CartItem_product d ci = Some p /\ Product.is_active p = true
                 /\ CartItem.quantity ci <= Product.stock_quantity p) ->
    NoDup (map Product.id (products d)) ->
    NoDup (map Order.id (orders d)) ->
    (forall o, In o (orders d) ->
       Order.id o <> fresh
       /\ Order.order_number o <> (t, uuid_prefix user_id)) ->
    (forall i, In i (order_items d) -> OrderItem.order_id i <> fresh) ->
    exists (lo lo' : LoadedOrder num) (s1 s2 : Session num),
      create_order user_id order_data (open_session d fresh t) = (Ok lo, s1)
      /\ cancel_order (Order.id (fst lo)) user_id s1 = (Ok (Some lo'), s2)
      /\ products (persisted s2) = products d
      /\ orders (persisted s2) = orders d ++ [fst lo']
      /\ fst lo' = Order.set_status CANCELLED (fst lo)
      /\ snd lo' = snd lo
      /\ filter (fun ci => CartItem.user_id ci =? user_id)
                (cart_items (persisted s2)) = []
      /\ pending s2 = persisted s2.
Proof.
  intros d fresh t user_id order_data lines _ Hne Hvalid NDp NDo Hfresh Hitems.
  destruct (create_order_run d fresh t user_id order_data Hne Hvalid NDp Hfresh)
    as (order & item_list & new_items & s1 & Hrun & Hid & Hu & Hst & Hil & Hper
        & Hpend & Hoid & Hmap).
  fold lines in Hpend, Hmap.
  assert (Hnot : ~ In fresh (map Order.id (orders d))).
  { intros Hin. apply in_map_iff in Hin. destruct Hin as (o & Ho & Hino).
    exact (proj1 (Hfresh o Hino) Ho). }
  assert (Hsel : Order_items (pending s1) order = new_items).
  { unfold Order_items. rewrite Hpend, Hid. simpl. rewrite filter_app.
    replace (filter (fun i => OrderItem.order_id i =? fresh) (order_items d))
      with (@nil (OrderItem.t num)).
    - simpl. clear - Hoid. induction Hoid as [|i l Hi _ IH]; simpl;
        [reflexivity|]. rewrite Hi, Z.eqb_refl, IH. reflexivity.
    - symmetry. apply (select_absent_key OrderItem.order_id).
      intros Hin. apply in_map_iff in Hin. destruct Hin as (i & Hi & Hini).
      exact (Hitems i Hini Hi). }
  destruct (cancel_order_run s1 fresh user_id order)
    as (s2 & Hc & Hper2 & Hpend2).
  - rewrite Hpend. simpl. rewrite map_app. simpl. rewrite Hid.
    apply NoDup_app; [exact NDo | repeat constructor; simpl; tauto |].
    intros k Hk [<-|[]]. exact (Hnot Hk).
  - rewrite Hpend. simpl. rewrite adjust_stock_id. exact NDp.
  - rewrite Hpend. simpl. apply in_or_app. right. left. reflexivity.
  - exact Hid.
  - exact Hu.
  - left. exact Hst.
  - assert (Hitem_list : item_list = new_items) by congruence.
    exists (order, item_list), (Order.set_status CANCELLED order, item_list),
           s1, s2.
    simpl. rewrite Hid.
    split; [exact Hrun|]. split; [rewrite Hc, Hsel, Hitem_list; reflexivity|].
    rewrite Hper2, Hpend2, Hsel, Hpend. simpl.
    split; [apply adjust_stock_inverse; apply restoration_of_lines; exact Hmap|].
    split.
    { unfold update_where. rewrite map_app. simpl.
      rewrite Hid, Z.eqb_refl. f_equal.
      rewrite <- (map_id (orders d)) at 2. apply map_ext_in.
      intros o Ho. destruct (Z.eqb_spec (Order.id o) fresh) as [E|_];
        [|reflexivity].
      exfalso. apply Hnot. rewrite <- E. apply in_map. exact Ho. }
    repeat split.
    unfold delete_where.
    clear. induction (cart_items d) as [|c l IH]; simpl; [reflexivity|].
    destruct (CartItem.user_id c =? user_id) eqn:E; simpl; rewrite ?E; auto.
Qed.

Lemma update_where_twice {A} (sel : A -> bool) (f g : A -> A) (l : list A) :
  (forall r, sel (f r) = sel r) ->
  update_where sel g (update_where sel f l)
  = update_where sel (fun r => g (f r)) l.
Proof.
  intros Hsel. unfold update_where. rewrite map_map. apply map_ext.
  intros r. destruct (sel r) eqn:E; [rewrite Hsel, E|rewrite E]; reflexivity.
Qed.

Lemma update_where_key_const {A} (key : A -> Z) (l : list A) (x : A)
      (f : A -> A) :
  NoDup (map key l) -> In x l ->
  update_where (fun r => key r =? key x) f l
  = update_where (fun r => key r =? key x) (fun _ => f x) l.
Proof.
  intros ND Hin. unfold update_where. apply map_ext_in. intros r Hr.
  destruct (Z.eqb_spec (key r) (key x)) as [E|_]; [|reflexivity].
  rewrite (key_determines_row key l r x ND Hr Hin E). reflexivity.
Qed.

(** X11: [update_order_status], the administrator's status change.  An
    unknown order id is answered [None] with nothing changed.  On a known
    order every target status is accepted whatever the current one is; the
    payment status becomes paid on delivery, refunded on the cancellation of
    a paid order, and is kept otherwise; the order row is the only row that
    changes, so a cancellation made this way gives no stock back. *)
Theorem update_order_status_behaviour :
  forall (d : Db num) (fresh : UUID) (t : Z) (order_id : UUID)
         (new_status : OrderStatus),
    NoDup (map Order.id (orders d)) ->
    let s := open_session d fresh t in
    (~ In order_id (map Order.id (orders d)) ->
     update_order_status order_id new_status s = (Ok None, s))
    /\ (forall o, In o (orders d) -> Order.id o = order_id ->
        exists o' s',
          update_order_status order_id new_status s
          = (Ok (Some (o', Order_items d o)), s')
          /\ o' = Order_set_payment_status
                    (match new_status with
                     | DELIVERED => PAY_PAID
                     | CANCELLED =>
                         if PaymentStatus_eqb (Order.payment_status o) PAY_PAID
                         then PAY_REFUNDED else Order.payment_status o
                     | _ => Order.payment_status o
                     end)
                    (Order.set_status new_status o)
          /\ persisted s'
             = set_orders (update_where (fun x => Order.id x =? order_id)
                                        (fun _ => o') (orders d)) d
          /\ pending s' = persisted s'
          /\ commits s' = 1%nat).
Proof.
  intros d fresh t order_id new_status NDo s. split.
  - intros Hnot. unfold update_order_status, bind, execute. simpl.
    rewrite (select_absent_key Order.id (orders d) order_id Hnot). reflexivity.
  - intros o Hin Hid. subst order_id.
    unfold update_order_status, bind, execute. simpl.
    rewrite (select_by_key Order.id (orders d) o NDo Hin). simpl.
    unfold mutate. simpl.
    assert (Hrow : forall f : Order.t num -> Order.t num,
               (forall r, Order.id (f r) = Order.id r) ->
               find (fun x => Order.id x =? Order.id o)
                    (update_where (fun x => Order.id x =? Order.id o) f
                                  (orders d)) = Some (f o)).
    { intros f Hf. rewrite find_head_filter.
      rewrite filter_update_where by (intros r; rewrite Hf; reflexivity).
      rewrite (select_by_key Order.id (orders d) o NDo Hin). simpl.
      rewrite Z.eqb_refl. reflexivity. }
    destruct new_status; simpl;
      try destruct (PaymentStatus_eqb (Order.payment_status o) PAY_PAID);
      simpl; unfold mutate, commit, refresh_order, bind, execute; simpl;
      rewrite ?update_where_twice by reflexivity;
      rewrite Hrow by reflexivity; simpl;
      (eexists _, _; split; [reflexivity|]; simpl;
       split; [destruct o; reflexivity|];
       split; [|split; reflexivity];
       unfold set_orders; simpl; f_equal;
       rewrite (update_where_key_const Order.id (orders d) o _ NDo Hin);
       destruct o; reflexivity).
Qed.

(** X12: reading one order.  [get_order] answers the order only to its
    owner and [None] to every other user, where [get_order_admin] answers it
    whoever owns it; neither changes the session. *)
Theorem get_order_is_owner_only :
  forall (s : Session num) (o : Order.t num) (user_id : UUID),
    NoDup (map Order.id (orders (pending s))) ->
    In o (orders (pending s)) ->
    get_order_admin (Order.id o) s
    = (Ok (Some (o, Order_items (pending s) o)), s)
    /\ get_order (Order.id o) user_id s
       = (Ok (if Order.user_id o =? user_id
              then Some (o, Order_items (pending s) o) else None), s).
Proof.
  intros s o user_id NDo Hin. split.
  - unfold get_order_admin, bind, execute. simpl.
    rewrite (select_by_key Order.id (orders (pending s)) o NDo Hin).
    reflexivity.
  - unfold get_order, bind, execute. simpl.
    rewrite (filter_andb (fun x => Order.id x =? Order.id o)
                         (fun x => Order.user_id x =? user_id)).
    rewrite (select_by_key Order.id (orders (pending s)) o NDo Hin). simpl.
    destruct (Order.user_id o =? user_id); reflexivity.
Qed.
End OrderExtras.

(** ** Categories: deletion guards, creation, update, reordering *)

Section CategoryExtras.
Context {num : Type} `{Amount num}.

(** X13: [delete_category] without [force].  An unknown id is answered
    [False]; a category that still has products, or has none but has
    subcategories, is refused with a [ValueError] and nothing changes; a
    category with neither is deleted, and its row is the only thing that
    goes. *)
Theorem delete_category_guards :
  forall (d : Db num) (fresh : UUID) (t : Z) (category_id : UUID),
    NoDup (map Category.id (categories d)) ->
    let s := open_session d fresh t in
    (~ In category_id (map Category.id (categories d)) ->
     delete_category category_id false s = (Ok false, s))
    /\ (forall c, In c (categories d) -> Category.id c = category_id ->
        (Category_products d c <> [] ->
         exists msg,
           delete_category category_id false s = (Raise (ValueError msg), s))
        /\ (Category_products d c = [] -> Category_subcategories d c <> [] ->
            delete_category category_id false s
            = (Raise (ValueError
                 "Category has subcategories. Set force=True to delete anyway (subcategories will become main categories)."), s))
        /\ (Category_products d c = [] -> Category_subcategories d c = [] ->
            exists s',
              delete_category category_id false s = (Ok true, s')
              /\ persisted s'
                 = set_categories
                     (delete_where (fun x => Category.id x =? category_id)
                                   (categories d)) d
              /\ pending s' = persisted s')).
Proof.
  intros d fresh t category_id ND s. split.
  - intros Hnot. unfold delete_category, get_category, bind, execute. simpl.
    rewrite (select_absent_key Category.id (categories d) category_id Hnot).
    reflexivity.
  - intros c Hin Hid. subst category_id.
    pose proof (select_by_key Category.id (categories d) c ND Hin) as Hsel.
    unfold delete_category, get_category, bind, execute. simpl.
    rewrite Hsel. simpl.
    unfold Category_product_count, Category_has_subcategories.
    split; [|split].
    + intros Hp. destruct (Category_products d c) as [|p ps]; [congruence|].
      simpl List.length.
      replace (0 <? Z.of_nat (S (List.length ps))) with true
        by (symmetry; apply Z.ltb_lt; lia).
      simpl. eexists. reflexivity.
    + intros Hp Hs. rewrite Hp. simpl.
      destruct (Category_subcategories d c) as [|k ks]; [congruence|].
      simpl List.length.
      replace (0 <? Z.of_nat (S (List.length ks))) with true
        by (symmetry; apply Z.ltb_lt; lia).
      reflexivity.
    + intros Hp Hs. rewrite Hp, Hs. simpl.
      unfold mutate, commit. simpl.
      eexists. split; [reflexivity|]. simpl. split; [|reflexivity].
      unfold session_delete_category. rewrite Hp. simpl.
      rewrite update_where_none; [destruct d; reflexivity|].
      intros r Hr.
      destruct (opt_uuid_is (Category.parent_id r) (Category.id c)) eqn:E;
        [|reflexivity].
      exfalso.
      assert (Hf : In r (Category_subcategories d c)).
      { apply filter_In. split; assumption. }
      rewrite Hs in Hf. exact Hf.
Qed.

(** X14: what [create_category] refuses.  A slug that a category already
    carries gives the [ValueError] naming it; a parent id that no category
    carries gives "Parent category not found"; in both cases the session is
    as before.  The name, unique in the schema as well, is not looked at by
    the service: a name already taken (the slug being free and of a
    length the column takes) is refused by the database at the commit, as
    an [IntegrityError], with nothing stored. *)
Theorem create_category_refusals :
  forall (s : Session num) (category_data : CategoryCreate.t),
    let same_slug :=
      filter (fun c => String.eqb (Category.slug c)
                                  (CategoryCreate.slug category_data))
             (categories (pending s)) in
    (forall o, same_slug = [o] ->
       create_category category_data s
       = (Raise (ValueError ("Slug '" ++ CategoryCreate.slug category_data
                             ++ "' is already in use")), s))
    /\ (forall p, same_slug = [] ->
          CategoryCreate.parent_id category_data = Some p ->
          ~ In p (map Category.id (categories (pending s))) ->
          create_category category_data s
          = (Raise (ValueError "Parent category not found"), s))
    /\ (forall o, same_slug = [] ->
          (String.length (CategoryCreate.slug category_data) <= 100)%nat ->
          CategoryCreate.parent_id category_data = None ->
          In o (categories (pending s)) ->
          Category.name o = CategoryCreate.name category_data ->
          exists s',
            create_category category_data s = (Raise IntegrityError, s')
            /\ persisted s' = persisted s /\ pending s' = pending s
            /\ commits s' = commits s).
Proof.
  intros s category_data same_slug. split; [|split].
  - intros o Hs. unfold create_category, check_slug_availability, bind, execute.
    simpl.
    replace (filter (fun c => String.eqb (Category.slug c)
                                (CategoryCreate.slug category_data) && true)
                    (categories (pending s))) with same_slug
      by (apply filter_ext; intros a; rewrite andb_true_r; reflexivity).
    rewrite Hs. reflexivity.
  - intros p Hs Hp Hnot.
    unfold create_category, check_slug_availability, bind, execute. simpl.
    replace (filter (fun c => String.eqb (Category.slug c)
                                (CategoryCreate.slug category_data) && true)
                    (categories (pending s))) with same_slug
      by (apply filter_ext; intros a; rewrite andb_true_r; reflexivity).
    rewrite Hs, Hp. simpl.
    rewrite (select_absent_key Category.id (categories (pending s)) p Hnot).
    reflexivity.
  - intros o Hs _ Hp Hin Hname.
    unfold create_category, check_slug_availability, bind, execute. simpl.
    replace (filter (fun c => String.eqb (Category.slug c)
                                (CategoryCreate.slug category_data) && true)
                    (categories (pending s))) with same_slug
      by (apply filter_ext; intros a; rewrite andb_true_r; reflexivity).
    rewrite Hs, Hp. simpl. unfold uuid4. simpl.
    replace (category_clash _ _) with true.
    + simpl. eexists. split; [reflexivity|]. simpl. auto.
    + symmetry. apply existsb_exists. exists o. split; [exact Hin|]. simpl.
      rewrite Hname, String.eqb_refl, orb_true_r. reflexivity.
Qed.

Lemma slug_select_true (slug : string) (l : list Category.t) :
  filter (fun c => String.eqb (Category.slug c) slug && true) l
  = filter (fun c => String.eqb (Category.slug c) slug) l.
Proof. apply filter_ext. intros a. rewrite andb_true_r. reflexivity. Qed.

Lemma existsb_false_forall {A} (f : A -> bool) (l : list A) :
  existsb f l = false <-> (forall x, In x l -> f x = false).
Proof.
  split.
  - intros E x Hin. destruct (f x) eqn:F; [|reflexivity].
    rewrite <- E. symmetry. apply existsb_exists. exists x. auto.
  - intros Hall. destruct (existsb f l) eqn:E; [|reflexivity].
    apply existsb_exists in E. destruct E as (x & Hin & F).
    rewrite (Hall x Hin) in F. discriminate.
Qed.


(** X16: the parent check of [update_category].  A request that names the
    category itself as parent is refused with "Category cannot be its own
    parent" and changes nothing.  That is the only cycle the check sees: a
    request that moves a category under one of its own children is carried
    out, and the two rows are stored as each other's parent. *)
Theorem update_category_parent_check :
  forall (s : Session num) (a b : Category.t),
    NoDup (map Category.id (categories (pending s))) ->
    In a (categories (pending s)) -> In b (categories (pending s)) ->
    (forall o, In o (categories (pending s)) ->
       Category.id o <> Category.id a ->
       Category.name o <> Category.name a
       /\ Category.slug o <> Category.slug a) ->
    Category.parent_id b = Some (Category.id a) ->
    Category.id b <> Category.id a ->
    let under p :=
      CategoryUpdate.mk None None None (Some (Some p)) None None None in
    update_category (Category.id a) (under (Category.id a)) s
    = (Raise (ValueError "Category cannot be its own parent"), s)
    /\ exists s',
         update_category (Category.id a) (under (Category.id b)) s
         = (Ok (Some (Category.set_parent_id (Some (Category.id b)) a)), s')
         /\ persisted s' = pending s'
         /\ In (Category.set_parent_id (Some (Category.id b)) a)
               (categories (persisted s'))
         /\ In b (categories (persisted s')).
Proof.
  intros s a b ND Ha Hb Huniq Hpar Hab under.
  pose proof (select_by_key Category.id (categories (pending s)) a ND Ha)
    as Hsela.
  pose proof (select_by_key Category.id (categories (pending s)) b ND Hb)
    as Hselb.
  split.
  - unfold update_category, get_category, bind, execute. simpl.
    rewrite Hsela. simpl. rewrite Z.eqb_refl. reflexivity.
  - unfold update_category, get_category, bind, execute. simpl.
    rewrite Hsela. simpl.
    replace (Category.id b =? Category.id a) with false
      by (symmetry; apply Z.eqb_neq; exact Hab).
    rewrite Hselb. simpl.
    replace (category_clash _ _) with false.
    2:{ symmetry. unfold category_clash. apply existsb_false_forall.
        intros o Ho. apply filter_In in Ho. destruct Ho as [Ho Hne].
        apply negb_true_iff in Hne. simpl. rewrite Hne. simpl.
        apply Z.eqb_neq in Hne. destruct (Huniq o Ho Hne) as [Hn Hs].
        apply String.eqb_neq in Hn, Hs. rewrite Hn, Hs. reflexivity. }
    simpl. unfold mutate, commit, refresh_category, bind, execute. simpl.
    rewrite find_head_filter.
    rewrite filter_update_where by reflexivity.
    rewrite Hsela. simpl. rewrite Z.eqb_refl. simpl.
    eexists. split; [destruct a; reflexivity|]. simpl.
    split; [reflexivity|]. split.
    + unfold update_where. apply in_map_iff. exists a.
      rewrite Z.eqb_refl. split; [destruct a; reflexivity | exact Ha].
    + unfold update_where. apply in_map_iff. exists b.
      replace (Category.id b =? Category.id a) with false
        by (symmetry; apply Z.eqb_neq; exact Hab).
      auto.
Qed.



(** However the loop ends, nothing of it is committed. *)
Lemma reorder_loop_frame (category_orders : list OrderEntry.t) :
  forall (s s' : Session num) r,
    reorder_loop category_orders s = (r, s') ->
    persisted s' = persisted s /\ commits s' = commits s.
Proof.
  induction category_orders as [|item rest IH]; simpl; intros s s' r E.
  - inversion E; subst. auto.
  - unfold bind, execute in E. simpl in E.
    destruct (OrderEntry.id item) as [k|]; simpl in E;
      [|inversion E; subst; auto].
    destruct (filter (fun c => Category.id c =? k) (categories (pending s)))
      as [|x [|y l]]; simpl in E.
    + apply IH in E. exact E.
    + destruct (OrderEntry.display_order item) as [v|]; simpl in E.
      * apply IH in E. simpl in E. exact E.
      * inversion E; subst; auto.
    + inversion E; subst; auto.
Qed.






End CategoryExtras.

(** ** Slugs *)

Lemma lower_slug_char (c : ascii) :
  is_slug_char c = true \/ c = dash -> lower_ascii c = c.
Proof.
  destruct c as [[] [] [] [] [] [] [] []]; vm_compute;
    intros [E|E]; try reflexivity; discriminate.
Qed.

Lemma lstrip_dash_app (x y : list ascii) :
  lstrip_dash (x ++ y)
  = match lstrip_dash x with
    | [] => lstrip_dash y
    | c :: r => (c :: r) ++ y
    end.
Proof.
  induction x as [|c x IH]; simpl; [reflexivity|].
  destruct (Ascii.eqb c dash); [exact IH | reflexivity].
Qed.

Lemma rstrip_cons (c : ascii) (t : list ascii) :
  rev (lstrip_dash (rev (c :: t)))
  = match rev (lstrip_dash (rev t)) with
    | [] => if Ascii.eqb c dash then [] else [c]
    | x :: r => c :: x :: r
    end.
Proof.
  simpl rev at 2. rewrite lstrip_dash_app.
  destruct (lstrip_dash (rev t)) as [|y r] eqn:E.
  - simpl. destruct (Ascii.eqb c dash); reflexivity.
  - rewrite rev_app_distr. change (rev [c]) with [c].
    remember (rev (y :: r)) as w eqn:R.
    destruct w as [|x q]; [|reflexivity].
    apply (f_equal (@List.length ascii)) in R. rewrite length_rev in R.
    discriminate.
Qed.

Lemma sub_runs_open (l : list ascii) :
  forall in_run, dash_runs_open in_run (sub_runs in_run l) = true.
Proof.
  induction l as [|c t IH]; intros in_run; simpl; [reflexivity|].
  destruct (is_slug_char c) eqn:Hc.
  - simpl. destruct (Ascii.eqb_spec c dash) as [->|_]; [discriminate|].
    rewrite Hc. apply IH.
  - destruct in_run; [apply IH|]. simpl. apply IH.
Qed.

Lemma lstrip_dash_open (l : list ascii) :
  forall prev_dash,
    dash_runs_open prev_dash l = true ->
    dash_runs_open true (lstrip_dash l) = true.
Proof.
  induction l as [|c t IH]; intros prev_dash E; simpl in *; [reflexivity|].
  destruct (Ascii.eqb c dash) eqn:Hc.
  - apply andb_true_iff in E. apply (IH true). tauto.
  - simpl. rewrite Hc. exact E.
Qed.

Lemma rstrip_dash_closed (l : list ascii) :
  forall prev_dash,
    dash_runs_open prev_dash l = true ->
    match rev (lstrip_dash (rev l)) with
    | [] => True
    | c :: t => dash_runs_ok prev_dash (c :: t) = true
    end.
Proof.
  induction l as [|c t IH]; intros prev_dash E; [exact I|].
  rewrite rstrip_cons. simpl in E.
  destruct (Ascii.eqb c dash) eqn:Hc.
  - apply andb_true_iff in E. destruct E as [Hb E].
    specialize (IH true E).
    destruct (rev (lstrip_dash (rev t))) as [|x r]; [exact I|].
    change (dash_runs_ok prev_dash (c :: x :: r))
      with (if Ascii.eqb c dash
            then negb prev_dash && dash_runs_ok true (x :: r)
            else is_slug_char c && dash_runs_ok false (x :: r)).
    rewrite Hc, Hb, IH. reflexivity.
  - apply andb_true_iff in E. destruct E as [Hs E].
    specialize (IH false E).
    destruct (rev (lstrip_dash (rev t))) as [|x r].
    + simpl. rewrite Hc, Hs. reflexivity.
    + change (dash_runs_ok prev_dash (c :: x :: r))
        with (if Ascii.eqb c dash
              then negb prev_dash && dash_runs_ok true (x :: r)
              else is_slug_char c && dash_runs_ok false (x :: r)).
      rewrite Hc, Hs, IH. reflexivity.
Qed.

Lemma dash_runs_ok_chars (l : list ascii) :
  forall prev_dash,
    dash_runs_ok prev_dash l = true ->
    Forall (fun c => is_slug_char c = true \/ c = dash) l.
Proof.
  induction l as [|c t IH]; intros prev_dash E; [constructor|].
  simpl in E. destruct (Ascii.eqb_spec c dash) as [->|_];
    apply andb_true_iff in E; destruct E as [E1 E2];
    constructor; eauto.
Qed.

Lemma sub_runs_fixed (l : list ascii) :
  forall prev_dash,
    dash_runs_ok prev_dash l = true -> sub_runs prev_dash l = l.
Proof.
  induction l as [|c t IH]; intros prev_dash E; [reflexivity|].
  simpl in *. destruct (Ascii.eqb_spec c dash) as [->|_];
    apply andb_true_iff in E; destruct E as [E1 E2].
  - change (is_slug_char dash) with false. cbv iota.
    apply negb_true_iff in E1. subst prev_dash.
    rewrite (IH true E2). reflexivity.
  - rewrite E1, (IH false E2). reflexivity.
Qed.

Lemma rstrip_dash_fixed (l : list ascii) :
  forall prev_dash,
    dash_runs_ok prev_dash l = true -> l <> [] ->
    rev (lstrip_dash (rev l)) = l.
Proof.
  induction l as [|c t IH]; intros prev_dash E Hne; [congruence|].
  rewrite rstrip_cons. simpl in E.
  destruct t as [|x r].
  - simpl. destruct (Ascii.eqb c dash); [|reflexivity].
    simpl in E. rewrite andb_false_r in E. discriminate.
  - destruct (Ascii.eqb c dash); apply andb_true_iff in E;
      destruct E as [_ E]; rewrite (IH _ E) by discriminate; reflexivity.
Qed.

(** X18: [generate_slug] on ASCII names.  What it returns has the shape of
    a slug: lower-case letters and digits in groups separated by single
    dashes, no dash at either end (or the empty string, for a name without
    letters and digits).  A name of that shape is returned as it is, so that
    generating a slug from a slug changes nothing. *)
Theorem generate_slug_shape :
  forall name : string,
    is_slug (generate_slug name) = true
    /\ (is_slug name = true -> generate_slug name = name)
    /\ generate_slug (generate_slug name) = generate_slug name.
Proof.
  assert (Hshape : forall name, is_slug (generate_slug name) = true).
  { intros name. unfold is_slug, generate_slug, strip_dash.
    rewrite list_ascii_of_string_of_list_ascii.
    pose proof (sub_runs_open (map lower_ascii (list_ascii_of_string name))
                              false) as Ho.
    apply lstrip_dash_open in Ho. apply rstrip_dash_closed in Ho.
    destruct (rev (lstrip_dash (rev (lstrip_dash _)))); [reflexivity|exact Ho]. }
  assert (Hfix : forall name, is_slug name = true -> generate_slug name = name).
  { intros name. unfold is_slug, generate_slug, strip_dash.
    rewrite <- (string_of_list_ascii_of_string name) at 3.
    destruct (list_ascii_of_string name) as [|c t] eqn:Hl; [reflexivity|].
    intros E. f_equal.
    assert (Hlow : map lower_ascii (c :: t) = c :: t).
    { rewrite <- (map_id (c :: t)) at 2. apply map_ext_in. intros a Ha.
      apply lower_slug_char.
      pose proof (dash_runs_ok_chars _ _ E) as Hf.
      rewrite Forall_forall in Hf. apply Hf. exact Ha. }
    rewrite Hlow.
    assert (Hc : Ascii.eqb c dash = false).
    { simpl in E. destruct (Ascii.eqb c dash); [discriminate|reflexivity]. }
    assert (Hsub : sub_runs false (c :: t) = c :: t).
    { rewrite <- (sub_runs_fixed _ _ E) at 2. simpl.
      destruct (is_slug_char c) eqn:Hs; [reflexivity|].
      simpl in E. rewrite Hc, Hs in E. discriminate. }
    rewrite Hsub. simpl lstrip_dash at 2. rewrite Hc.
    apply (rstrip_dash_fixed _ _ E). discriminate. }
  intros name. split; [apply Hshape|]. split; [apply Hfix|].
  apply Hfix. apply Hshape.
Qed.

Lemma select_by_slug (l : list Category.t) (c : Category.t) :
  NoDup (map Category.slug l) -> In c l ->
  filter (fun r => String.eqb (Category.slug r) (Category.slug c)) l = [c].
Proof.
  induction l as [|y l IH]; simpl; intros ND Hin; [contradiction|].
  inversion ND as [|? ? Hnot ND']; subst.
  destruct Hin as [->|Hin].
  - rewrite String.eqb_refl. f_equal. apply select_none.
    intros x Hx. apply String.eqb_neq. intros E. apply Hnot.
    rewrite <- E. apply in_map. exact Hx.
  - destruct (String.eqb_spec (Category.slug y) (Category.slug c)) as [E|_].
    + exfalso. apply Hnot. rewrite E. apply in_map. exact Hin.
    + apply IH; assumption.
Qed.

Section SlugExtras.
Context {num : Type} `{Amount num}.

(** X19: [check_slug_availability] on a table with unique slugs.  The slug
    of a stored category is taken for a new category and for every other
    category, and free for the category that carries it; a slug nobody
    carries is free for all.  [get_category_by_slug] finds the category in
    the first case and nothing in the second.  Both only read. *)
Theorem check_slug_availability_cases :
  forall (s : Session num) (slug : string) (category_id : option UUID),
    NoDup (map Category.slug (categories (pending s))) ->
    (forall c, In c (categories (pending s)) -> Category.slug c = slug ->
       check_slug_availability slug category_id s
       = (Ok (match category_id with
              | Some k => Category.id c =? k
              | None => false
              end), s)
       /\ get_category_by_slug slug s = (Ok (Some c), s))
    /\ (~ In slug (map Category.slug (categories (pending s))) ->
        check_slug_availability slug category_id s = (Ok true, s)
        /\ get_category_by_slug slug s = (Ok None, s)).
Proof.
  intros s slug category_id ND. split.
  - intros c Hin <-.
    pose proof (select_by_slug _ _ ND Hin) as Hsel.
    unfold check_slug_availability, get_category_by_slug, bind, execute. simpl.
    rewrite Hsel. split; [|reflexivity].
    rewrite (filter_andb
               (fun r => String.eqb (Category.slug r) (Category.slug c))
               (fun r => match category_id with
                         | Some cid => negb (Category.id r =? cid)
                         | None => true
                         end)).
    rewrite Hsel. simpl.
    destruct category_id as [k|]; [|reflexivity].
    destruct (Category.id c =? k); reflexivity.
  - intros Hnot.
    assert (Hnone : forall g : Category.t -> bool,
               filter (fun r => String.eqb (Category.slug r) slug && g r)
                      (categories (pending s)) = []).
    { intros g. apply select_none. intros x Hx.
      replace (String.eqb (Category.slug x) slug) with false; [reflexivity|].
      symmetry. apply String.eqb_neq. intros E. apply Hnot.
      rewrite <- E. apply in_map. exact Hx. }
    unfold check_slug_availability, get_category_by_slug, bind, execute. simpl.
    rewrite Hnone. split; [reflexivity|].
    rewrite <- slug_select_true, Hnone. reflexivity.
Qed.
End SlugExtras.

(** ** Ordered queries *)

Lemma insert_by_perm {A} (le : A -> A -> bool) (x : A) (l : list A) :
  Permutation (insert_by le x l) (x :: l).
Proof.
  induction l as [|y t IH]; simpl; [apply Permutation_refl|].
  destruct (le x y); [apply Permutation_refl|].
  apply perm_trans with (y :: x :: t); [|apply perm_swap].
  apply perm_skip. exact IH.
Qed.

Lemma order_by_perm {A} (le : A -> A -> bool) (l : list A) :
  Permutation (order_by le l) l.
Proof.
  unfold order_by. induction l as [|x t IH]; simpl; [apply perm_nil|].
  apply perm_trans with (x :: fold_right (insert_by le) [] t);
    [apply insert_by_perm | apply perm_skip; exact IH].
Qed.

Lemma insert_by_sorted {A} (le : A -> A -> bool) (x : A) (l : list A) :
  (forall a b, le a b = true \/ le b a = true) ->
  Sorted (fun a b => le a b = true) l ->
  Sorted (fun a b => le a b = true) (insert_by le x l).
Proof.
  intros Htotal. induction 1 as [|y t Hs IH Hhd]; simpl.
  - repeat constructor.
  - destruct (le x y) eqn:E.
    + constructor; [constructor; assumption|]. constructor. exact E.
    + constructor; [exact IH|].
      destruct t as [|z t']; simpl.
      * constructor. destruct (Htotal x y); congruence.
      * destruct (le x z).
        -- constructor. destruct (Htotal x y); congruence.
        -- inversion Hhd; subst. constructor. assumption.
Qed.

Lemma order_by_sorted {A} (le : A -> A -> bool) (l : list A) :
  (forall a b, le a b = true \/ le b a = true) ->
  Sorted (fun a b => le a b = true) (order_by le l).
Proof.
  intros Htotal. unfold order_by. induction l as [|x t IH]; simpl.
  - constructor.
  - apply insert_by_sorted; assumption.
Qed.

Lemma Sorted_weaken {A} (R S : A -> A -> Prop) (l : list A) :
  (forall a b, R a b -> S a b) -> Sorted R l -> Sorted S l.
Proof.
  intros Himp. induction 1 as [|y t Hs IH Hhd]; constructor; [exact IH|].
  destruct Hhd; constructor; auto.
Qed.

Lemma category_le_total (a b : Category.t) :
  category_le a b = true \/ category_le b a = true.
Proof.
  unfold category_le.
  destruct (Z.lt_trichotomy (Category.display_order a)
                            (Category.display_order b)) as [L|[E|L]].
  - left. apply orb_true_iff. left. apply Z.ltb_lt. exact L.
  - rewrite E, Z.eqb_refl, Z.ltb_irrefl. simpl.
    apply String.leb_total.
  - right. apply orb_true_iff. left. apply Z.ltb_lt. exact L.
Qed.

Section OrderedExtras.
Context {num : Type} `{Amount num}.

(** X20: [get_main_categories] answers the active categories without
    parent, each of them once and nothing else, in ascending
    [display_order] and, among equals, ascending [name]; it only reads. *)
Theorem get_main_categories_sorted :
  forall s : Session num,
    exists rows,
      get_main_categories s = (Ok rows, s)
      /\ Permutation rows
           (filter (fun c => match Category.parent_id c with
                             | None => Category.is_active c
                             | Some _ => false
                             end) (categories (pending s)))
      /\ Sorted (fun a b =>
                   Category.display_order a < Category.display_order b
                   \/ (Category.display_order a = Category.display_order b
                       /\ String.leb (Category.name a) (Category.name b)
                          = true)) rows.
Proof.
  intros s. unfold get_main_categories, execute. eexists.
  split; [reflexivity|]. split; [apply order_by_perm|].
  eapply Sorted_weaken; [|apply order_by_sorted; apply category_le_total].
  intros a b E. unfold category_le in E. apply orb_true_iff in E.
  destruct E as [E|E]; [left; apply Z.ltb_lt; exact E|].
  apply andb_true_iff in E. destruct E as [E1 E2]. right.
  apply Z.eqb_eq in E1. auto.
Qed.
End OrderedExtras.

(** ** Reviews, products and users *)

Section ReviewExtras.
Context {num : Type} `{Amount num}.

(** X21: one review for each user and product.  For a stored user and a
    stored product, a rating from 1 to 5 and a title the column takes: with
    no review of the product by the user and at most one purchase row,
    [create_review] stores the review, marked as a verified purchase exactly
    when there is a purchase row, approved, under a fresh id; after that
    every further [create_review] of that user for that product is refused
    with "You have already reviewed this product" and changes nothing. *)
Theorem create_review_once :
  forall (s : Session num) (user_id : UUID) (review_data again : ReviewCreate.t),
    In user_id (map User.id (users (pending s))) ->
    In (ReviewCreate.product_id review_data)
       (map Product.id (products (pending s))) ->
    1 <= ReviewCreate.rating review_data <= 5 ->
    (forall v, ReviewCreate.title review_data = Some v ->
               (String.length v <= 255)%nat) ->
    (forall r, In r (reviews (pending s)) -> Review.id r <> next_uuid s) ->
    filter (fun r => (Review.user_id r =? user_id)
                     && (Review.product_id r
                         =? ReviewCreate.product_id review_data))
           (reviews (pending s)) = [] ->
    (List.length (purchased_items user_id
                    (ReviewCreate.product_id review_data) (pending s))
     <= 1)%nat ->
    ReviewCreate.product_id again = ReviewCreate.product_id review_data ->
    exists r s',
      create_review user_id review_data s = (Ok r, s')
      /\ r = Review.mk (next_uuid s) user_id
               (ReviewCreate.product_id review_data)
               (ReviewCreate.rating review_data)
               (ReviewCreate.title review_data)
               (ReviewCreate.comment review_data)
               (negb (Nat.eqb (List.length
                                 (purchased_items user_id
                                    (ReviewCreate.product_id review_data)
                                    (pending s))) 0))
               true (now s)
      /\ persisted s' = set_reviews (reviews (pending s) ++ [r]) (pending s)
      /\ pending s' = persisted s'
      /\ create_review user_id again s'
         = (Raise (ValueError "You have already reviewed this product"), s').
Proof.
  intros s user_id review_data again _ _ _ _ _ Hnone Hone Hagain.
  unfold create_review at 1. unfold bind, execute. simpl. rewrite Hnone. simpl.
  destruct (purchased_items user_id (ReviewCreate.product_id review_data)
                            (pending s)) as [|a [|b l]] eqn:Hp;
    simpl in Hone; try lia; simpl;
    (eexists _, _; split; [reflexivity|]; simpl;
     split; [reflexivity|]; split; [reflexivity|]; split; [reflexivity|];
     unfold create_review, bind, execute; simpl;
     rewrite Hagain, filter_app, Hnone; simpl;
     rewrite !Z.eqb_refl; reflexivity).
Qed.

(** X22: a review is changed and removed by its author only.  For every
    other user [update_review] answers [None] and [delete_review] [False],
    with nothing changed.  For the author the update (a rating from 1 to 5,
    a title the column takes) stores the fields the request carries and
    keeps the others, author, product and purchase mark included; the
    deletion removes that row and no other. *)
Theorem review_author_only :
  forall (s : Session num) (r : Review.t) (user_id : UUID)
         (update_data : ReviewUpdate.t),
    NoDup (map Review.id (reviews (pending s))) ->
    In r (reviews (pending s)) ->
    (Review.user_id r <> user_id ->
     update_review (Review.id r) user_id update_data s = (Ok None, s)
     /\ delete_review (Review.id r) user_id s = (Ok false, s))
    /\ (Review.user_id r = user_id ->
        ((forall v, ReviewUpdate.rating update_data = Some v -> 1 <= v <= 5) ->
         (forall v, ReviewUpdate.title update_data = Some v ->
                    (String.length v <= 255)%nat) ->
         exists s',
           update_review (Review.id r) user_id update_data s
           = (Ok (Some (apply_review_update update_data r)), s')
           /\ persisted s'
              = set_reviews
                  (update_where (fun x => Review.id x =? Review.id r)
                                (fun _ => apply_review_update update_data r)
                                (reviews (pending s))) (pending s)
           /\ pending s' = persisted s')
        /\ (exists s',
             delete_review (Review.id r) user_id s = (Ok true, s')
             /\ persisted s'
                = set_reviews
                    (delete_where (fun x => Review.id x =? Review.id r)
                                  (reviews (pending s))) (pending s)
             /\ pending s' = persisted s'
             /\ ~ In r (reviews (persisted s'))
             /\ (forall x, In x (reviews (pending s)) -> x <> r ->
                   In x (reviews (persisted s'))))).
Proof.
  intros s r user_id update_data ND Hin.
  pose proof (select_by_key Review.id (reviews (pending s)) r ND Hin) as Hsel.
  assert (Hown : filter (fun x => (Review.id x =? Review.id r)
                                  && (Review.user_id x =? user_id))
                        (reviews (pending s))
                 = if Review.user_id r =? user_id then [r] else []).
  { rewrite (filter_andb (fun x => Review.id x =? Review.id r)
                         (fun x => Review.user_id x =? user_id)).
    rewrite Hsel. reflexivity. }
  split.
  - intros Hne. apply Z.eqb_neq in Hne.
    unfold update_review, delete_review, bind, execute. simpl.
    rewrite Hown, Hne. split; reflexivity.
  - intros He. apply Z.eqb_eq in He.
    unfold update_review, delete_review, bind, execute. simpl.
    rewrite Hown, He. simpl. unfold mutate, commit. simpl. split.
    + intros _ _. unfold refresh_review, bind, execute. simpl.
      rewrite find_head_filter.
      rewrite filter_update_where by reflexivity.
      rewrite Hsel. simpl. rewrite Z.eqb_refl. simpl.
      eexists. split; [reflexivity|]. simpl. split; [|reflexivity].
      rewrite (update_where_key_const Review.id (reviews (pending s)) r
                 (apply_review_update update_data) ND Hin).
      reflexivity.
    + eexists. split; [reflexivity|]. simpl.
      split; [reflexivity|]. split; [reflexivity|]. split.
      * unfold delete_where. intros Hf. apply filter_In in Hf.
        rewrite Z.eqb_refl in Hf. destruct Hf as [_ Hf]. discriminate.
      * intros x Hx Hne. unfold delete_where. apply filter_In.
        split; [exact Hx|]. apply negb_true_iff. apply Z.eqb_neq.
        intros E. apply Hne.
        apply (key_determines_row Review.id (reviews (pending s))); auto.
Qed.
End ReviewExtras.

Section ProductExtras.
Context {num : Type} `{Amount num}.

(** X23: [delete_product].  An unknown id is answered [False] with nothing
    changed.  For a stored product the row goes, and with it every cart
    line and every review of the product; the order lines of past orders
    all stay, those of the product with their product reference cleared, and
    no order, user, category or other product is touched. *)
Theorem delete_product_cascade :
  forall (s : Session num) (product_id : UUID),
    NoDup (map Product.id (products (pending s))) ->
    (~ In product_id (map Product.id (products (pending s))) ->
     delete_product product_id s = (Ok false, s))
    /\ (forall p, In p (products (pending s)) -> Product.id p = product_id ->
        exists s',
          delete_product product_id s = (Ok true, s')
          /\ pending s' = persisted s'
          /\ products (persisted s')
             = filter (fun x => negb (Product.id x =? product_id))
                      (products (pending s))
          /\ cart_items (persisted s')
             = filter (fun c => negb (CartItem.product_id c =? product_id))
                      (cart_items (pending s))
          /\ reviews (persisted s')
             = filter (fun r => negb (Review.product_id r =? product_id))
                      (reviews (pending s))
          /\ order_items (persisted s')
             = map (fun i => if opt_uuid_is (OrderItem.product_id i) product_id
                             then OrderItem.set_product_id None i else i)
                   (order_items (pending s))
          /\ orders (persisted s') = orders (pending s)
          /\ categories (persisted s') = categories (pending s)
          /\ users (persisted s') = users (pending s)
          /\ ~ In p (products (persisted s'))
          /\ (forall i, In i (order_items (persisted s')) ->
                OrderItem.product_id i <> Some product_id)).
Proof.
  intros s product_id ND. split.
  - intros Hnot. unfold delete_product, get_product, bind, execute. simpl.
    rewrite (select_absent_key Product.id (products (pending s)) product_id
               Hnot). reflexivity.
  - intros p Hin Hid. subst product_id.
    unfold delete_product, get_product, bind, execute. simpl.
    rewrite (select_by_key Product.id (products (pending s)) p ND Hin). simpl.
    unfold mutate, commit. simpl.
    eexists. split; [reflexivity|]. simpl.
    repeat split.
    + unfold delete_where. intros Hf. apply filter_In in Hf.
      rewrite Z.eqb_refl in Hf. destruct Hf as [_ Hf]. discriminate.
    + intros i Hi E. unfold update_where in Hi. apply in_map_iff in Hi.
      destruct Hi as (j & Hj & _).
      destruct (opt_uuid_is (OrderItem.product_id j) (Product.id p)) eqn:Ho;
        subst i.
      * simpl in E. discriminate.
      * rewrite E in Ho. simpl in Ho. rewrite Z.eqb_refl in Ho. discriminate.
Qed.
End ProductExtras.

Section UserExtras.
Context {num : Type} `{Amount num}.

Lemma get_current_user_of_row (d : Db num) (u : User.t) :
  NoDup (map User.id (users d)) -> In u (users d) ->
  get_current_user d (User.id u)
  = if User.is_active u then Allowed u
    else Refused (UnauthorizedException "User account is inactive").
Proof.
  intros ND Hin. unfold get_current_user.
  rewrite (select_by_key User.id (users d) u ND Hin).
  destruct (User.is_active u); reflexivity.
Qed.

Lemma users_update_row (l : list User.t) (u : User.t) (f : User.t -> User.t) :
  NoDup (map User.id l) -> In u l -> (forall x, User.id (f x) = User.id x) ->
  NoDup (map User.id (update_where (fun x => User.id x =? User.id u) f l))
  /\ In (f u) (update_where (fun x => User.id x =? User.id u) f l)
  /\ find (fun x => User.id x =? User.id u)
          (update_where (fun x => User.id x =? User.id u) f l) = Some (f u).
Proof.
  intros ND Hin Hf. split; [|split].
  - rewrite update_where_keys by exact Hf. exact ND.
  - unfold update_where. apply in_map_iff. exists u.
    rewrite Z.eqb_refl. auto.
  - rewrite find_head_filter.
    rewrite filter_update_where by (intros r; rewrite Hf; reflexivity).
    rewrite (select_by_key User.id l u ND Hin). simpl.
    rewrite Z.eqb_refl. reflexivity.
Qed.

(** X24: [delete_user] deactivates.  The call answers [True] and commits;
    the row of the user is still there, with the same columns but
    [is_active] false, and no row was added or removed; from then on
    [get_current_user] refuses the user's requests with "User account is
    inactive".  An unknown id is answered [False]. *)
Theorem delete_user_deactivates :
  forall (s : Session num) (user_id : UUID),
    NoDup (map User.id (users (pending s))) ->
    (~ In user_id (map User.id (users (pending s))) ->
     delete_user user_id s = (Ok false, s))
    /\ (forall u, In u (users (pending s)) -> User.id u = user_id ->
        exists s',
          delete_user user_id s = (Ok true, s')
          /\ pending s' = persisted s'
          /\ In (User_set_is_active false u) (users (persisted s'))
          /\ map User.id (users (persisted s'))
             = map User.id (users (pending s))
          /\ get_current_user (persisted s') user_id
             = Refused (UnauthorizedException "User account is inactive")
          /\ get_current_admin_user (persisted s') user_id
             = Refused (UnauthorizedException "User account is inactive")).
Proof.
  intros s user_id ND. split.
  - intros Hnot. unfold delete_user, get_user, bind, execute. simpl.
    rewrite (select_absent_key User.id (users (pending s)) user_id Hnot).
    reflexivity.
  - intros u Hin Hid. subst user_id.
    destruct (users_update_row (users (pending s)) u (User_set_is_active false)
                ND Hin (fun x => eq_refl)) as (ND' & Hin' & _).
    unfold delete_user, get_user, bind, execute. simpl.
    rewrite (select_by_key User.id (users (pending s)) u ND Hin). simpl.
    unfold mutate, commit. simpl.
    eexists. split; [reflexivity|]. simpl.
    split; [reflexivity|]. split; [exact Hin'|].
    split; [apply update_where_keys; reflexivity|].
    pose proof (get_current_user_of_row
                  (set_users (update_where (fun x => User.id x =? User.id u)
                                           (User_set_is_active false)
                                           (users (pending s))) (pending s))
                  (User_set_is_active false u) ND' Hin') as Hg.
    simpl in Hg. unfold get_current_admin_user. rewrite Hg. auto.
Qed.

(** X25: the administrator flag and the administrator guard.  After
    [make_admin] an active user passes [get_current_admin_user]; after
    [revoke_admin] the same user is refused with "Admin privileges
    required", while [get_current_user] still lets the user in.  Both calls
    return the stored row, and answer [None] for an unknown id. *)
Theorem admin_flag_and_guard :
  forall (s : Session num) (user_id : UUID),
    NoDup (map User.id (users (pending s))) ->
    (~ In user_id (map User.id (users (pending s))) ->
     make_admin user_id s = (Ok None, s)
     /\ revoke_admin user_id s = (Ok None, s))
    /\ (forall u, In u (users (pending s)) -> User.id u = user_id ->
        User.is_active u = true ->
        (exists s',
           make_admin user_id s = (Ok (Some (User_set_is_admin true u)), s')
           /\ pending s' = persisted s'
           /\ get_current_admin_user (persisted s') user_id
              = Allowed (User_set_is_admin true u))
        /\ (exists s',
             revoke_admin user_id s
             = (Ok (Some (User_set_is_admin false u)), s')
             /\ pending s' = persisted s'
             /\ get_current_user (persisted s') user_id
                = Allowed (User_set_is_admin false u)
             /\ get_current_admin_user (persisted s') user_id
                = Refused (ForbiddenException "Admin privileges required"))).
Proof.
  intros s user_id ND. split.
  - intros Hnot.
    unfold make_admin, revoke_admin, set_admin_flag, get_user, bind, execute.
    simpl.
    rewrite (select_absent_key User.id (users (pending s)) user_id Hnot).
    split; reflexivity.
  - intros u Hin Hid Hact. subst user_id.
    assert (Hflag : forall flag,
               exists s',
                 set_admin_flag flag (User.id u) s
                 = (Ok (Some (User_set_is_admin flag u)), s')
                 /\ pending s' = persisted s'
                 /\ get_current_user (persisted s') (User.id u)
                    = Allowed (User_set_is_admin flag u)).
    { intros flag.
      destruct (users_update_row (users (pending s)) u (User_set_is_admin flag)
                  ND Hin (fun x => eq_refl)) as (ND' & Hin' & Hfind).
      unfold set_admin_flag, get_user, bind, execute. simpl.
      rewrite (select_by_key User.id (users (pending s)) u ND Hin). simpl.
      unfold mutate, commit, refresh_user, bind, execute. simpl.
      rewrite Hfind. simpl.
      eexists. split; [reflexivity|]. simpl. split; [reflexivity|].
      pose proof (get_current_user_of_row
                    (set_users (update_where (fun x => User.id x =? User.id u)
                                             (User_set_is_admin flag)
                                             (users (pending s))) (pending s))
                    (User_set_is_admin flag u) ND' Hin') as Hg.
      simpl in Hg. rewrite Hact in Hg. exact Hg. }
    split.
    + destruct (Hflag true) as (s' & Hrun & Hp & Hg).
      exists s'. split; [exact Hrun|]. split; [exact Hp|].
      unfold get_current_admin_user. rewrite Hg. reflexivity.
    + destruct (Hflag false) as (s' & Hrun & Hp & Hg).
      exists s'. split; [exact Hrun|]. split; [exact Hp|].
      split; [exact Hg|].
      unfold get_current_admin_user. rewrite Hg. reflexivity.
Qed.
End UserExtras.

(** ** Listings: the pages together, and the calls outside the bounds *)



Section ListingExtras.
Context {num : Type} `{Amount num}.


(** X27: [get_users] outside the bounds the routes enforce.  A page before
    the first, or a negative page size, is refused by the database; a page
    size of 0 ends in a division by zero as soon as a user matches; a page
    after the last is answered, with no items and the true total. *)
Theorem get_users_out_of_bounds :
  forall (s : Session num) (page page_size : Z)
         (is_active is_admin : option bool) (search : option string),
    let rows :=
      order_by user_created_desc
        (filter (user_where is_active is_admin search) (users (pending s))) in
    let call := get_users page page_size is_active is_admin search in
    ((page < 1 /\ 1 <= page_size) \/ page_size < 0 ->
     call s = (Raise DBAPIError, s))
    /\ (page_size = 0 -> rows <> [] -> call s = (Raise ZeroDivisionError, s))
    /\ (1 <= page -> 1 <= page_size ->
        Z.of_nat (List.length rows) <= (page - 1) * page_size ->
        exists r,
          call s = (Ok r, s) /\ ListResponse.items r = []
          /\ ListResponse.total r = Z.of_nat (List.length rows)).
Proof.
  intros s page page_size is_active is_admin search rows call.
  assert (E : call s
              = page_call rows
                  (Z.of_nat
                     (List.length
                        (filter (user_where is_active is_admin search)
                                (users (pending s)))))
                  page page_size 1 s) by reflexivity.
  assert (Hlen : List.length (filter (user_where is_active is_admin search)
                                     (users (pending s)))
                 = List.length rows)
    by (unfold rows; rewrite order_by_length; reflexivity).
  rewrite Hlen in E. rewrite E. clear E Hlen.
  unfold page_call, fetch_page, math_ceil_div, bind, ret.
  split; [|split].
  - intros Hb.
    replace (((page - 1) * page_size <? 0) || (page_size <? 0)) with true;
      [reflexivity|].
    symmetry. apply orb_true_iff.
    destruct Hb as [[Hp Hps]|Hps]; [left | right]; apply Z.ltb_lt; nia.
  - intros -> Hne. rewrite Z.mul_0_r. simpl.
    destruct rows as [|x l]; [congruence|].
    replace (0 <? Z.of_nat (List.length (x :: l))) with true
      by (symmetry; apply Z.ltb_lt; simpl List.length; lia).
    reflexivity.
  - intros Hp Hps Hlast.
    replace (((page - 1) * page_size <? 0) || (page_size <? 0)) with false.
    2:{ symmetry. apply orb_false_iff. split; apply Z.ltb_ge; nia. }
    replace (page_size =? 0) with false by (symmetry; apply Z.eqb_neq; lia).
    assert (Hnone : offset_limit ((page - 1) * page_size) page_size rows = []).
    { unfold offset_limit. rewrite skipn_all2; [apply firstn_nil|].
      apply Nat2Z.inj_le. rewrite Z2Nat.id by nia. exact Hlast. }
    destruct (0 <? Z.of_nat (List.length rows)); simpl; rewrite Hnone;
      eexists; repeat split.
Qed.
End ListingExtras.

(** ** The further properties on the sample data *)

Ltac sample_rows :=
  simpl; intros;
  repeat match goal with
         | H : _ \/ _ |- _ => destruct H
         | H : False |- _ => destruct H
         | H : _ /\ _ |- _ => destruct H
         end;
  subst; simpl in *; try lia; try discriminate; try congruence; auto.

(** User 3 puts two units of product 10 into a cart that holds product 13. *)
Lemma add_to_cart_new_line_witness :
  exists s',
    add_to_cart 3 10 2 Backoffice.session
    = (Ok (CartItem.mk 1000 3 10 2,
           Some (Sample.product 10 "Product A" 3000%Q (Some 1) 5 true)), s')
    /\ cart_items (persisted s')
       = cart_items Backoffice.db ++ [CartItem.mk 1000 3 10 2]
    /\ commits s' = 1%nat.
Proof.
  destruct (add_to_cart_new_line Backoffice.db 1000 0 3 10 2
              (Sample.product 10 "Product A" 3000%Q (Some 1) 5 true))
    as (s' & Hrun & Hcart & _ & Hc).
  - simpl. auto.
  - reflexivity.
  - reflexivity.
  - simpl. lia.
  - reflexivity.
  - sample_rows.
  - exists s'. auto.
Defined.


(** User 1 holds one unit of product 11 and asks for three more, with three
    in stock: the line was raised in the session, and nothing was stored. *)
Lemma cart_failure_commits_nothing_witness :
  fst (add_to_cart 1 11 3 Sample.session)
  = Raise (ValueError "Insufficient stock")
  /\ pending (snd (add_to_cart 1 11 3 Sample.session)) <> Sample.db
  /\ persisted (snd (add_to_cart 1 11 3 Sample.session)) = Sample.db
  /\ commits (snd (add_to_cart 1 11 3 Sample.session)) = 0%nat.
Proof.
  split; [reflexivity|]. split; [vm_compute; intros E; discriminate E|].
  apply (proj1 (cart_failure_commits_nothing Sample.session
                  (snd (add_to_cart 1 11 3 Sample.session))
                  (ValueError "Insufficient stock")) 1 11 3).
  reflexivity.
Defined.

(** Line 100 is user 1's and holds product 10, five in stock. *)
Lemma update_cart_item_refusals_witness :
  update_cart_item 100 2 1 Sample.session = (Ok None, Sample.session)
  /\ update_cart_item 100 1 9 Sample.session
     = (Raise (ValueError "Insufficient stock"), Sample.session).
Proof.
  destruct (update_cart_item_refusals Sample.session 100 2 1) as [Hnone _].
  destruct (update_cart_item_refusals Sample.session 100 1 9) as [_ Hshort].
  split.
  - apply Hnone. sample_rows.
  - apply (Hshort (CartItem.mk 100 1 10 1)
                  (Sample.product 10 "Product A" 3000%Q (Some 1) 5 true));
      [reflexivity | reflexivity | simpl; lia].
Defined.

Lemma remove_from_cart_once_witness :
  remove_from_cart 100 2 Sample.session = (Ok false, Sample.session)
  /\ exists s',
       remove_from_cart 100 1 Sample.session = (Ok true, s')
       /\ ~ In (CartItem.mk 100 1 10 1) (cart_items (persisted s'))
       /\ In (CartItem.mk 101 1 11 1) (cart_items (persisted s'))
       /\ remove_from_cart 100 1 s' = (Ok false, s').
Proof.
  assert (ND : NoDup (map CartItem.id (cart_items Sample.db)))
    by (simpl; distinct_keys).
  assert (Hin : In (CartItem.mk 100 1 10 1) (cart_items Sample.db))
    by (simpl; auto).
  split.
  - apply (proj1 (remove_from_cart_once Sample.db 1000 0 100 2
                    (CartItem.mk 100 1 10 1) ND Hin eq_refl)).
    simpl. lia.
  - destruct (proj2 (remove_from_cart_once Sample.db 1000 0 100 1
                       (CartItem.mk 100 1 10 1) ND Hin eq_refl) eq_refl)
      as (s' & Hrun & _ & Hgone & Hkeep & Hagain).
    exists s'. split; [exact Hrun|]. split; [exact Hgone|].
    split; [|exact Hagain].
    apply Hkeep; [simpl; auto | discriminate].
Defined.

Lemma clear_cart_empties_witness :
  exists s',
    clear_cart 1 Sample.session = (Ok tt, s')
    /\ cart_items (persisted s')
       = [CartItem.mk 102 2 12 2; CartItem.mk 103 3 13 1].
Proof.
  destruct (clear_cart_empties Sample.session 1)
    as (s' & Hrun & _ & Hrest & _).
  exists s'. split; [exact Hrun|].
  rewrite Hrest; [reflexivity|]. simpl. distinct_keys.
Defined.

(** User 9 has no cart; the cart of user 2 holds the withdrawn product 12. *)
Lemma create_order_refusals_witness :
  create_order 9 Sample.order_data Sample.session
  = (Raise (ValueError "Cart is empty"), Sample.session)
  /\ exists msg,
       create_order 2 Sample.order_data Sample.session
       = (Raise (ValueError msg), Sample.session).
Proof.
  split.
  - apply (proj1 (create_order_refusals Sample.session 9 Sample.order_data)).
    reflexivity.
  - apply (proj2 (create_order_refusals Sample.session 2 Sample.order_data)
                 (CartItem.mk 102 2 12 2)).
    + simpl. auto.
    + right. eexists. split; [reflexivity|]. left. reflexivity.
Defined.

(** The new order would take the id of order 200: the insert is refused
    after the session drew the id, and nothing is stored. *)
Lemma create_order_failure_commits_nothing_witness :
  fst (create_order 1 Sample.order_data (open_session Sample.db 200 0))
  = Raise IntegrityError
  /\ persisted (snd (create_order 1 Sample.order_data
                                  (open_session Sample.db 200 0)))
     = Sample.db
  /\ commits (snd (create_order 1 Sample.order_data
                                (open_session Sample.db 200 0))) = 0%nat.
Proof.
  split; [reflexivity|].
  apply (create_order_failure_commits_nothing
           (open_session Sample.db 200 0)
           (snd (create_order 1 Sample.order_data
                              (open_session Sample.db 200 0)))
           1 Sample.order_data IntegrityError).
  reflexivity.
Defined.

(** User 1 orders products 10 and 11 and cancels: the four product rows are
    those from before, the cart stays empty. *)
Lemma create_then_cancel_restores_stock_witness :
  exists (lo lo' : LoadedOrder Q) (s1 s2 : Session Q),
    create_order 1 Sample.order_data Backoffice.session = (Ok lo, s1)
    /\ cancel_order (Order.id (fst lo)) 1 s1 = (Ok (Some lo'), s2)
    /\ products (persisted s2) = products Backoffice.db
    /\ filter (fun ci => CartItem.user_id ci =? 1) (cart_items (persisted s2))
       = [].
Proof.
  destruct (create_then_cancel_restores_stock Backoffice.db 1000 0 1
              Sample.order_data)
    as (lo & lo' & s1 & s2 & H1 & H2 & H3 & _ & _ & _ & H7 & _).
  - simpl. auto.
  - simpl. discriminate.
  - exact sample_user_1_lines.
  - simpl. distinct_keys.
  - simpl. distinct_keys.
  - simpl. intros o [<-|[<-|[]]]; simpl; (split; [lia | discriminate]).
  - sample_rows.
  - exists lo, lo', s1, s2. auto.
Defined.

Lemma cancel_order_not_repeatable_witness :
  exists lo s1,
    cancel_order 201 1 Sample.session = (Ok (Some lo), s1)
    /\ cancel_order 201 1 s1
       = (Raise (ValueError "Order cannot be cancelled at this stage"), s1).
Proof.
  apply (cancel_order_not_repeatable Sample.db 1000 0 201 1
           (Sample.order 201 1 PENDING)).
  - simpl. distinct_keys.
  - simpl. distinct_keys.
  - simpl. auto.
  - reflexivity.
  - reflexivity.
  - left. reflexivity.
Defined.

(** The shipped order 200 is marked delivered, and with that paid; the
    stock of its product stays at 5. *)
Lemma update_order_status_behaviour_witness :
  update_order_status 999 DELIVERED Sample.session = (Ok None, Sample.session)
  /\ exists o' s',
       update_order_status 200 DELIVERED Sample.session
       = (Ok (Some (o', Order_items Sample.db (Sample.order 200 1 SHIPPED))), s')
       /\ Order.status o' = DELIVERED
       /\ Order.payment_status o' = PAY_PAID
       /\ products (persisted s') = products Sample.db.
Proof.
  destruct (update_order_status_behaviour Sample.db 1000 0 999 DELIVERED)
    as [Hnone _]; [simpl; distinct_keys|].
  destruct (update_order_status_behaviour Sample.db 1000 0 200 DELIVERED)
    as [_ Hset]; [simpl; distinct_keys|].
  split.
  - apply Hnone. simpl. intuition lia.
  - destruct (Hset (Sample.order 200 1 SHIPPED)) as (o' & s' & Hrun & Ho & Hp & _);
      [simpl; auto | reflexivity |].
    exists o', s'. split; [exact Hrun|]. rewrite Ho, Hp. auto.
Defined.

Lemma get_order_is_owner_only_witness :
  get_order_admin 201 Sample.session
  = (Ok (Some (Sample.order 201 1 PENDING,
               Order_items Sample.db (Sample.order 201 1 PENDING))),
     Sample.session)
  /\ get_order 201 2 Sample.session = (Ok None, Sample.session).
Proof.
  apply (get_order_is_owner_only Sample.session (Sample.order 201 1 PENDING) 2).
  - simpl. distinct_keys.
  - simpl. auto.
Defined.

(** Category 9 is unknown; the root category 1 holds product 10; category 2
    has neither products nor subcategories. *)
Lemma delete_category_guards_witness :
  delete_category 9 false Sample.session = (Ok false, Sample.session)
  /\ (exists msg,
        delete_category 1 false Sample.session
        = (Raise (ValueError msg), Sample.session))
  /\ exists s',
       delete_category 2 false Sample.session = (Ok true, s')
       /\ map Category.id (categories (persisted s')) = [1; 3; 4]
       /\ products (persisted s') = products Sample.db.
Proof.
  assert (ND : NoDup (map Category.id (categories Sample.db)))
    by (simpl; distinct_keys).
  split; [|split].
  - apply (proj1 (delete_category_guards Sample.db 1000 0 9 ND)).
    simpl. intuition lia.
  - apply (proj1 (proj2 (delete_category_guards Sample.db 1000 0 1 ND)
                        (Sample.category 1 "Root" None 0 true)
                        ltac:(simpl; auto) eq_refl)).
    discriminate.
  - destruct (proj2 (proj2 (proj2 (delete_category_guards Sample.db 1000 0 2 ND)
                                  (Sample.category 2 "B" (Some 1) 2 true)
                                  ltac:(simpl; auto 6) eq_refl))
                    eq_refl eq_refl) as (s' & Hrun & Hp & _).
    exists s'. split; [exact Hrun|]. rewrite Hp. split; reflexivity.
Defined.

(** The slug "B" is taken; no category has the id 99; the name "A" is taken
    while the slug "a-new" is free. *)
Lemma create_category_refusals_witness :
  create_category (CategoryCreate.mk "New" "B" None None 0 true false)
                  Sample.session
  = (Raise (ValueError "Slug 'B' is already in use"), Sample.session)
  /\ create_category (CategoryCreate.mk "New" "new" None (Some 99) 0 true false)
                     Sample.session
     = (Raise (ValueError "Parent category not found"), Sample.session)
  /\ exists s',
       create_category (CategoryCreate.mk "A" "a-new" None None 0 true false)
                       Sample.session
       = (Raise IntegrityError, s')
       /\ persisted s' = Sample.db.
Proof.
  split; [|split].
  - apply (proj1 (create_category_refusals Sample.session
                    (CategoryCreate.mk "New" "B" None None 0 true false))
                 (Sample.category 2 "B" (Some 1) 2 true)).
    reflexivity.
  - apply (proj1 (proj2 (create_category_refusals Sample.session
                           (CategoryCreate.mk "New" "new" None (Some 99) 0
                                              true false))) 99);
      [reflexivity | reflexivity | simpl; intuition lia].
  - destruct (proj2 (proj2 (create_category_refusals Sample.session
                              (CategoryCreate.mk "A" "a-new" None None 0
                                                 true false)))
                    (Sample.category 3 "A" (Some 1) 1 true))
      as (s' & Hrun & Hp & _);
      [reflexivity | simpl; lia | reflexivity | simpl; auto | reflexivity |].
    exists s'. split; [exact Hrun | exact Hp].
Defined.


(** The root category 1 is moved under its own child 2. *)
Lemma update_category_parent_check_witness :
  update_category 1 (CategoryUpdate.mk None None None (Some (Some 1))
                                       None None None) Sample.session
  = (Raise (ValueError "Category cannot be its own parent"), Sample.session)
  /\ exists s',
       update_category 1 (CategoryUpdate.mk None None None (Some (Some 2))
                                            None None None) Sample.session
       = (Ok (Some (Sample.category 1 "Root" (Some 2) 0 true)), s')
       /\ In (Sample.category 1 "Root" (Some 2) 0 true)
             (categories (persisted s'))
       /\ In (Sample.category 2 "B" (Some 1) 2 true)
             (categories (persisted s')).
Proof.
  destruct (update_category_parent_check Sample.session
              (Sample.category 1 "Root" None 0 true)
              (Sample.category 2 "B" (Some 1) 2 true))
    as (Hself & s' & Hrun & _ & Ha & Hb).
  - simpl. distinct_keys.
  - simpl. auto.
  - simpl. auto.
  - intros o Ho Hne. simpl in Ho.
    repeat (destruct Ho as [<-|Ho];
            [simpl in *; split; (discriminate || congruence)|]).
    destruct Ho.
  - reflexivity.
  - simpl. lia.
  - split; [exact Hself|]. exists s'. auto.
Defined.


Lemma generate_slug_shape_witness :
  generate_slug "First Aid & Kits" = "first-aid-kits"%string
  /\ generate_slug "  --Syringes (5 ml)--" = "syringes-5-ml"%string
  /\ generate_slug "first-aid-kits" = "first-aid-kits"%string.
Proof.
  split; [reflexivity|]. split; [reflexivity|].
  apply (proj1 (proj2 (generate_slug_shape "first-aid-kits"))).
  reflexivity.
Defined.

(** The slug "A" belongs to category 3. *)
Lemma check_slug_availability_cases_witness :
  check_slug_availability "A" None Sample.session = (Ok false, Sample.session)
  /\ check_slug_availability "A" (Some 3) Sample.session
     = (Ok true, Sample.session)
  /\ check_slug_availability "A" (Some 2) Sample.session
     = (Ok false, Sample.session)
  /\ check_slug_availability "fresh" None Sample.session
     = (Ok true, Sample.session).
Proof.
  assert (ND : NoDup (map Category.slug (categories (pending Sample.session)))).
  { simpl. repeat (constructor; [simpl; intuition discriminate|]).
    constructor. }
  assert (Hin : In (Sample.category 3 "A" (Some 1) 1 true)
                   (categories (pending Sample.session)))
    by (simpl; auto).
  split; [|split; [|split]].
  - apply (proj1 (proj1 (check_slug_availability_cases Sample.session "A" None
                           ND) _ Hin eq_refl)).
  - apply (proj1 (proj1 (check_slug_availability_cases Sample.session "A"
                           (Some 3) ND) _ Hin eq_refl)).
  - apply (proj1 (proj1 (check_slug_availability_cases Sample.session "A"
                           (Some 2) ND) _ Hin eq_refl)).
  - apply (proj1 (proj2 (check_slug_availability_cases Sample.session "fresh"
                           None ND)
                        ltac:(simpl; intuition discriminate))).
Defined.

(** User 3 reviews product 13, never ordered, and tries again. *)
Lemma create_review_once_witness :
  exists r s',
    create_review 3 (ReviewCreate.mk 13 4 (Some "Fine"%string) None)
                  Backoffice.session = (Ok r, s')
    /\ Review.is_verified_purchase r = false
    /\ reviews (persisted s') = reviews Backoffice.db ++ [r]
    /\ create_review 3 (ReviewCreate.mk 13 1 None None) s'
       = (Raise (ValueError "You have already reviewed this product"), s').
Proof.
  destruct (create_review_once Backoffice.session 3
              (ReviewCreate.mk 13 4 (Some "Fine"%string) None)
              (ReviewCreate.mk 13 1 None None))
    as (r & s' & Hrun & Hr & Hper & _ & Hagain).
  - simpl. auto.
  - simpl. auto 6.
  - simpl. lia.
  - simpl. intros v E. inversion E; subst. simpl. lia.
  - sample_rows.
  - reflexivity.
  - simpl. lia.
  - reflexivity.
  - exists r, s'. split; [exact Hrun|].
    split; [rewrite Hr; reflexivity|].
    split; [rewrite Hper; reflexivity | exact Hagain].
Defined.

(** Review 400 is user 1's. *)
Lemma review_author_only_witness :
  update_review 400 2 (ReviewUpdate.mk (Some 1) None None) Backoffice.session
  = (Ok None, Backoffice.session)
  /\ delete_review 400 2 Backoffice.session = (Ok false, Backoffice.session)
  /\ (exists s',
        update_review 400 1 (ReviewUpdate.mk (Some 4) None None)
                      Backoffice.session
        = (Ok (Some (Backoffice.review 400 1 10 4)), s')
        /\ reviews (persisted s')
           = [Backoffice.review 400 1 10 4; Backoffice.review 401 2 10 3])
  /\ exists s',
       delete_review 400 1 Backoffice.session = (Ok true, s')
       /\ reviews (persisted s') = [Backoffice.review 401 2 10 3].
Proof.
  assert (ND : NoDup (map Review.id (reviews (pending Backoffice.session))))
    by (simpl; distinct_keys).
  assert (Hin : In (Backoffice.review 400 1 10 5)
                   (reviews (pending Backoffice.session)))
    by (simpl; auto).
  destruct (review_author_only Backoffice.session (Backoffice.review 400 1 10 5)
              2 (ReviewUpdate.mk (Some 1) None None) ND Hin) as [Hother _].
  destruct (review_author_only Backoffice.session (Backoffice.review 400 1 10 5)
              1 (ReviewUpdate.mk (Some 4) None None) ND Hin) as [_ Hauthor].
  destruct (Hother ltac:(simpl; lia)) as [Hu Hd].
  destruct (Hauthor eq_refl) as [Hupd (s2 & Hdel & Hper2 & _)].
  destruct Hupd as (s1 & Hrun & Hper1 & _).
  { simpl. intros v E. inversion E; subst. lia. }
  { simpl. intros v E. discriminate E. }
  split; [exact Hu|]. split; [exact Hd|]. split.
  - exists s1. split; [exact Hrun|]. rewrite Hper1. reflexivity.
  - exists s2. split; [exact Hdel|]. rewrite Hper2. reflexivity.
Defined.

(** Product 10 is in the cart of user 1, in two orders and under two
    reviews. *)
Lemma delete_product_cascade_witness :
  delete_product 99 Backoffice.session = (Ok false, Backoffice.session)
  /\ exists s',
       delete_product 10 Backoffice.session = (Ok true, s')
       /\ map Product.id (products (persisted s')) = [11; 12; 13]
       /\ map CartItem.id (cart_items (persisted s')) = [101; 102; 103]
       /\ reviews (persisted s') = []
       /\ map (fun i => (OrderItem.id i, OrderItem.product_id i))
              (order_items (persisted s'))
          = [(300, None); (301, None); (302, None); (303, Some 99)].
Proof.
  assert (ND : NoDup (map Product.id (products (pending Backoffice.session))))
    by (simpl; distinct_keys).
  split.
  - apply (proj1 (delete_product_cascade Backoffice.session 99 ND)).
    simpl. intuition lia.
  - destruct (proj2 (delete_product_cascade Backoffice.session 10 ND)
                    (Sample.product 10 "Product A" 3000%Q (Some 1) 5 true)
                    ltac:(simpl; auto) eq_refl)
      as (s' & Hrun & _ & Hp & Hc & Hr & Hi & _).
    exists s'. split; [exact Hrun|]. rewrite Hp, Hc, Hr, Hi.
    repeat split; reflexivity.
Defined.

(** User 1 is deactivated. *)
Lemma delete_user_deactivates_witness :
  delete_user 9 Backoffice.session = (Ok false, Backoffice.session)
  /\ exists s',
       delete_user 1 Backoffice.session = (Ok true, s')
       /\ In (Backoffice.user 1 "a@example.org" false false)
             (users (persisted s'))
       /\ map User.id (users (persisted s')) = [1; 2; 3; 4]
       /\ get_current_user (persisted s') 1
          = Refused (UnauthorizedException "User account is inactive").
Proof.
  assert (ND : NoDup (map User.id (users (pending Backoffice.session))))
    by (simpl; distinct_keys).
  split.
  - apply (proj1 (delete_user_deactivates Backoffice.session 9 ND)).
    simpl. intuition lia.
  - destruct (proj2 (delete_user_deactivates Backoffice.session 1 ND)
                    (Backoffice.user 1 "a@example.org" true false)
                    ltac:(simpl; auto) eq_refl)
      as (s' & Hrun & _ & Hin & Hids & Hg & _).
    exists s'. auto.
Defined.

(** The customer 1 is made an administrator; the administrator 2 is made a
    customer. *)
Lemma admin_flag_and_guard_witness :
  (exists s',
     make_admin 1 Backoffice.session
     = (Ok (Some (Backoffice.user 1 "a@example.org" true true)), s')
     /\ get_current_admin_user (persisted s') 1
        = Allowed (Backoffice.user 1 "a@example.org" true true))
  /\ (exists s',
        revoke_admin 2 Backoffice.session
        = (Ok (Some (Backoffice.user 2 "b@example.org" true false)), s')
        /\ get_current_admin_user (persisted s') 2
           = Refused (ForbiddenException "Admin privileges required"))
  /\ get_current_admin_user Backoffice.db 1
     = Refused (ForbiddenException "Admin privileges required")
  /\ get_current_admin_user Backoffice.db 2
     = Allowed (Backoffice.user 2 "b@example.org" true true).
Proof.
  assert (ND : NoDup (map User.id (users (pending Backoffice.session))))
    by (simpl; distinct_keys).
  split; [|split; [|split; reflexivity]].
  - destruct (proj1 (proj2 (admin_flag_and_guard Backoffice.session 1 ND)
                           (Backoffice.user 1 "a@example.org" true false)
                           ltac:(simpl; auto) eq_refl eq_refl))
      as (s' & Hrun & _ & Hg).
    exists s'. auto.
  - destruct (proj2 (proj2 (admin_flag_and_guard Backoffice.session 2 ND)
                           (Backoffice.user 2 "b@example.org" true true)
                           ltac:(simpl; auto) eq_refl eq_refl))
      as (s' & Hrun & _ & _ & Hg).
    exists s'. auto.
Defined.


(** Four users: page 0, page size 0, and page 5 of pages of ten. *)
Lemma get_users_out_of_bounds_witness :
  get_users 0 10 None None None Backoffice.session
  = (Raise DBAPIError, Backoffice.session)
  /\ get_users 1 0 None None None Backoffice.session
     = (Raise ZeroDivisionError, Backoffice.session)
  /\ exists r,
       get_users 5 10 None None None Backoffice.session
       = (Ok r, Backoffice.session)
       /\ ListResponse.items r = [] /\ ListResponse.total r = 4.
Proof.
  split; [|split].
  - apply (proj1 (get_users_out_of_bounds Backoffice.session 0 10 None None
                    None)). left. lia.
  - apply (proj1 (proj2 (get_users_out_of_bounds Backoffice.session 1 0 None
                           None None))); [reflexivity | discriminate].
  - destruct (proj2 (proj2 (get_users_out_of_bounds Backoffice.session 5 10
                              None None None)))
      as (r & Hrun & Hi & Ht); [lia | lia | simpl; lia |].
    exists r. split; [exact Hrun|]. split; [exact Hi|]. rewrite Ht. reflexivity.
Defined.

(** The root category is deleted with [force]: product 10 goes with it. *)
Lemma delete_category_force_witness :
  exists s',
    delete_category 1 true Sample.session = (Ok true, s')
    /\ map Category.id (categories (persisted s')) = [2; 3; 4]
    /\ map Category.parent_id (categories (persisted s')) = [None; None; None]
    /\ map Product.id (products (persisted s')) = [11; 12; 13].
Proof.
  destruct (delete_category_force Sample.db 1000 0 1
              (Sample.category 1 "Root" None 0 true))
    as (s' & Hrun & Hc & Hp).
  - reflexivity.
  - simpl. distinct_keys.
  - exists s'. split; [exact Hrun|]. rewrite Hc, Hp. repeat split; reflexivity.
Defined.

(** The tree of the sample categories has the root as its only top-level
    node. *)
Lemma tree_top_level_witness :
  map tree_id
      (match fst (get_category_tree 10 Sample.session) with
       | Ok tree => tree
       | Raise _ => []
       end) = [1].
Proof.
  destruct (tree_top_level 10 Sample.session Sample.session
              (match fst (get_category_tree 10 Sample.session) with
               | Ok tree => tree
               | Raise _ => []
               end)) as [_ Hids].
  - reflexivity.
  - rewrite Hids. reflexivity.
Defined.

(** The sample categories form a forest of height 2. *)
Lemma tree_builds_witness :
  exists tree, get_category_tree 5 Sample.session = (Ok tree, Sample.session).
Proof.
  apply (tree_builds (fun k => if k =? 1 then 1%nat else 0%nat)).
  - intros k p Hk Hp. simpl in Hk.
    repeat (destruct Hk as [<-|Hk];
            [simpl in Hp; inversion Hp; subst; simpl; lia|]).
    destruct Hk.
  - intros c Hc. simpl in Hc.
    repeat (destruct Hc as [<-|Hc]; [simpl; lia|]). destruct Hc.
Defined.
